(** * Schedule-row normalisation of the graduate schedule planner

    A shallow embedding of the calendar component's parsing pipeline
    ([deriveLearnerGroup], [fixInvalidDate], [parseTime], [parseDateTime],
    the per-row callbacks of [processExcelFile] and [processCSVFile]), of
    its event handlers ([handleAddEvent], [handleUpdateEvent],
    [handleDeleteEvent], the form's [onSubmit], [handleDateDoubleClick]),
    of the uploads ([handleFileUpload] and what [processExcelFile] and
    [processCSVFile] leave in the state), of the effect that lists the
    groups and of the colours of [eventPropGetter].

    Conventions of the embedding.
    - A JavaScript string is a [list ascii]: the model covers strings whose
      code units lie in the 8-bit range.
    - A JavaScript number is an exact integer or [NaN]; the pipeline only
      produces integers, and those a valid date is made from are inside
      the range where doubles are exact.  Non-integer spreadsheet cells
      are outside the model.
    - A [Date] is [InvalidDate] or its local wall-clock reading in
      milliseconds, LocalTime(t) = t + offset, for a host whose offset from
      UTC is constant.  Comparing two dates is unaffected by the shift; only
      [new Date(ms)] needs the offset.  The limit of 8.64e15 ms on time
      values is applied where a date is made from a number
      ([new Date(ms)]); the setters and [add], which move a date by days,
      hours and minutes, are those of dates two days or more inside that
      range.
    - An exception is the [Throw] completion; [try]/[catch] is [catch].
    - Of the libraries (moment, SheetJS, Papa Parse) the embedding has what
      the component calls: strict parsing against a list of formats,
      [format], [set] and [add] of moment; rows of cell values; rows of
      named fields. *)

From Stdlib Require Import ZArith List Ascii String Bool Lia DecimalString.
From Stdlib Require Import Permutation Sorted.
Import ListNotations.
Open Scope Z_scope.

(* ================================================================= *)
(** ** Strings *)

Definition jsstring := list ascii.

Definition str (s : string) : jsstring := list_ascii_of_string s.

Definition code (c : ascii) : Z := Z.of_N (N_of_ascii c).

Definition chr (n : Z) : ascii := ascii_of_N (Z.to_N n).

Definition between (lo hi n : Z) : bool := (lo <=? n) && (n <=? hi).

Definition isDigit (c : ascii) : bool := between 48 57 (code c).

Definition isUpperAZ (c : ascii) : bool := between 65 90 (code c).

Definition isLowerAZ (c : ascii) : bool := between 97 122 (code c).

(** WhiteSpace and LineTerminator code units of the 8-bit range: TAB, LF,
    VT, FF, CR, SP and NBSP.  [\s] and [trim] both use this set. *)
Definition isWhiteSpace (c : ascii) : bool :=
  between 9 13 (code c) || (code c =? 32) || (code c =? 160).

(** [String.prototype.toLowerCase] on one code unit: A-Z and the Latin-1
    capitals (all of 192..222 but the multiplication sign). *)
Definition lowerChar (c : ascii) : ascii :=
  let n := code c in
  if between 65 90 n || (between 192 222 n && negb (n =? 215))
  then chr (n + 32) else c.

(** [String.prototype.toUpperCase] on one code unit.  The three code units
    of the 8-bit range whose upper case is not one 8-bit unit (181, 223,
    255) are left as they are; the program upper-cases only a string of one
    letter A-H and one digit. *)
Definition upperChar (c : ascii) : ascii :=
  let n := code c in
  if between 97 122 n || (between 224 254 n && negb (n =? 247))
  then chr (n - 32) else c.

Definition toLowerCase (s : jsstring) : jsstring := map lowerChar s.

Definition toUpperCase (s : jsstring) : jsstring := map upperChar s.

Fixpoint trimStart (s : jsstring) : jsstring :=
  match s with
  | c :: t => if isWhiteSpace c then trimStart t else s
  | [] => []
  end.

Definition trimEnd (s : jsstring) : jsstring := rev (trimStart (rev s)).

Definition trim (s : jsstring) : jsstring := trimEnd (trimStart s).

Definition ascii_eqb (a b : ascii) : bool := code a =? code b.

Fixpoint streq (a b : jsstring) : bool :=
  match a, b with
  | [], [] => true
  | x :: a', y :: b' => ascii_eqb x y && streq a' b'
  | _, _ => false
  end.

Fixpoint startsWith (s p : jsstring) : bool :=
  match p, s with
  | [], _ => true
  | x :: p', y :: s' => ascii_eqb x y && startsWith s' p'
  | _ :: _, [] => false
  end.

(** [Array.prototype.join] on strings. *)
Fixpoint join (sep : jsstring) (l : list jsstring) : jsstring :=
  match l with
  | [] => []
  | [x] => x
  | x :: t => x ++ sep ++ join sep t
  end.

(* ================================================================= *)
(** ** Numbers *)

Inductive JSNum := NaN | Num (z : Z).

Definition num_lt (a b : JSNum) : bool :=
  match a, b with Num x, Num y => x <? y | _, _ => false end.

Definition num_gt (a b : JSNum) : bool := num_lt b a.

(** [a === b] and [a !== b] on numbers: [NaN] differs from everything. *)
Definition num_eq (a b : JSNum) : bool :=
  match a, b with Num x, Num y => x =? y | _, _ => false end.

Definition num_ne (a b : JSNum) : bool := negb (num_eq a b).

Definition num_add (a b : JSNum) : JSNum :=
  match a, b with Num x, Num y => Num (x + y) | _, _ => NaN end.

Definition num_isNaN (a : JSNum) : bool :=
  match a with NaN => true | Num _ => false end.

Definition digitVal (c : ascii) : Z := code c - 48.

Fixpoint digitsVal (acc : Z) (s : jsstring) : Z :=
  match s with
  | c :: t => if isDigit c then digitsVal (10 * acc + digitVal c) t else acc
  | [] => acc
  end.

Definition startsWithDigit (s : jsstring) : bool :=
  match s with c :: _ => isDigit c | [] => false end.

(** [parseInt(s, 10)]: leading white space, an optional sign, then the
    longest run of decimal digits; [NaN] when that run is empty. *)
Definition parseInt (s : jsstring) : JSNum :=
  match trimStart s with
  | c :: t =>
      if ascii_eqb c "-" then
        if startsWithDigit t then Num (- digitsVal 0 t) else NaN
      else if ascii_eqb c "+" then
        if startsWithDigit t then Num (digitsVal 0 t) else NaN
      else if isDigit c then Num (digitsVal 0 (c :: t)) else NaN
  | [] => NaN
  end.

(** [Number.prototype.toString] of an integer. *)
Definition numToString (z : Z) : jsstring :=
  str (NilZero.string_of_int (Z.to_int z)).

(* ================================================================= *)
(** ** Regular expressions

    The fragment of ECMAScript regular expressions the component uses,
    with the backtracking order of the language: every construct lists its
    ways to match, most preferred first, and a match of the whole
    expression is the first way found at the leftmost start position. *)

Inductive citem :=
| CChar (c : ascii)
| CRange (lo hi : ascii)
| CDigit
| CSpace.

Inductive regex :=
| REmpty
| RSet (cs : list citem)
| RCat (a b : regex)
| RAlt (a b : regex)
| ROpt (a : regex)
| RStar (cs : list citem)
| RGroup (i : nat) (a : regex)
| RBegin
| REnd.

Declare Scope regex_scope.
Delimit Scope regex_scope with re.
Bind Scope regex_scope with regex.
Infix ">>" := RCat (at level 61, right associativity) : regex_scope.

(** Canonicalisation of the [i] flag, exact against patterns whose
    characters are ASCII: a code unit above 127 never canonicalises to an
    ASCII one. *)
Definition canon (ic : bool) (c : ascii) : Z :=
  if ic && isLowerAZ c then code c - 32 else code c.

Definition itemMatch (ic : bool) (it : citem) (c : ascii) : bool :=
  match it with
  | CChar x => canon ic x =? canon ic c
  | CRange lo hi =>
      between (code lo) (code hi) (code c)
      || (ic && isLowerAZ c && between (code lo) (code hi) (code c - 32))
      || (ic && isUpperAZ c && between (code lo) (code hi) (code c + 32))
  | CDigit => isDigit c
  | CSpace => isWhiteSpace c
  end.

Definition inSet (ic : bool) (cs : list citem) (c : ascii) : bool :=
  existsb (fun it => itemMatch ic it c) cs.

Definition captures := list (nat * jsstring).

Record mstate := MState {
  consumed : nat;
  rest : jsstring;
  caps : captures
}.

(** Greedy star of a character set: the longest run first, then each
    shorter one. *)
Fixpoint starSet (ic : bool) (cs : list citem) (n : nat) (s : jsstring)
  : list (nat * jsstring) :=
  match s with
  | c :: t =>
      if inSet ic cs c then starSet ic cs (S n) t ++ [(n, s)] else [(n, s)]
  | [] => [(n, s)]
  end.

Fixpoint run (ic : bool) (r : regex) (st : mstate) : list mstate :=
  match r with
  | REmpty => [st]
  | RSet cs =>
      match rest st with
      | c :: t =>
          if inSet ic cs c then [MState (S (consumed st)) t (caps st)] else []
      | [] => []
      end
  | RCat a b => flat_map (run ic b) (run ic a st)
  | RAlt a b => run ic a st ++ run ic b st
  | ROpt a => run ic a st ++ [st]
  | RStar cs =>
      map (fun p => MState (fst p) (snd p) (caps st))
          (starSet ic cs (consumed st) (rest st))
  | RGroup i a =>
      map (fun st' =>
             MState (consumed st') (rest st')
                    ((i, firstn (consumed st' - consumed st) (rest st))
                       :: caps st'))
          (run ic a st)
  | RBegin => if Nat.eqb (consumed st) 0 then [st] else []
  | REnd => match rest st with [] => [st] | _ :: _ => [] end
  end.

(** The result of [RegExp.prototype.exec]: the matched text and the
    captures. *)
Record rmatch := RMatch { whole : jsstring; groups : captures }.

Fixpoint execAt (ic : bool) (r : regex) (pos : nat) (s : jsstring)
  : option rmatch :=
  match run ic r (MState pos s []) with
  | st :: _ => Some (RMatch (firstn (consumed st - pos) s) (caps st))
  | [] =>
      match s with
      | [] => None
      | _ :: t => execAt ic r (S pos) t
      end
  end.

(** [s.match(re)] for a regular expression without the [g] flag. *)
Definition exec (ic : bool) (r : regex) (s : jsstring) : option rmatch :=
  execAt ic r 0 s.

(** [re.test(s)]. *)
Definition test (ic : bool) (r : regex) (s : jsstring) : bool :=
  match exec ic r s with Some _ => true | None => false end.

(** [m[i]] for [i >= 1]: [None] is [undefined], a group that took no part
    in the match. *)
Fixpoint lookupGroup (i : nat) (c : captures) : option jsstring :=
  match c with
  | [] => None
  | (j, v) :: t => if Nat.eqb i j then Some v else lookupGroup i t
  end.

Definition group (i : nat) (m : rmatch) : option jsstring :=
  lookupGroup i (groups m).

Definition lit (s : string) : regex :=
  fold_right (fun c r => RCat (RSet [CChar c]) r) REmpty (str s).

Definition digit : regex := RSet [CDigit].

(** [\d{1,2}] *)
Definition digit12 : regex := (digit >> ROpt digit)%re.

Definition AtoH : regex := RSet [CRange "A" "H"].

Definition oneOrTwo : regex := RSet [CRange "1" "2"].

(** [/^[A-H][1-2]$/i] *)
Definition expectedPattern : regex := (RBegin >> AtoH >> oneOrTwo >> REnd)%re.

(** [/([A-H])\s*([1-2])/i] *)
Definition groupPattern : regex :=
  (RGroup 1 AtoH >> RStar [CSpace] >> RGroup 2 oneOrTwo)%re.

(** [/^(\d{1,2}):?(\d{2})$/] *)
Definition militaryPattern : regex :=
  (RBegin >> RGroup 1 digit12 >> ROpt (RSet [CChar ":"])
     >> RGroup 2 (digit >> digit) >> REnd)%re.

(** [/(\d{1,2})(?::(\d{2}))?\s*([ap]m)/i] *)
Definition twelveHourPattern : regex :=
  (RGroup 1 digit12 >> ROpt (RSet [CChar ":"] >> RGroup 2 (digit >> digit))
     >> RStar [CSpace]
     >> RGroup 3 (RSet [CChar "a"; CChar "p"] >> RSet [CChar "m"]))%re.

(** [/(noon|midnight)/i] *)
Definition noonMidnightPattern : regex :=
  RGroup 1 (RAlt (lit "noon") (lit "midnight")).

(** [/[a-zA-Z]/] *)
Definition letterPattern : regex := RSet [CRange "a" "z"; CRange "A" "Z"].

(* ================================================================= *)
(** ** Completions *)

Inductive completion (A : Type) :=
| Normal (a : A)
| Throw.

Arguments Normal {A} a.
Arguments Throw {A}.

Definition bind {A B} (c : completion A) (f : A -> completion B)
  : completion B :=
  match c with
  | Normal a => f a
  | Throw => Throw
  end.

Notation "x <- c ;; k" := (bind c (fun x => k))
  (at level 100, c at next level, right associativity).

(** [try { body } catch { handler }] *)
Definition catch {A} (body : completion A) (handler : A) : A :=
  match body with
  | Normal a => a
  | Throw => handler
  end.

(* ================================================================= *)
(** ** Dates *)

Inductive JSDate :=
| InvalidDate
| DateAt (ms : Z).

Definition msPerMinute : Z := 60000.
Definition msPerHour : Z := 3600000.
Definition msPerDay : Z := 86400000.

(** The host: its constant offset from UTC in minutes (east positive), and
    the text [Date.prototype.toString] gives, whose tail is
    implementation-defined. *)
Record Host := {
  tzMinutes : Z;
  dateToString : JSDate -> jsstring
}.

(** The largest time value of a [Date]: 100 000 000 days on either side
    of the epoch. *)
Definition maxTime : Z := 8640000000000000.

(** [new Date(ms)] is the instant [ms] after the Unix epoch in UTC, and an
    invalid date when [ms] is outside the range of the time values. *)
Definition newDate (host : Host) (ms : Z) : JSDate :=
  if Z.abs ms <=? maxTime then DateAt (ms + tzMinutes host * msPerMinute)
  else InvalidDate.

Definition getTime_isNaN (d : JSDate) : bool :=
  match d with InvalidDate => true | DateAt _ => false end.

Definition getHours (d : JSDate) : JSNum :=
  match d with
  | InvalidDate => NaN
  | DateAt l => Num ((l mod msPerDay) / msPerHour)
  end.

Definition getMinutes (d : JSDate) : JSNum :=
  match d with
  | InvalidDate => NaN
  | DateAt l => Num ((l mod msPerHour) / msPerMinute)
  end.

(** [d.setDate(d.getDate() + k)], also what [moment(d).add(k, "days")]
    does: the same wall-clock time [k] days later. *)
Definition addDays (d : JSDate) (k : Z) : JSDate :=
  match d with
  | InvalidDate => InvalidDate
  | DateAt l => DateAt (l + k * msPerDay)
  end.

(** [d.setHours(h, m)]: hour and minute replaced, seconds and milliseconds
    kept; a [NaN] argument makes the date invalid. *)
Definition setHours2 (d : JSDate) (h m : JSNum) : JSDate :=
  match d, h, m with
  | DateAt l, Num h, Num m =>
      DateAt (l / msPerDay * msPerDay + h * msPerHour + m * msPerMinute
              + l mod msPerMinute)
  | _, _, _ => InvalidDate
  end.

(** [d.setHours(h)] *)
Definition setHours1 (d : JSDate) (h : JSNum) : JSDate :=
  match d, h with
  | DateAt l, Num h =>
      DateAt (l / msPerDay * msPerDay + h * msPerHour + l mod msPerHour)
  | _, _ => InvalidDate
  end.

(** [d.setMinutes(m)] *)
Definition setMinutes1 (d : JSDate) (m : JSNum) : JSDate :=
  match d, m with
  | DateAt l, Num m =>
      DateAt (l / msPerHour * msPerHour + m * msPerMinute
              + l mod msPerMinute)
  | _, _ => InvalidDate
  end.

(** Relational operators on [Date] objects compare the time values; with
    an invalid date every comparison is false. *)
Definition date_lt (a b : JSDate) : bool :=
  match a, b with DateAt x, DateAt y => x <? y | _, _ => false end.

Definition date_le (a b : JSDate) : bool :=
  match a, b with DateAt x, DateAt y => x <=? y | _, _ => false end.

Definition date_gt (a b : JSDate) : bool := date_lt b a.

Definition date_ge (a b : JSDate) : bool := date_le b a.

(** *** The proleptic Gregorian calendar *)

Definition daysFromCivil (y m d : Z) : Z :=
  let y' := if m <=? 2 then y - 1 else y in
  let era := y' / 400 in
  let yoe := y' - era * 400 in
  let mp := (m + 9) mod 12 in
  let doy := (153 * mp + 2) / 5 + d - 1 in
  let doe := yoe * 365 + yoe / 4 - yoe / 100 + doy in
  era * 146097 + doe - 719468.

Definition civilFromDays (z : Z) : Z * Z * Z :=
  let z' := z + 719468 in
  let era := z' / 146097 in
  let doe := z' - era * 146097 in
  let yoe := (doe - doe / 1460 + doe / 36524 - doe / 146096) / 365 in
  let doy := doe - (365 * yoe + yoe / 4 - yoe / 100) in
  let mp := (5 * doy + 2) / 153 in
  let d := doy - (153 * mp + 2) / 5 + 1 in
  let m := if mp <? 10 then mp + 3 else mp - 9 in
  let y := yoe + era * 400 in
  (if m <=? 2 then y + 1 else y, m, d).

Definition isLeapYear (y : Z) : bool :=
  ((y mod 4 =? 0) && negb (y mod 100 =? 0)) || (y mod 400 =? 0).

Definition daysInMonth (y m : Z) : Z :=
  if m =? 2 then (if isLeapYear y then 29 else 28)
  else if (m =? 4) || (m =? 6) || (m =? 9) || (m =? 11) then 30
  else 31.

(** Year, month (1..12) and day of the month a valid date shows. *)
Definition civilOfDate (d : JSDate) : option (Z * Z * Z) :=
  match d with
  | InvalidDate => None
  | DateAt l => Some (civilFromDays (l / msPerDay))
  end.

(* ================================================================= *)
(** ** The moment library: formatting and strict parsing

    [moment(s, formats, true)] accepts [s] under a format when the tokens
    of the format match [s] one after the other with nothing skipped and
    nothing left over, and the fields form a date of the calendar.  With a
    list of formats the first accepted one gives the result.  A moment is
    represented by the date it wraps. *)

Inductive ftoken :=
| YYYY
| MM
| DD
| MMM
| FLit (c : ascii).

Definition lits (s : string) : list ftoken := map FLit (str s).

Definition fmt_YYYYMMDD : list ftoken := [YYYY; MM; DD].

(** The list [dateFormats] of [parseDateTime]. *)
Definition dateFormats : list (list ftoken) :=
  [ fmt_YYYYMMDD;
    [YYYY] ++ lits "-" ++ [MM] ++ lits "-" ++ [DD];
    [MM] ++ lits "/" ++ [DD] ++ lits "/" ++ [YYYY];
    [DD] ++ lits "-" ++ [MM] ++ lits "-" ++ [YYYY];
    [MMM] ++ lits " " ++ [DD] ++ lits ", " ++ [YYYY];
    [DD] ++ lits " " ++ [MMM] ++ lits " " ++ [YYYY];
    [YYYY] ++ lits "/" ++ [MM] ++ lits "/" ++ [DD] ].

Fixpoint takeDigits (n : nat) (acc : Z) (s : jsstring)
  : option (Z * jsstring) :=
  match n with
  | O => Some (acc, s)
  | S n' =>
      match s with
      | c :: t =>
          if isDigit c then takeDigits n' (10 * acc + digitVal c) t else None
      | [] => None
      end
  end.

Definition monthsShort : list jsstring :=
  map str ["jan"; "feb"; "mar"; "apr"; "may"; "jun";
           "jul"; "aug"; "sep"; "oct"; "nov"; "dec"]%string.

Fixpoint indexOfStr (x : jsstring) (l : list jsstring) (i : Z) : option Z :=
  match l with
  | [] => None
  | y :: t => if streq x y then Some i else indexOfStr x t (i + 1)
  end.

(** A short month name, in either case, gives its month number. *)
Definition takeMonthName (s : jsstring) : option (Z * jsstring) :=
  match indexOfStr (toLowerCase (firstn 3 s)) monthsShort 1 with
  | Some m => Some (m, skipn 3 s)
  | None => None
  end.

Record dateFields := DateFields {
  fYear : Z;
  fMonth : Z;
  fDay : Z
}.

Fixpoint parseTokens (fmt : list ftoken) (s : jsstring) (f : dateFields)
  : option dateFields :=
  match fmt with
  | [] => match s with [] => Some f | _ :: _ => None end
  | YYYY :: fmt' =>
      match takeDigits 4 0 s with
      | Some (v, s') => parseTokens fmt' s' (DateFields v (fMonth f) (fDay f))
      | None => None
      end
  | MM :: fmt' =>
      match takeDigits 2 0 s with
      | Some (v, s') => parseTokens fmt' s' (DateFields (fYear f) v (fDay f))
      | None => None
      end
  | DD :: fmt' =>
      match takeDigits 2 0 s with
      | Some (v, s') =>
          parseTokens fmt' s' (DateFields (fYear f) (fMonth f) v)
      | None => None
      end
  | MMM :: fmt' =>
      match takeMonthName s with
      | Some (v, s') => parseTokens fmt' s' (DateFields (fYear f) v (fDay f))
      | None => None
      end
  | FLit c :: fmt' =>
      match s with
      | x :: s' => if ascii_eqb c x then parseTokens fmt' s' f else None
      | [] => None
      end
  end.

Definition fieldsValid (f : dateFields) : bool :=
  between 1 12 (fMonth f) && between 1 (daysInMonth (fYear f) (fMonth f)) (fDay f).

(** [moment(s, fmt, true)]: local midnight of the parsed day, or an invalid
    moment. *)
Definition momentStrict1 (s : jsstring) (fmt : list ftoken) : JSDate :=
  match parseTokens fmt s (DateFields 0 1 1) with
  | Some f =>
      if fieldsValid f
      then DateAt (daysFromCivil (fYear f) (fMonth f) (fDay f) * msPerDay)
      else InvalidDate
  | None => InvalidDate
  end.

(** [moment(s, [fmt1, ...], true)] *)
Fixpoint momentStrict (s : jsstring) (fmts : list (list ftoken)) : JSDate :=
  match fmts with
  | [] => InvalidDate
  | fmt :: rest =>
      match momentStrict1 s fmt with
      | DateAt l => DateAt l
      | InvalidDate => momentStrict s rest
      end
  end.

(** [m.isValid()] *)
Definition isValid (m : JSDate) : bool := negb (getTime_isNaN m).

(** [m.set({ hour: h, minute: m })]: the hour is set, then the minute;
    moment leaves a unit alone when its new value is [NaN]. *)
Definition momentSet (m : JSDate) (hour minute : JSNum) : JSDate :=
  let m1 := if num_isNaN hour then m else setHours1 m hour in
  if num_isNaN minute then m1 else setMinutes1 m1 minute.

(** [zeroFill(n, len)] of moment, without forced sign. *)
Definition zeroFill (n : Z) (len : nat) : jsstring :=
  let digits := numToString (Z.abs n) in
  (if 0 <=? n then [] else str "-")
    ++ repeat "0"%char (len - List.length digits) ++ digits.

(** [moment(d).format("YYYYMMDD")] *)
Definition formatYYYYMMDD (d : JSDate) : jsstring :=
  match civilOfDate d with
  | None => str "Invalid date"
  | Some (y, m, dd) => zeroFill y 4 ++ zeroFill m 2 ++ zeroFill dd 2
  end.

(* ================================================================= *)
(** ** Values *)

(** What a spreadsheet cell or a CSV field can hold. *)
Inductive JSValue :=
| JSUndefined
| JSBool (b : bool)
| JSNumber (z : Z)
| JSString (s : jsstring)
| JSDateObj (d : JSDate).

Definition isEmptyStr (s : jsstring) : bool :=
  match s with [] => true | _ :: _ => false end.

(** ToBoolean *)
Definition truthy (v : JSValue) : bool :=
  match v with
  | JSUndefined => false
  | JSBool b => b
  | JSNumber z => negb (z =? 0)
  | JSString s => negb (isEmptyStr s)
  | JSDateObj _ => true
  end.

(** [a || b] *)
Definition jsOr (a b : JSValue) : JSValue := if truthy a then a else b.

(** [v.toString()]; there is no such method on [undefined]. *)
Definition toString (host : Host) (v : JSValue) : completion jsstring :=
  match v with
  | JSUndefined => Throw
  | JSBool b => Normal (str (if b then "true" else "false"))
  | JSNumber z => Normal (numToString z)
  | JSString s => Normal s
  | JSDateObj d => Normal (dateToString host d)
  end.

(** [v.match(re)]: only strings have the method. *)
Definition callMatch (v : JSValue) (ic : bool) (r : regex)
  : completion (option rmatch) :=
  match v with
  | JSString s => Normal (exec ic r s)
  | _ => Throw
  end.

(** [m[i]] used as a string. *)
Definition groupText (i : nat) (m : rmatch) : jsstring :=
  match group i m with
  | Some s => s
  | None => str "undefined"
  end.

(** [parseInt(m[i], 10)] *)
Definition parseIntGroup (g : option jsstring) : JSNum :=
  match g with
  | Some s => parseInt s
  | None => NaN
  end.

Definition truthyGroup (g : option jsstring) : bool :=
  match g with
  | Some s => negb (isEmptyStr s)
  | None => false
  end.

(** [period === "..."] *)
Definition periodIs (period : option jsstring) (s : string) : bool :=
  match period with
  | Some p => streq p (str s)
  | None => false
  end.

(** *** [isNaN] of a string

    [isNaN(s)] converts [s] to a number first.  The conversion succeeds on
    white space around nothing, around a decimal literal with optional
    sign, fraction and exponent, around [Infinity] with optional sign, or
    around an unsigned hexadecimal, octal or binary integer literal. *)

Fixpoint dropDigits (s : jsstring) : jsstring :=
  match s with
  | c :: t => if isDigit c then dropDigits t else s
  | [] => []
  end.

Definition isHexDigit (c : ascii) : bool :=
  isDigit c || between 65 70 (code c) || between 97 102 (code c).

Definition nonEmptyAll (p : ascii -> bool) (s : jsstring) : bool :=
  negb (isEmptyStr s) && forallb p s.

(** The end of the literal or an exponent part, then the end. *)
Definition exponentOrEnd (s : jsstring) : bool :=
  match s with
  | [] => true
  | c :: t =>
      if ascii_eqb c "e" || ascii_eqb c "E" then
        match t with
        | x :: t' =>
            if ascii_eqb x "+" || ascii_eqb x "-"
            then nonEmptyAll isDigit t'
            else nonEmptyAll isDigit t
        | [] => false
        end
      else false
  end.

Definition unsignedDecimal (s : jsstring) : bool :=
  if streq s (str "Infinity") then true
  else
    let r := dropDigits s in
    match r with
    | c :: t =>
        if ascii_eqb c "." then
          (startsWithDigit s || startsWithDigit t)
          && exponentOrEnd (dropDigits t)
        else startsWithDigit s && exponentOrEnd r
    | [] => startsWithDigit s
    end.

Definition radixLiteral (s : jsstring) : bool :=
  match s with
  | z :: x :: t =>
      ascii_eqb z "0"
      && ((ascii_eqb (lowerChar x) "x" && nonEmptyAll isHexDigit t)
          || (ascii_eqb (lowerChar x) "o"
              && nonEmptyAll (fun c => between 48 55 (code c)) t)
          || (ascii_eqb (lowerChar x) "b"
              && nonEmptyAll (fun c => between 48 49 (code c)) t))
  | _ => false
  end.

Definition isNumericString (s : jsstring) : bool :=
  match trim s with
  | [] => true
  | c :: t =>
      radixLiteral (c :: t)
      || (if ascii_eqb c "+" || ascii_eqb c "-"
          then unsignedDecimal t
          else unsignedDecimal (c :: t))
  end.

Definition isNaN (s : jsstring) : bool := negb (isNumericString s).

Definition num_sub (a b : JSNum) : JSNum :=
  match a, b with Num x, Num y => Num (x - y) | _, _ => NaN end.

Definition num_mul (a b : JSNum) : JSNum :=
  match a, b with Num x, Num y => Num (x * y) | _, _ => NaN end.

(** [new Date(x)] for a number [x]. *)
Definition newDateNum (host : Host) (x : JSNum) : JSDate :=
  match x with
  | Num ms => newDate host ms
  | NaN => InvalidDate
  end.

(* ================================================================= *)
(** ** The parsing pipeline *)

Record TimeOfDay := {
  hours : JSNum;
  minutes : JSNum
}.

Section Pipeline.

Variable host : Host.

Definition deriveLearnerGroup (learnerGroupField sessionName sectionName : JSValue)
  : completion jsstring :=
  let group := [] in
  group <-
    (if truthy learnerGroupField then
       s <- toString host learnerGroupField ;;
       let group := trim s in
       Normal (if negb (test true expectedPattern group) then [] else group)
     else Normal group) ;;
  group <-
    (if isEmptyStr group && truthy sectionName then
       m <- callMatch sectionName true groupPattern ;;
       match m with
       | Some m => Normal (groupText 1 m ++ groupText 2 m)
       | None => Normal group
       end
     else Normal group) ;;
  group <-
    (if isEmptyStr group && truthy sessionName then
       m <- callMatch sessionName true groupPattern ;;
       match m with
       | Some m => Normal (groupText 1 m ++ groupText 2 m)
       | None => Normal group
       end
     else Normal group) ;;
  Normal (if negb (isEmptyStr group)
          then toUpperCase (trim group)
          else str "Ungrouped").

Definition fixInvalidDate (dateInput : JSValue) : completion jsstring :=
  match dateInput with
  | JSDateObj d => Normal (formatYYYYMMDD d)
  | _ =>
      dateInput <- toString host dateInput ;;
      if startsWith dateInput (str "+057342")
      then Normal (str "2023" ++ skipn 7 dateInput)
      else Normal dateInput
  end.

(** [null] is [None]. *)
Definition parseTime (timeValue : JSValue) : option TimeOfDay :=
  catch
    (if negb (truthy timeValue) then Normal None
     else
       match timeValue with
       | JSDateObj d =>
           Normal (Some {| hours := getHours d; minutes := getMinutes d |})
       | _ =>
           s <- toString host timeValue ;;
           let cleaned := toLowerCase (trim s) in
           match exec false militaryPattern cleaned with
           | Some militaryMatch =>
               let hours := parseIntGroup (group 1 militaryMatch) in
               let minutes :=
                 parseInt (if truthyGroup (group 2 militaryMatch)
                           then groupText 2 militaryMatch
                           else str "00") in
               if num_gt hours (Num 23) || num_gt minutes (Num 59)
               then Normal None
               else Normal (Some {| hours := hours; minutes := minutes |})
           | None =>
               let twelveHourMatch :=
                 match exec true twelveHourPattern cleaned with
                 | Some m => Some m
                 | None => exec true noonMidnightPattern cleaned
                 end in
               match twelveHourMatch with
               | Some twelveHourMatch =>
                   let hours :=
                     if truthyGroup (group 1 twelveHourMatch)
                     then parseIntGroup (group 1 twelveHourMatch)
                     else Num 0 in
                   let minutes :=
                     if truthyGroup (group 2 twelveHourMatch)
                     then parseIntGroup (group 2 twelveHourMatch)
                     else Num 0 in
                   let period :=
                     option_map toLowerCase (group 3 twelveHourMatch) in
                   let hours := if periodIs period "noon" then Num 12 else hours in
                   let hours := if periodIs period "midnight" then Num 0 else hours in
                   let hours :=
                     if periodIs period "pm" && num_ne hours (Num 12)
                     then num_add hours (Num 12) else hours in
                   let hours :=
                     if periodIs period "am" && num_eq hours (Num 12)
                     then Num 0 else hours in
                   if num_lt hours (Num 0) || num_gt hours (Num 23)
                      || num_lt minutes (Num 0) || num_gt minutes (Num 59)
                   then Normal None
                   else Normal (Some {| hours := hours; minutes := minutes |})
               | None => Normal None
               end
           end
       end)
    None.

Definition parseDateTime (dateString timeValue : JSValue) : option JSDate :=
  catch
    (if negb (truthy dateString) || negb (truthy timeValue) then Normal None
     else
       fixedDateString <- fixInvalidDate dateString ;;
       let numDate := parseInt fixedDateString in
       if negb (isNaN fixedDateString) && num_lt numDate (Num 100000) then
         let excelDate := numDate in
         let date :=
           newDateNum host
             (num_mul (num_mul (num_sub excelDate (Num 25569)) (Num 86400))
                      (Num 1000)) in
         let date := if num_gt excelDate (Num 59) then addDays date (-1) else date in
         match parseTime timeValue with
         | None => Normal None
         | Some time => Normal (Some (setHours2 date (hours time) (minutes time)))
         end
       else
         let date := momentStrict fixedDateString dateFormats in
         if negb (isValid date) then Normal None
         else
           match parseTime timeValue with
           | None => Normal None
           | Some time =>
               let combined := momentSet date (hours time) (minutes time) in
               if getTime_isNaN combined then Normal None
               else Normal (Some combined)
           end)
    None.


(* ================================================================= *)
(** ** The row normaliser *)

(** The object a row callback returns.  [title] and [location] are a cell
    of the row or a default text. *)
Record EventRecord := {
  title : JSValue;
  start : JSDate;
  end_ : JSDate;
  desc : jsstring;
  location : JSValue;
  learnerGroup : jsstring
}.

(** [[a, b, c].filter(Boolean).join(" - ")] *)
Fixpoint stringsOf (l : list JSValue) : completion (list jsstring) :=
  match l with
  | [] => Normal []
  | v :: t =>
      s <- toString host v ;;
      r <- stringsOf t ;;
      Normal (s :: r)
  end.

Definition describe (l : list JSValue) : completion jsstring :=
  parts <- stringsOf (filter truthy l) ;;
  Normal (join (str " - ") parts).

(** The guard on the text of the date:
    [sectionDate.match(/[a-zA-Z]/) &&
     !moment(sectionDate, "YYYYMMDD", true).isValid()]. *)
Definition invalidDateFormat (sectionDate : jsstring) : bool :=
  test false letterPattern sectionDate
  && negb (isValid (momentStrict1 sectionDate fmt_YYYYMMDD)).

(** The adjustment of the end, shared by both callbacks: [None] when the
    row is skipped. *)
Definition adjustEnd (start end_ : JSDate) : option JSDate :=
  if date_ge start end_ then
    let adjustedEnd := addDays end_ 1 in
    if date_lt start adjustedEnd then Some adjustedEnd else None
  else Some end_.

(** *** Spreadsheet rows *)

Fixpoint indexOf (x : jsstring) (l : list jsstring) : option nat :=
  match l with
  | [] => None
  | y :: t =>
      if streq y x then Some O
      else match indexOf x t with Some i => Some (S i) | None => None end
  end.

Definition getExcelField (headerRow : list jsstring) (row : list JSValue)
  (name : string) : JSValue :=
  match indexOf (toLowerCase (str name)) headerRow with
  | Some idx => nth idx row JSUndefined
  | None => JSString []
  end.

(** [sectionDateRaw instanceof Date
      ? moment(sectionDateRaw).format("YYYYMMDD")
      : sectionDateRaw.toString().trim()] *)
Definition sectionDateOf (sectionDateRaw : JSValue) : completion jsstring :=
  match sectionDateRaw with
  | JSDateObj d => Normal (formatYYYYMMDD d)
  | _ => s <- toString host sectionDateRaw ;; Normal (trim s)
  end.

(** The callback of [flatMap] in [processExcelFile]: the list of the
    records the row contributes, none when it is skipped.  [new Date(d)]
    of a date is a date with the same time value. *)
Definition processExcelRow (headerRow : list jsstring) (row : list JSValue)
  : list EventRecord :=
  catch
    (let courseName := getExcelField headerRow row "Course Name" in
     let sessionType := getExcelField headerRow row "Session Type" in
     let sessionName := getExcelField headerRow row "Session Name" in
     let sectionName :=
       jsOr (getExcelField headerRow row "Section Name") (getExcelField headerRow row "Section") in
     let sectionDateRaw := getExcelField headerRow row "Section Date" in
     sectionDate <- sectionDateOf sectionDateRaw ;;
     let startTime := getExcelField headerRow row "Start Time" in
     let endTime := getExcelField headerRow row "End Time" in
     let learnerGroupField := getExcelField headerRow row "Learner Group" in
     learnerGroup <-
       deriveLearnerGroup learnerGroupField sessionName sectionName ;;
     if isEmptyStr sectionDate then Normal []
     else if invalidDateFormat sectionDate then Normal []
     else
       match parseDateTime (JSString sectionDate) startTime,
             parseDateTime (JSString sectionDate) endTime with
       | Some start, Some end_ =>
           match adjustEnd start end_ with
           | None => Normal []
           | Some end_ =>
               desc <- describe [courseName; sessionType; sectionName] ;;
               Normal
                 [ {| title :=
                        jsOr sessionName (JSString (str "Untitled Session"));
                      start := start;
                      end_ := end_;
                      desc := desc;
                      location :=
                        jsOr (getExcelField headerRow row "Location")
                             (JSString (str "Unknown Location"));
                      learnerGroup := learnerGroup |} ]
           end
       | _, _ => Normal []
       end)
    [].

(** [event.start instanceof Date && event.end instanceof Date]: both
    fields are [Date] objects in every record, valid or not. *)
Definition bothDates (e : EventRecord) : bool := true.

(** The events [processExcelFile] stores, from the header row already in
    lower case and the rows below it. *)
Definition processExcelRows (headerRow : list jsstring)
  (rows : list (list JSValue)) : list EventRecord :=
  filter bothDates (flat_map (processExcelRow headerRow) rows).

(** *** CSV rows *)

(** A parsed row: the header names with the fields of the row, in the
    order of the header. *)
Definition csvRow := list (jsstring * jsstring).

Fixpoint property (key : jsstring) (row : csvRow) : option jsstring :=
  match row with
  | [] => None
  | (k, v) :: t => if streq k key then Some v else property key t
  end.

(** [row[Object.keys(row).find(...)] || ""]; when no key is found the
    property read is the one named ["undefined"]. *)
Definition getField (row : csvRow) (name : string) : jsstring :=
  let key :=
    find (fun key => streq (toLowerCase key) (toLowerCase (str name)))
         (map fst row) in
  let value :=
    match key with
    | Some key => property key row
    | None => property (str "undefined") row
    end in
  match value with
  | Some v => v
  | None => []
  end.

(** The callback of [flatMap] in [processCSVFile]. *)
Definition processCSVRow (row : csvRow) : list EventRecord :=
  catch
    (let sectionDate := getField row "Section Date" in
     let startTime := getField row "Start Time" in
     let endTime := getField row "End Time" in
     let sessionName := getField row "Session Name" in
     let sectionName :=
       if negb (isEmptyStr (getField row "Section Name"))
       then getField row "Section Name" else getField row "Section" in
     let learnerGroupField := getField row "Learner Group" in
     learnerGroup <-
       deriveLearnerGroup (JSString learnerGroupField) (JSString sessionName)
                          (JSString sectionName) ;;
     if isEmptyStr sectionDate then Normal []
     else if invalidDateFormat sectionDate then Normal []
     else
       match parseDateTime (JSString sectionDate) (JSString startTime),
             parseDateTime (JSString sectionDate) (JSString endTime) with
       | Some start, Some end_ =>
           match adjustEnd start end_ with
           | None => Normal []
           | Some end_ =>
               desc <-
                 describe [JSString (getField row "Course Name");
                           JSString (getField row "Session Type");
                           JSString (getField row "Section Name")] ;;
               Normal
                 [ {| title :=
                        jsOr (JSString sessionName)
                             (JSString (str "Untitled Session"));
                      start := start;
                      end_ := end_;
                      desc := desc;
                      location :=
                        jsOr (JSString (getField row "Location"))
                             (JSString (str "Unknown Location"));
                      learnerGroup := learnerGroup |} ]
           end
       | _, _ => Normal []
       end)
    [].

(** The events [processCSVFile] stores, from the rows of [results.data]. *)
Definition processCSVRows (rows : list csvRow) : list EventRecord :=
  filter bothDates (flat_map processCSVRow rows).

End Pipeline.

(** *** The CSV reader

    [Papa.parse] with [header: true], [dynamicTyping: false] and
    [skipEmptyLines: true], on a text of fields between commas and lines
    that end with a line feed: the first non-empty line names the
    columns, every other non-empty line is a row, and a field beyond the
    last named column is not a property of the row.  On other texts the
    library does more than the embedding has: it reads quoted fields, it
    takes a tab, a bar, a semicolon or a separator character for the
    delimiter when the lines suggest it, it ends lines at a carriage
    return alone, and it decides between columns of the same name.  The
    texts without any of these are the ones of [plainCsv] below. *)

Fixpoint splitOn (sep : ascii) (s : jsstring) : list jsstring :=
  match s with
  | [] => [[]]
  | c :: t =>
      if ascii_eqb c sep then [] :: splitOn sep t
      else
        match splitOn sep t with
        | w :: ws => (c :: w) :: ws
        | [] => [[c]]
        end
  end.

Definition stripCR (s : jsstring) : jsstring :=
  match rev s with
  | c :: t => if code c =? 13 then rev t else s
  | [] => []
  end.

Definition csvLines (text : jsstring) : list jsstring :=
  filter (fun l => negb (isEmptyStr l)) (map stripCR (splitOn (chr 10) text)).

Definition papaParse (text : jsstring) : list csvRow :=
  match csvLines text with
  | [] => []
  | header :: rows =>
      map (fun line => combine (splitOn "," header) (splitOn "," line)) rows
  end.

Definition processCSVFile (host : Host) (text : jsstring) : list EventRecord :=
  processCSVRows host (papaParse text).

(* ================================================================= *)
(** ** The event handlers of the calendar *)

(** What an event object holds: a record of an upload, or the three
    fields the form builds. *)
Inductive EventBody :=
| Imported (r : EventRecord)
| Entered (title : jsstring) (start end_ : JSDate).

(** An object is its identity together with its fields; the component
    never assigns to a field of an event. *)
Record EventObject := {
  ref : nat;
  body : EventBody
}.

Definition startOf (e : EventObject) : JSDate :=
  match body e with
  | Imported r => start r
  | Entered _ s _ => s
  end.

Definition endOf (e : EventObject) : JSDate :=
  match body e with
  | Imported r => end_ r
  | Entered _ _ e => e
  end.

(** [a === b] on objects *)
Definition sameObject (a b : EventObject) : bool := Nat.eqb (ref a) (ref b).

Record UIState := {
  events : list EventObject;
  selectedSlot : option (JSDate * JSDate);
  selectedEvent : option EventObject
}.

Definition endAfterStartAlert : jsstring :=
  str "End time must be after start time!".

(** A handler returns the next state and the alerts it raised. *)
Definition handleAddEvent (st : UIState) (newEvent : EventObject)
  : UIState * list jsstring :=
  if date_le (endOf newEvent) (startOf newEvent) then
    (st, [endAfterStartAlert])
  else
    ({| events := events st ++ [newEvent];
        selectedSlot := None;
        selectedEvent := selectedEvent st |}, []).

Definition isSelected (st : UIState) (evt : EventObject) : bool :=
  match selectedEvent st with
  | Some sel => sameObject evt sel
  | None => false
  end.

Definition handleUpdateEvent (st : UIState) (updatedEvent : EventObject)
  : UIState * list jsstring :=
  ({| events :=
        map (fun evt => if isSelected st evt then updatedEvent else evt)
            (events st);
      selectedSlot := selectedSlot st;
      selectedEvent := None |}, []).

Definition handleDeleteEvent (st : UIState) (eventToDelete : EventObject)
  : UIState * list jsstring :=
  ({| events :=
        filter (fun evt => negb (sameObject evt eventToDelete)) (events st);
      selectedSlot := selectedSlot st;
      selectedEvent := None |}, []).

(** [moment(d).date()] *)
Definition dayOfMonth (d : JSDate) : JSNum :=
  match civilOfDate d with
  | Some (_, _, dd) => Num dd
  | None => NaN
  end.

(** The [onSubmit] handler of the form.  [start] and [end_] are the dates
    read from the form, [confirmed] is the answer the user gives if asked
    about an event over several days, and [fresh] is the identity of the
    object the handler creates. *)
Definition onSubmit (st : UIState) (formTitle : jsstring)
  (start end_ : JSDate) (confirmed : bool) (fresh : nat)
  : UIState * list jsstring :=
  if num_ne (dayOfMonth start) (dayOfMonth end_) && negb confirmed then
    (st, [])
  else
    let newEvent := {| ref := fresh; body := Entered formTitle start end_ |} in
    if date_le (endOf newEvent) (startOf newEvent) then
      (st, [endAfterStartAlert])
    else
      match selectedSlot st with
      | Some _ => handleAddEvent st newEvent
      | None => handleUpdateEvent st newEvent
      end.

(** *** Slots *)

(** [m.startOf("hour")], [m.add(k, "hour")] and [m.endOf("day")] of
    moment. *)
Definition startOfHour (m : JSDate) : JSDate :=
  match m with
  | InvalidDate => InvalidDate
  | DateAt l => DateAt (l / msPerHour * msPerHour)
  end.

Definition addHours (m : JSDate) (k : Z) : JSDate :=
  match m with
  | InvalidDate => InvalidDate
  | DateAt l => DateAt (l + k * msPerHour)
  end.

Definition endOfDay (m : JSDate) : JSDate :=
  match m with
  | InvalidDate => InvalidDate
  | DateAt l => DateAt (l / msPerDay * msPerDay + msPerDay - 1)
  end.

(** [date] is the moment [moment(date)] makes of the argument. *)
Definition handleDateDoubleClick (st : UIState) (date : JSDate)
  : UIState * list jsstring :=
  let start := startOfHour date in
  let end_ := addHours start 1 in
  let end_ :=
    if num_ne (dayOfMonth end_) (dayOfMonth start) then endOfDay start
    else end_ in
  ({| events := events st;
      selectedSlot := Some (start, end_);
      selectedEvent := selectedEvent st |}, []).

(** *** Colours *)

(** [event.learnerGroup]: the records of an upload have the property, the
    objects the form builds do not. *)
Definition groupOf (e : EventObject) : option jsstring :=
  match body e with
  | Imported r => Some (learnerGroup r)
  | Entered _ _ _ => None
  end.

Definition groupColors : list (jsstring * jsstring) :=
  map (fun p => (str (fst p), str (snd p)))
    [ ("A1", "#f87171"); ("A2", "#fb923c"); ("B1", "#facc15");
      ("B2", "#a3e635"); ("C1", "#34d399"); ("C2", "#2dd4bf");
      ("D1", "#60a5fa"); ("D2", "#818cf8"); ("E1", "#a78bfa");
      ("E2", "#f472b6"); ("F1", "#ec4899"); ("F2", "#f472b6");
      ("G1", "#d97706"); ("G2", "#f59e0b"); ("H1", "#10b981");
      ("H2", "#06b6d4") ]%string.

Definition defaultColor : jsstring := str "#3b82f6".

(** [groupColors[g] || "#3b82f6"] for a group [g] that is not the name of
    a property of [Object.prototype]; the property read for [undefined] is
    the one named "undefined". *)
Definition colorOfGroup (g : option jsstring) : jsstring :=
  let key := match g with Some g => g | None => str "undefined" end in
  match property key groupColors with
  | Some c => if isEmptyStr c then defaultColor else c
  | None => defaultColor
  end.

(** The [backgroundColor] of [eventPropGetter]. *)
Definition backgroundColor (e : EventObject) : jsstring :=
  colorOfGroup (groupOf e).

(* ================================================================= *)
(** ** Uploads

    The file of an upload is read by [FileReader] and the libraries after
    the handler has returned; the model has the state at the end, when
    the callbacks have run. *)

(** The part of the state an upload writes: the records [setEvents]
    stores, each of them an event of the calendar, the status line and
    the busy flag. *)
Record UploadState := {
  loadedEvents : list EventRecord;
  uploadStatus : jsstring;
  isProcessing : bool
}.

(** A file the user picks: its type and name, the rows
    [XLSX.utils.sheet_to_json] finds in its first sheet ([Throw] when
    SheetJS cannot read the file), and its text. *)
Record UploadedFile := {
  fileType : jsstring;
  fileName : jsstring;
  sheet : completion (list (list JSValue));
  fileText : jsstring
}.

(** [s.includes(sub)] and [s.endsWith(suffix)] *)
Fixpoint includes (s sub : jsstring) : bool :=
  startsWith s sub
  || match s with
     | [] => false
     | _ :: t => includes t sub
     end.

Definition endsWith (s suffix : jsstring) : bool :=
  startsWith (rev s) (rev suffix).

(** [/\.(xlsx|xls)$/i] *)
Definition excelNamePattern : regex :=
  (RSet [CChar "."] >> RGroup 1 (RAlt (lit "xlsx") (lit "xls")) >> REnd)%re.

(** An empty cell of the header row is a hole of the array: [map] leaves
    it out and neither [includes] nor [indexOf] finds it.  It is kept as
    the text of one NUL, which is no name the component looks up. *)
Definition holeText : jsstring := [chr 0].

(** [jsonData[0].map((h) => h.toString().toLowerCase())] *)
Fixpoint headerTexts (host : Host) (header : list JSValue)
  : completion (list jsstring) :=
  match header with
  | [] => Normal []
  | h :: t =>
      s <- match h with
           | JSUndefined => Normal holeText
           | _ => s <- toString host h ;; Normal (toLowerCase s)
           end ;;
      r <- headerTexts host t ;;
      Normal (s :: r)
  end.

Definition requiredHeaders : list jsstring :=
  map str ["section date"; "start time"; "end time"]%string.

(** [headerRow.includes(h)] *)
Definition hasHeader (headerRow : list jsstring) (h : jsstring) : bool :=
  existsb (fun x => streq x h) headerRow.

Definition excelError : jsstring := str "Error: Invalid Excel file structure".

(** [`Loaded ${n} valid events from ${kind}`] *)
Definition loadedStatus (n : nat) (kind : string) : jsstring :=
  str "Loaded " ++ numToString (Z.of_nat n) ++ str " valid events from "
    ++ str kind.

(** [processExcelFile], from the rows of the sheet on: the body of
    [reader.onload] with its [catch] and [finally]. *)
Definition processExcelFile (host : Host) (file : UploadedFile)
  (st : UploadState) : UploadState :=
  let st :=
    catch
      (jsonData <- sheet file ;;
       match jsonData with
       | [] => Throw
       | header :: rows =>
           headerRow <- headerTexts host header ;;
           if negb (forallb (hasHeader headerRow) requiredHeaders) then Throw
           else
             let parsedEvents := processExcelRows host headerRow rows in
             Normal {| loadedEvents := parsedEvents;
                       uploadStatus :=
                         loadedStatus (List.length parsedEvents) "Excel";
                       isProcessing := isProcessing st |}
       end)
      {| loadedEvents := loadedEvents st;
         uploadStatus := excelError;
         isProcessing := isProcessing st |} in
  {| loadedEvents := loadedEvents st;
     uploadStatus := uploadStatus st;
     isProcessing := false |}.

(** [processCSVFile] with the state its [complete] callback writes. *)
Definition processCSVUpload (host : Host) (file : UploadedFile)
  (st : UploadState) : UploadState :=
  let parsedEvents := processCSVFile host (fileText file) in
  {| loadedEvents := parsedEvents;
     uploadStatus := loadedStatus (List.length parsedEvents) "CSV";
     isProcessing := false |}.

Definition unsupportedStatus : jsstring := str "Unsupported file type".

(** [file] is [event.target.files[0]], [None] when no file was picked. *)
Definition handleFileUpload (host : Host) (file : option UploadedFile)
  (st : UploadState) : UploadState :=
  match file with
  | None => st
  | Some file =>
      let st := {| loadedEvents := [];
                   uploadStatus := str "Processing file...";
                   isProcessing := true |} in
      if includes (fileType file) (str "spreadsheet")
         || test true excelNamePattern (fileName file)
      then processExcelFile host file st
      else if streq (fileType file) (str "text/csv")
              || endsWith (fileName file) (str ".csv")
      then processCSVUpload host file st
      else {| loadedEvents := loadedEvents st;
              uploadStatus := unsupportedStatus;
              isProcessing := false |}
  end.

(* ================================================================= *)
(** ** The list of the groups

    The effect that follows the events: the groups of the events, each
    once, in order, after "All Groups" and with "Ungrouped" at the end. *)

(** The collation of the host: [a.localeCompare(b)] is negative, zero or
    positive. *)
Record Locale := {
  localeCompare : jsstring -> jsstring -> Z
}.

(** Equality of the values of a [Set]: texts or [undefined]. *)
Definition sameValue (a b : option jsstring) : bool :=
  match a, b with
  | Some x, Some y => streq x y
  | None, None => true
  | _, _ => false
  end.

(** [Array.from(new Set(l))]: the values of [l], each once, in the order
    of their first occurrences. *)
Fixpoint distinct (l : list (option jsstring)) : list (option jsstring) :=
  match l with
  | [] => []
  | x :: t => x :: filter (fun y => negb (sameValue x y)) (distinct t)
  end.

(** [.filter((g) => g && g !== "")] *)
Definition namedGroups (l : list (option jsstring)) : list jsstring :=
  flat_map (fun g =>
              match g with
              | Some s => if isEmptyStr s then [] else [s]
              | None => []
              end) l.

(** [groups.indexOf(x) > -1] and [groups.splice(groups.indexOf(x), 1)] *)
Definition contains (x : jsstring) (l : list jsstring) : bool :=
  existsb (fun y => streq y x) l.

Fixpoint removeFirst (x : jsstring) (l : list jsstring) : list jsstring :=
  match l with
  | [] => []
  | y :: t => if streq y x then t else y :: removeFirst x t
  end.

(** [/([A-Za-z])\s*([1-2])/] *)
Definition sortPattern : regex :=
  (RGroup 1 (RSet [CRange "A" "Z"; CRange "a" "z"]) >> RStar [CSpace]
     >> RGroup 2 oneOrTwo)%re.

(** The comparator of the sort. *)
Definition compareGroups (locale : Locale) (a b : jsstring) : JSNum :=
  match exec false sortPattern a, exec false sortPattern b with
  | Some matchA, Some matchB =>
      let letterA := toUpperCase (groupText 1 matchA) in
      let letterB := toUpperCase (groupText 1 matchB) in
      if streq letterA letterB then
        num_sub (parseInt (groupText 2 matchA)) (parseInt (groupText 2 matchB))
      else Num (localeCompare locale letterA letterB)
  | _, _ => Num (localeCompare locale a b)
  end.

(** [Array.prototype.sort] with a comparator, as the stable sort by
    insertion: the order the language prescribes when the comparator
    orders the elements consistently, and one of the orders it allows
    otherwise.  A comparator result that is [NaN] counts as zero. *)
Fixpoint insertSorted (cmp : jsstring -> jsstring -> JSNum) (x : jsstring)
  (l : list jsstring) : list jsstring :=
  match l with
  | [] => [x]
  | y :: t =>
      if num_gt (cmp x y) (Num 0) then y :: insertSorted cmp x t
      else x :: l
  end.

Definition sortBy (cmp : jsstring -> jsstring -> JSNum) (l : list jsstring)
  : list jsstring :=
  fold_right (insertSorted cmp) [] l.

Definition ungroupedName : jsstring := str "Ungrouped".

(** The value the effect gives to [availableGroups]. *)
Definition availableGroups (locale : Locale) (events : list EventObject)
  : list jsstring :=
  let groups := namedGroups (distinct (map groupOf events)) in
  let ungrouped := contains ungroupedName groups in
  let groups := if ungrouped then removeFirst ungroupedName groups else groups in
  let groups := sortBy (compareGroups locale) groups in
  let groups := if ungrouped then groups ++ [ungroupedName] else groups in
  str "All Groups" :: groups.

(* ================================================================= *)
(** ** Vocabulary of the statements *)

(** *** Texts *)

(** A letter of the basic alphabet. *)
Definition isLetter (c : ascii) : bool := isLowerAZ c || isUpperAZ c.

(** No white space in the text. *)
Definition noSpace (s : jsstring) : bool :=
  forallb (fun c => negb (isWhiteSpace c)) s.

(** Decimal digits only. *)
Definition allDigits (s : jsstring) : bool := forallb isDigit s.

(** *** Patterns *)

(** What a regular expression matches, captures and anchors aside. *)
Inductive matches (ic : bool) : regex -> jsstring -> Prop :=
| matches_empty : matches ic REmpty []
| matches_set cs c : inSet ic cs c = true -> matches ic (RSet cs) [c]
| matches_cat a b u v :
    matches ic a u -> matches ic b v -> matches ic (RCat a b) (u ++ v)
| matches_alt_l a b u : matches ic a u -> matches ic (RAlt a b) u
| matches_alt_r a b u : matches ic b u -> matches ic (RAlt a b) u
| matches_opt_some a u : matches ic a u -> matches ic (ROpt a) u
| matches_opt_none a : matches ic (ROpt a) []
| matches_star cs u :
    forallb (inSet ic cs) u = true -> matches ic (RStar cs) u
| matches_group i a u : matches ic a u -> matches ic (RGroup i a) u
| matches_begin : matches ic RBegin []
| matches_end : matches ic REnd [].

(** The capture groups of an expression, each with what it encloses. *)
Fixpoint groupsOf (r : regex) : list (nat * regex) :=
  match r with
  | RCat a b | RAlt a b => groupsOf a ++ groupsOf b
  | ROpt a => groupsOf a
  | RGroup i a => (i, a) :: groupsOf a
  | _ => []
  end.

(** The text of the two captures of a match. *)
Definition codeOf (m : rmatch) : jsstring := groupText 1 m ++ groupText 2 m.

(** *** Times of day *)

(** A number that is [NaN] or lies between the bounds. *)
Definition nanOrBetween (lo hi : Z) (x : JSNum) : bool :=
  match x with
  | NaN => true
  | Num z => between lo hi z
  end.

(** A time of day in range: both fields numbers, 0..23 and 0..59. *)
Definition inRange (t : TimeOfDay) : bool :=
  match hours t, minutes t with
  | Num h, Num m => between 0 23 h && between 0 59 m
  | _, _ => false
  end.

(** The standard conversion of a 12-hour reading. *)
Definition to24 (h : Z) (pm : bool) : Z :=
  if pm then (if h =? 12 then 12 else h + 12)
  else (if h =? 12 then 0 else h).

(** The 12-hour reading [h], [m] written out: the hour, the minutes after
    a colon if wanted, a space if wanted, and the period. *)
Definition twelveHourText (h m : Z) (withMinutes withSpace pm : bool)
  : jsstring :=
  numToString h
    ++ (if withMinutes then str ":" ++ zeroFill m 2 else [])
    ++ (if withSpace then str " " else [])
    ++ str (if pm then "pm" else "am").

(** Equality of results, [NaN] equal to itself. *)
Definition num_eqb (a b : JSNum) : bool :=
  match a, b with
  | NaN, NaN => true
  | Num x, Num y => x =? y
  | _, _ => false
  end.

Definition time_eqb (a b : option TimeOfDay) : bool :=
  match a, b with
  | Some x, Some y =>
      num_eqb (hours x) (hours y) && num_eqb (minutes x) (minutes y)
  | None, None => true
  | _, _ => false
  end.

(** The integers [lo], [lo + 1], ..., [len] of them. *)
Definition zrange (lo : Z) (len : nat) : list Z :=
  map (fun i => lo + Z.of_nat i) (seq 0 len).

(** The time parser agrees with the standard conversion on every reading
    from 1:00 to 12:59, in each of the four layouts and both periods. *)
Definition twelveHourCheck (host : Host) : bool :=
  forallb (fun h =>
    forallb (fun m =>
      forallb (fun withMinutes =>
        forallb (fun withSpace =>
          forallb (fun pm =>
            time_eqb
              (parseTime host
                 (JSString (twelveHourText h m withMinutes withSpace pm)))
              (Some {| hours := Num (to24 h pm);
                       minutes := Num (if withMinutes then m else 0) |}))
            [true; false])
          [true; false])
        [true; false])
      (zrange 0 60))
    (zrange 1 12).

(** *** Group codes *)

(** A letter A-H in either case, and a digit 1 or 2. *)
Definition isAtoH (c : ascii) : bool :=
  between 65 72 (code c) || between 97 104 (code c).

Definition is1or2 (c : ascii) : bool := between 49 50 (code c).

(** An upper-case group code: one of A..H followed by 1 or 2. *)
Definition isGroupCode (s : jsstring) : bool :=
  match s with
  | [l; d] => between 65 72 (code l) && is1or2 d
  | _ => false
  end.

(** The text is, in either case, a letter A-H followed by 1 or 2. *)
Definition isCodeAnyCase (s : jsstring) : bool :=
  match s with
  | [l; d] => isAtoH l && is1or2 d
  | _ => false
  end.

(** The first place in the text where a letter A-H is followed, after any
    white space, by 1 or 2: the letter and the digit. *)
Fixpoint findCode (s : jsstring) : option jsstring :=
  match s with
  | [] => None
  | c :: t =>
      if isAtoH c then
        match trimStart t with
        | d :: _ => if is1or2 d then Some [c; d] else findCode t
        | [] => findCode t
        end
      else findCode t
  end.

(** The classification the group classifier is described by. *)
Definition classify (explicit session section : jsstring) : jsstring :=
  if isCodeAnyCase (trim explicit) then toUpperCase (trim explicit)
  else
    match findCode section with
    | Some g => toUpperCase g
    | None =>
        match findCode session with
        | Some g => toUpperCase g
        | None => str "Ungrouped"
        end
    end.

(** *** Dates and events *)

(** The date the serial number [n] stands for, before the time is set. *)
Definition serialDate (host : Host) (n : Z) : JSDate :=
  let date := newDate host ((n - 25569) * 86400 * 1000) in
  if 59 <? n then addDays date (-1) else date.

(** [l'] is [l] without the entries that are the object [x], the others in
    their order. *)
Inductive RemovedFrom (x : EventObject) : list EventObject -> list EventObject -> Prop :=
| removed_nil : RemovedFrom x [] []
| removed_drop e l l' :
    ref e = ref x -> RemovedFrom x l l' -> RemovedFrom x (e :: l) l'
| removed_keep e l l' :
    ref e <> ref x -> RemovedFrom x l l' -> RemovedFrom x (e :: l) (e :: l').

(** *** Calendar, rows and uploads *)

(** *** The calendar within one era

    The two conversions of the calendar work on an era of 400 years, which
    has 146097 days, and on years that begin with March: the parts of
    each that are the same in every era. *)

(** The year of the era of a day of the era, and the first day of a year
    of the era. *)
Definition yearOfEra (doe : Z) : Z :=
  (doe - doe / 1460 + doe / 36524 - doe / 146096) / 365.

Definition firstDayOfYear (yoe : Z) : Z := 365 * yoe + yoe / 4 - yoe / 100.

(** The month and the day of the month of a day of the year, and back. *)
Definition monthOfDoy (doy : Z) : Z * Z :=
  let mp := (5 * doy + 2) / 153 in
  let d := doy - (153 * mp + 2) / 5 + 1 in
  let m := if mp <? 10 then mp + 3 else mp - 9 in
  (m, d).

Definition dayOfYear (m d : Z) : Z :=
  let mp := (m + 9) mod 12 in
  (153 * mp + 2) / 5 + d - 1.

(** January and February count with the year before. *)
Definition janFeb (m : Z) : Z := if m <=? 2 then 1 else 0.

(** The length of a month, February of a leap year aside. *)
Definition monthLength (m : Z) (leapDay : bool) : Z :=
  if m =? 2 then (if leapDay then 29 else 28) else daysInMonth 1 m.

(** The day [doy] of a year that begins with March is a day of a month,
    it is found again from its month and day, the day 365 is the 29th of
    February, the next day of the year has another day of the month, and
    the last days of the year are not the first of a month. *)
Definition doyCheck (doy : Z) : bool :=
  let '(m, d) := monthOfDoy doy in
  let '(_, d') := monthOfDoy (doy + 1) in
  between 1 12 m
  && between 1 (monthLength m (doy =? 365)) d
  && (dayOfYear m d =? doy)
  && ((365 <=? doy) || negb (d' =? d))
  && ((doy <? 364) || negb (d =? 1)).

Definition doyChecks : bool := forallb doyCheck (zrange 0 366).

(** The day [d] of the month [m], if the month has it, is a day of the
    year that begins with March, the last one only for the 29th of
    February, and its month and day are these. *)
Definition dateCheck (m d : Z) : bool :=
  negb (d <=? monthLength m true)
  || (let doy := dayOfYear m d in
      between 0 365 doy
      && ((doy <? 365) || ((m =? 2) && (d =? 29)))
      && match monthOfDoy doy with
         | (m', d') => (m' =? m) && (d' =? d)
         end).

Definition dateChecks : bool :=
  forallb (fun m => forallb (dateCheck m) (zrange 1 31)) (zrange 1 12).

(** The 24-hour reading [h], [m] written out: the hour, on two digits if
    wanted, a colon if wanted, and the minutes on two digits. *)
Definition militaryText (h m : Z) (padded withColon : bool) : jsstring :=
  (if padded then zeroFill h 2 else numToString h)
    ++ (if withColon then str ":" else [])
    ++ zeroFill m 2.

(** The time parser reads every text of two digits at most for the hour
    and two for the minutes as that time when it is one of the day, and
    refuses it otherwise. *)
Definition militaryCheck (host : Host) : bool :=
  forallb (fun h =>
    forallb (fun m =>
      forallb (fun padded =>
        forallb (fun withColon =>
          time_eqb
            (parseTime host (JSString (militaryText h m padded withColon)))
            (if (h <=? 23) && (m <=? 59)
             then Some {| hours := Num h; minutes := Num m |}
             else None))
          [true; false])
        [true; false])
      (zrange 0 100))
    (zrange 0 100).

(** The numeric notations of [dateFormats] for the year [y] on four
    digits, the month [mo] and the day [da] on two: YYYYMMDD, YYYY-MM-DD,
    MM/DD/YYYY, DD-MM-YYYY and YYYY/MM/DD. *)
Definition dateNotations (y mo da : jsstring) : list jsstring :=
  [ y ++ mo ++ da;
    y ++ str "-" ++ mo ++ str "-" ++ da;
    mo ++ str "/" ++ da ++ str "/" ++ y;
    da ++ str "-" ++ mo ++ str "-" ++ y;
    y ++ str "/" ++ mo ++ str "/" ++ da ].

(** [zeroFill] writes every number below [100 * hi] on [len] digits whose
    value is the number. *)
Definition zeroFillCheck (hi : nat) (len : nat) : bool :=
  forallb (fun a =>
    forallb (fun b =>
      let v := a * 100 + b in
      let s := zeroFill v len in
      Nat.eqb (List.length s) len && allDigits s && (digitsVal 0 s =? v))
      (zrange 0 100))
    (zrange 0 hi).

(** The short names of the months as they are written, with their
    numbers. *)
Definition namedMonths : list (jsstring * Z) :=
  map (fun p => (str (fst p), snd p))
    [ ("Jan", 1); ("Feb", 2); ("Mar", 3); ("Apr", 4); ("May", 5);
      ("Jun", 6); ("Jul", 7); ("Aug", 8); ("Sep", 9); ("Oct", 10);
      ("Nov", 11); ("Dec", 12) ]%string.

(** The named-month notations of [dateFormats] for the month name [name],
    the day [da] on two digits and the year [y] on four: MMM DD, YYYY and
    DD MMM YYYY. *)
Definition namedMonthNotations (name y da : jsstring) : list jsstring :=
  [ name ++ str " " ++ da ++ str ", " ++ y;
    da ++ str " " ++ name ++ str " " ++ y ].

(** No key of the row is [name] up to case. *)
Definition lacksColumn (row : csvRow) (name : string) : bool :=
  forallb (fun key => negb (streq (toLowerCase key) (toLowerCase (str name))))
          (map fst row).

(** One of the two groups E2 and F2. *)
Definition isE2orF2 (g : jsstring) : bool :=
  streq g (str "E2") || streq g (str "F2").

(** Every group code has a colour of its own in the table, which is not
    the default one; only E2 and F2 have the same. *)
Definition colorCheck : bool :=
  forallb (fun l =>
    forallb (fun d =>
      let g := [chr l; chr d] in
      match property g groupColors with
      | Some c =>
          negb (isEmptyStr c) && negb (streq c defaultColor)
          && forallb (fun p =>
               negb (streq (snd p) c) || streq (fst p) g
               || (isE2orF2 g && isE2orF2 (fst p)))
               groupColors
      | None => false
      end)
      (zrange 49 2))
    (zrange 65 8).

(** The state an upload begins with. *)
Definition uploadBegins : UploadState :=
  {| loadedEvents := [];
     uploadStatus := str "Processing file...";
     isProcessing := true |}.

(** The names of the columns of a CSV text: the fields of its first line
    that is not empty. *)
Definition csvHeader (text : jsstring) : list jsstring :=
  match csvLines text with
  | [] => []
  | header :: _ => splitOn "," header
  end.

(** No text of the list is there twice. *)
Fixpoint distinctNames (names : list jsstring) : bool :=
  match names with
  | [] => true
  | x :: t => negb (existsb (streq x) t) && distinctNames t
  end.

(** The texts [papaParse] reads as the library does: fields between
    commas and lines that end with a line feed, that is no quote, no
    carriage return and none of the other characters the library may
    take for the delimiter (tab, bar, semicolon, record separator and
    unit separator), and no two columns of the same name. *)
Definition plainCsv (text : jsstring) : bool :=
  forallb (fun c =>
             negb (existsb (Z.eqb (code c)) [9; 13; 30; 31; 34; 59; 124]))
          text
  && distinctNames (csvHeader text).

(** No column has the name, up to case, and none is named "undefined". *)
Definition headerLacks (names : list jsstring) (name : string) : bool :=
  forallb (fun key =>
             negb (streq (toLowerCase key) (toLowerCase (str name)))
             && negb (streq key (str "undefined")))
          names.

(** The text is ".xlsx" or ".xls" up to case. *)
Definition isExcelSuffix (s : jsstring) : bool :=
  streq (toLowerCase s) (str ".xlsx") || streq (toLowerCase s) (str ".xls").

(** Some suffix of the text, the text itself and the empty one included,
    has the property. *)
Fixpoint anySuffix (p : jsstring -> bool) (s : jsstring) : bool :=
  p s
  || match s with
     | [] => false
     | _ :: t => anySuffix p t
     end.

(** The place of a group code in the order of the codes. *)
Definition codeRank (g : jsstring) : Z :=
  match g with
  | [l; d] => code l * 256 + code d
  | _ => 0
  end.

(** The collation puts the capital letters A to H in the order of the
    alphabet. *)
Definition alphabetical (locale : Locale) : Prop :=
  forall a b : ascii,
    between 65 72 (code a) = true -> between 65 72 (code b) = true ->
    (0 < localeCompare locale [a] [b] <-> code b < code a).

(** A value that is not empty, zero or false and is not a text: it has no
    [match] method. *)
Definition nonText (v : JSValue) : bool :=
  truthy v && match v with JSString _ => false | _ => true end.

(** A text in which the search finds a group. *)
Definition findsCode (v : JSValue) : bool :=
  match v with
  | JSString s => match findCode s with Some _ => true | None => false end
  | _ => false
  end.

(** *** Hosts and inputs of the examples *)

(** The text of a date on the example hosts; no example reads it. *)
Definition plainDateText (d : JSDate) : jsstring :=
  match d with
  | InvalidDate => str "Invalid Date"
  | DateAt l => str "Date " ++ numToString l
  end.

Definition utcHost : Host :=
  {| tzMinutes := 0; dateToString := plainDateText |}.

(** A host five hours west of UTC. *)
Definition westHost : Host :=
  {| tzMinutes := -300; dateToString := plainDateText |}.

Definition text (s : string) : JSValue := JSString (str s).

(** A CSV row with the three required columns only. *)
Definition row3 (sectionDate startTime endTime : string) : csvRow :=
  [ (str "Section Date", str sectionDate);
    (str "Start Time", str startTime);
    (str "End Time", str endTime) ].

(** A sheet with a column of section numbers: the header row in lower
    case, a row whose section is the number 12, and the same row with the
    section as text. *)
Definition numberedHeader : list jsstring :=
  map str ["section date"; "start time"; "end time"; "section"]%string.

Definition numberedRow : list JSValue :=
  [text "20240115"; text "09:00"; text "10:00"; JSNumber 12].

Definition numberedRowAsText : list JSValue :=
  [text "20240115"; text "09:00"; text "10:00"; text "12"].

(** A row of that sheet with a date cell for 15 January 2024 and no
    section cell, from 14:00 to 13:00. *)
Definition datedRow : list JSValue :=
  [JSDateObj (DateAt (daysFromCivil 2024 1 15 * msPerDay));
   text "14:00"; text "13:00"].

Definition newline : string := String (chr 10) EmptyString.


Definition eventA : EventObject :=
  {| ref := 1;
     body := Entered (str "Seminar") (DateAt 1705327200000) (DateAt 1705330800000) |}.

(** The fields of [eventA] in another object. *)
Definition eventA' : EventObject :=
  {| ref := 2;
     body := Entered (str "Seminar") (DateAt 1705327200000) (DateAt 1705330800000) |}.

(** A candidate whose end is one hour before its start. *)
Definition eventInverted : EventObject :=
  {| ref := 3;
     body := Entered (str "Seminar") (DateAt 1705330800000) (DateAt 1705327200000) |}.

(** A candidate whose end is not a valid date. *)
Definition eventWithoutEnd : EventObject :=
  {| ref := 5;
     body := Entered (str "Seminar") (DateAt 1705327200000) InvalidDate |}.

Definition editingA : UIState :=
  {| events := [eventA; eventA'];
     selectedSlot := None;
     selectedEvent := Some eventA |}.

Definition addingSlot : UIState :=
  {| events := [eventA];
     selectedSlot := Some (DateAt 1705327200000, DateAt 1705330800000);
     selectedEvent := None |}.

(** A CSV row without a Section Date, whose dates stand in a column named
    "undefined". *)
Definition undefinedColumnRow : csvRow :=
  [ (str "undefined", str "20240115");
    (str "Start Time", str "09:00");
    (str "End Time", str "10:00") ].

(** A file named "Plan.XLSX" that SheetJS cannot read, and a file named
    "PLAN.CSV" of the type "application/vnd.ms-excel". *)
Definition upperCaseSheetFile : UploadedFile :=
  {| fileType := [];
     fileName := str "Plan.XLSX";
     sheet := Throw;
     fileText := [] |}.

Definition upperCaseCsvFile : UploadedFile :=
  {| fileType := str "application/vnd.ms-excel";
     fileName := str "PLAN.CSV";
     sheet := Throw;
     fileText := str "Section Date,Start Time,End Time" |}.


Definition csvWithoutEndFile : UploadedFile :=
  {| fileType := str "text/csv";
     fileName := str "plan.csv";
     sheet := Throw;
     fileText := str ("Section Date,Start Time" ++ newline
                      ++ "20240115,09:00")%string |}.

(** The collation by code units. *)
Fixpoint compareUnits (a b : jsstring) : Z :=
  match a, b with
  | [], [] => 0
  | [], _ :: _ => -1
  | _ :: _, [] => 1
  | x :: a', y :: b' =>
      if code x =? code y then compareUnits a' b' else code x - code y
  end.

Definition unitLocale : Locale := {| localeCompare := compareUnits |}.

(** Events of an upload in the groups B2, "Ungrouped", A2, B2 and A1, and
    an event the form built. *)
Definition groupedEvent (n : nat) (g : string) : EventObject :=
  {| ref := n;
     body := Imported {| title := text "Session";
                         start := DateAt 0;
                         end_ := DateAt msPerHour;
                         desc := [];
                         location := text "Room";
                         learnerGroup := str g |} |}.

Definition groupedEvents : list EventObject :=
  [ groupedEvent 1 "B2"; groupedEvent 2 "Ungrouped"; groupedEvent 3 "A2";
    groupedEvent 4 "B2"; groupedEvent 5 "A1"; eventA ].

(** The 15th of January 2024 at 10:00 and the 15th of February at 11:00,
    local time. *)
Definition january15 : JSDate :=
  DateAt (daysFromCivil 2024 1 15 * msPerDay + 10 * msPerHour).

Definition february15 : JSDate :=
  DateAt (daysFromCivil 2024 2 15 * msPerDay + 11 * msPerHour).

(* ================================================================= *)
(** ** Tactics *)

(** Boolean tests on character codes, decided by linear arithmetic. *)
Ltac to_props :=
  rewrite ?Bool.andb_true_iff, ?Bool.orb_true_iff, ?Z.leb_le, ?Z.eqb_eq in *.

Ltac char_bools :=
  unfold inSet, existsb, itemMatch, isAtoH, is1or2, isLetter, isDigit,
    isWhiteSpace, isLowerAZ, isUpperAZ, between in *;
  cbn [andb orb] in *;
  repeat match goal with
         | |- context [code (Ascii ?a ?b ?c ?d ?e ?f ?g ?h)] =>
             let v := eval vm_compute in (code (Ascii a b c d e f g h)) in
             change (code (Ascii a b c d e f g h)) with v
         end.

Ltac same_chars := char_bools; apply Bool.eq_iff_eq_true; to_props; lia.

Ltac no_char H :=
  char_bools; apply Bool.not_true_iff_false; intros H; to_props; lia.

(** Evaluation of the scanners on a text of digits that are variables. *)
Ltac eval_chars :=
  repeat match goal with
         | |- context [ascii_eqb (Ascii ?a ?b ?c ?d ?e ?f ?g ?h)
                                 (Ascii ?a' ?b' ?c' ?d' ?e' ?f' ?g' ?h')] =>
             let t := constr:(ascii_eqb (Ascii a b c d e f g h)
                                        (Ascii a' b' c' d' e' f' g' h')) in
             let v := eval vm_compute in t in
             change t with v
         | |- context [isDigit (Ascii ?a ?b ?c ?d ?e ?f ?g ?h)] =>
             let t := constr:(isDigit (Ascii a b c d e f g h)) in
             let v := eval vm_compute in t in
             change t with v
         end.

(* ================================================================= *)
(** ** Characters *)

Lemma code_range (c : ascii) : 0 <= code c < 256.
Proof.
  unfold code. pose proof (N_ascii_bounded c) as H. lia.
Qed.

Lemma code_chr (n : Z) : 0 <= n < 256 -> code (chr n) = n.
Proof.
  intros H. unfold code, chr.
  rewrite N_ascii_embedding by lia. lia.
Qed.

Lemma inSet_AtoH (c : ascii) : inSet true [CRange "A" "H"] c = isAtoH c.
Proof. same_chars. Qed.

Lemma inSet_oneOrTwo (c : ascii) : inSet true [CRange "1" "2"] c = is1or2 c.
Proof. same_chars. Qed.

Lemma inSet_space (ic : bool) (c : ascii) : inSet ic [CSpace] c = isWhiteSpace c.
Proof.
  unfold inSet, existsb, itemMatch. apply orb_false_r.
Qed.

Lemma inSet_letter (c : ascii) :
  inSet false [CRange "a" "z"; CRange "A" "Z"] c = isLetter c.
Proof. same_chars. Qed.

Lemma space_not_1or2 (c : ascii) : isWhiteSpace c = true -> is1or2 c = false.
Proof. intros Hs. no_char H. Qed.

Lemma AtoH_not_space (c : ascii) : isAtoH c = true -> isWhiteSpace c = false.
Proof. intros Hs. no_char H. Qed.

Lemma letter_not_digit (c : ascii) : isLetter c = true -> isDigit c = false.
Proof. intros Hs. no_char H. Qed.

Lemma digit_not_space (c : ascii) : isDigit c = true -> isWhiteSpace c = false.
Proof. intros Hs. no_char H. Qed.

Lemma is1or2_not_space (c : ascii) : is1or2 c = true -> isWhiteSpace c = false.
Proof.
  intros H. destruct (isWhiteSpace c) eqn:E; [|reflexivity].
  apply space_not_1or2 in E. congruence.
Qed.

(** *** Trimming *)

Lemma trimStart_noSpace (s : jsstring) : noSpace s = true -> trimStart s = s.
Proof.
  destruct s as [|c t]; [reflexivity|].
  cbn [noSpace forallb trimStart]. intros H.
  apply andb_true_iff in H as [Hc _].
  apply negb_true_iff in Hc. now rewrite Hc.
Qed.

Lemma noSpace_rev (s : jsstring) : noSpace s = true -> noSpace (rev s) = true.
Proof.
  unfold noSpace. rewrite !forallb_forall.
  intros H c Hc. apply H. now apply in_rev.
Qed.

Lemma trim_noSpace (s : jsstring) : noSpace s = true -> trim s = s.
Proof.
  intros H. unfold trim, trimEnd.
  rewrite (trimStart_noSpace s H).
  rewrite (trimStart_noSpace (rev s) (noSpace_rev s H)).
  apply rev_involutive.
Qed.

(** *** Texts of digits *)

Lemma allDigits_noSpace (s : jsstring) : allDigits s = true -> noSpace s = true.
Proof.
  unfold allDigits, noSpace. rewrite !forallb_forall.
  intros H c Hc. now rewrite (digit_not_space c (H c Hc)).
Qed.

Lemma dropDigits_allDigits (s : jsstring) : allDigits s = true -> dropDigits s = [].
Proof.
  induction s as [|c t IH]; [reflexivity|].
  cbn [allDigits forallb dropDigits]. intros H.
  apply andb_true_iff in H as [-> Ht]. now apply IH.
Qed.

Lemma allDigits_app (a b : jsstring) :
  allDigits a = true -> allDigits b = true -> allDigits (a ++ b) = true.
Proof.
  unfold allDigits. rewrite forallb_app. now intros -> ->.
Qed.

Lemma digit_not_sign (c : ascii) :
  isDigit c = true -> ascii_eqb c "+" = false /\ ascii_eqb c "-" = false.
Proof.
  unfold ascii_eqb, isDigit, between.
  change (code "+") with 43. change (code "-") with 45. lia.
Qed.

Lemma isNumericString_digits (s : jsstring) :
  s <> [] -> allDigits s = true -> isNumericString s = true.
Proof.
  intros Hne Hd. unfold isNumericString.
  rewrite (trim_noSpace s (allDigits_noSpace s Hd)).
  destruct s as [|c t]; [contradiction|].
  assert (Hc : isDigit c = true).
  { cbn [allDigits forallb] in Hd. now apply andb_true_iff in Hd. }
  destruct (digit_not_sign c Hc) as [-> ->]. cbn [orb].
  apply orb_true_iff. right. unfold unsignedDecimal.
  rewrite (dropDigits_allDigits _ Hd). cbn [startsWithDigit].
  rewrite Hc. now destruct (streq _ _).
Qed.

Lemma parseInt_digits (s : jsstring) :
  s <> [] -> allDigits s = true -> parseInt s = Num (digitsVal 0 s).
Proof.
  intros Hne Hd. unfold parseInt.
  rewrite (trimStart_noSpace s (allDigits_noSpace s Hd)).
  destruct s as [|c t]; [contradiction|].
  assert (Hc : isDigit c = true).
  { cbn [allDigits forallb] in Hd. now apply andb_true_iff in Hd. }
  destruct (digit_not_sign c Hc) as [-> ->]. now rewrite Hc.
Qed.

Lemma digitsVal_nonneg (s : jsstring) (acc : Z) : 0 <= acc -> 0 <= digitsVal acc s.
Proof.
  revert acc. induction s as [|c t IH]; intros acc Hacc; cbn [digitsVal]; [exact Hacc|].
  destruct (isDigit c) eqn:Hc; [|exact Hacc].
  apply IH. unfold digitVal. unfold isDigit, between in Hc. lia.
Qed.

Lemma parseInt_digits_nonneg (g : jsstring) :
  g <> [] -> allDigits g = true -> exists v, parseInt g = Num v /\ 0 <= v.
Proof.
  intros Hne Hd. exists (digitsVal 0 g).
  split; [now apply parseInt_digits|apply digitsVal_nonneg; lia].
Qed.

(* ================================================================= *)
(** ** Patterns *)

(** *** The captures of a match *)

Lemma starSet_sound (ic : bool) (cs : list citem) (n : nat) (s : jsstring)
  (n' : nat) (s' : jsstring) :
  In (n', s') (starSet ic cs n s) ->
  exists w, s = w ++ s' /\ n' = (n + List.length w)%nat
            /\ forallb (inSet ic cs) w = true.
Proof.
  revert n. induction s as [|c t IH]; intros n; cbn [starSet].
  - intros [[= <- <-]|[]]. exists []. cbn. repeat split; lia.
  - destruct (inSet ic cs c) eqn:Hc.
    + intros Hin. apply in_app_or in Hin as [Hin|[[= <- <-]|[]]].
      * destruct (IH _ Hin) as (w & -> & -> & Hw).
        exists (c :: w). cbn [app List.length forallb]. rewrite Hc, Hw.
        repeat split; lia.
      * exists []. cbn. repeat split; lia.
    + intros [[= <- <-]|[]]. exists []. cbn. repeat split; lia.
Qed.

Lemma run_sound (ic : bool) (r : regex) (st st' : mstate) :
  In st' (run ic r st) ->
  exists w added,
    rest st = w ++ rest st'
    /\ consumed st' = (consumed st + List.length w)%nat
    /\ matches ic r w
    /\ caps st' = added ++ caps st
    /\ Forall (fun p => exists a, In (fst p, a) (groupsOf r)
                                  /\ matches ic a (snd p)) added.
Proof.
  revert st st'. induction r as [|cs|a IHa b IHb|a IHa b IHb|a IHa|cs|i a IHa| |];
    intros st st' Hin; cbn [run] in Hin.
  - destruct Hin as [<-|[]]. exists [], []. cbn. repeat split; auto using matches.
  - destruct (rest st) as [|c t] eqn:Hrest; [contradiction|].
    destruct (inSet ic cs c) eqn:Hc; [|contradiction].
    destruct Hin as [<-|[]]. exists [c], []. cbn.
    repeat split; auto using matches.
    lia.
  - apply in_flat_map in Hin as (st1 & H1 & H2).
    destruct (IHa _ _ H1) as (w1 & ad1 & Hr1 & Hc1 & Hm1 & Hcap1 & Hf1).
    destruct (IHb _ _ H2) as (w2 & ad2 & Hr2 & Hc2 & Hm2 & Hcap2 & Hf2).
    exists (w1 ++ w2), (ad2 ++ ad1). repeat split.
    + now rewrite Hr1, Hr2, app_assoc.
    + rewrite Hc2, Hc1, length_app. lia.
    + now constructor.
    + now rewrite Hcap2, Hcap1, app_assoc.
    + apply Forall_app. split; (eapply Forall_impl; [|eassumption]);
        intros [j g] (x & Hx & Hg); exists x; cbn [groupsOf];
        (split; [apply in_or_app; auto|exact Hg]).
  - apply in_app_or in Hin as [Hin|Hin].
    + destruct (IHa _ _ Hin) as (w & ad & Hr & Hc & Hm & Hcap & Hf).
      exists w, ad. repeat split; auto using matches.
      eapply Forall_impl; [|eassumption].
      intros [j g] (x & Hx & Hg); exists x; cbn [groupsOf].
      split; [apply in_or_app; auto|exact Hg].
    + destruct (IHb _ _ Hin) as (w & ad & Hr & Hc & Hm & Hcap & Hf).
      exists w, ad. repeat split; auto using matches.
      eapply Forall_impl; [|eassumption].
      intros [j g] (x & Hx & Hg); exists x; cbn [groupsOf].
      split; [apply in_or_app; auto|exact Hg].
  - apply in_app_or in Hin as [Hin|[<-|[]]].
    + destruct (IHa _ _ Hin) as (w & ad & Hr & Hc & Hm & Hcap & Hf).
      exists w, ad. repeat split; auto using matches.
    + exists [], []. cbn. repeat split; auto using matches.
  - apply in_map_iff in Hin as ([n s] & <- & Hin). cbn [fst snd consumed rest caps].
    destruct (starSet_sound ic cs _ _ _ _ Hin) as (w & Hr & Hc & Hw).
    exists w, []. repeat split; auto using matches.
  - apply in_map_iff in Hin as (st1 & <- & Hin). cbn [consumed rest caps].
    destruct (IHa _ _ Hin) as (w & ad & Hr & Hc & Hm & Hcap & Hf).
    exists w, ((i, w) :: ad). repeat split; auto using matches.
    + rewrite Hcap, Hc, Hr.
      replace (consumed st + List.length w - consumed st)%nat
        with (List.length w) by lia.
      rewrite firstn_app, Nat.sub_diag, firstn_all. cbn [firstn].
      now rewrite app_nil_r.
    + constructor.
      * exists a. cbn [fst snd groupsOf]. split; [now left|exact Hm].
      * eapply Forall_impl; [|eassumption].
        intros [j g] (x & Hx & Hg); exists x; cbn [groupsOf].
        split; [now right|exact Hg].
  - destruct (Nat.eqb (consumed st) 0); [|contradiction].
    destruct Hin as [<-|[]]. exists [], []. cbn. repeat split; auto using matches.
  - destruct (rest st) as [|c t] eqn:Hrest; [|contradiction].
    destruct Hin as [<-|[]]. exists [], []. cbn.
    repeat split; auto using matches.
Qed.

Lemma lookupGroup_In (i : nat) (c : captures) (g : jsstring) :
  lookupGroup i c = Some g -> In (i, g) c.
Proof.
  induction c as [|[j v] c IH]; cbn [lookupGroup]; [discriminate|].
  destruct (Nat.eqb_spec i j) as [->|Hne].
  - intros [= ->]. now left.
  - intros H. right. now apply IH.
Qed.

Lemma execAt_sound (ic : bool) (r : regex) (pos : nat) (s : jsstring)
  (m : rmatch) :
  execAt ic r pos s = Some m ->
  exists st st', In st' (run ic r st) /\ caps st = [] /\ groups m = caps st'.
Proof.
  revert pos. induction s as [|c t IH]; intros pos; cbn [execAt].
  - destruct (run ic r (MState pos [] [])) as [|st' l] eqn:Hrun; [discriminate|].
    intros [= <-]. exists (MState pos [] []), st'.
    rewrite Hrun. repeat split. now left.
  - destruct (run ic r (MState pos (c :: t) [])) as [|st' l] eqn:Hrun.
    + apply IH.
    + intros [= <-]. exists (MState pos (c :: t) []), st'.
      rewrite Hrun. repeat split. now left.
Qed.

(** A capture of a match is a text that its group matches. *)
Lemma exec_group_sound (ic : bool) (r : regex) (s : jsstring) (m : rmatch)
  (i : nat) (g : jsstring) :
  exec ic r s = Some m -> group i m = Some g ->
  exists a, In (i, a) (groupsOf r) /\ matches ic a g.
Proof.
  intros Hexec Hgroup.
  destruct (execAt_sound ic r 0 s m Hexec) as (st & st' & Hin & Hnil & Hcaps).
  destruct (run_sound ic r st st' Hin) as (w & added & _ & _ & _ & Hadd & Hall).
  unfold group in Hgroup. rewrite Hcaps, Hadd, Hnil, app_nil_r in Hgroup.
  apply lookupGroup_In in Hgroup.
  rewrite Forall_forall in Hall. exact (Hall _ Hgroup).
Qed.

Lemma matches_digit (ic : bool) (g : jsstring) :
  matches ic digit g -> exists c, g = [c] /\ isDigit c = true.
Proof.
  intros H. inversion H as [|cs c Hc| | | | | | | | |]; subst.
  exists c. split; [reflexivity|].
  unfold inSet, existsb, itemMatch in Hc. now rewrite orb_false_r in Hc.
Qed.

Lemma matches_digit12 (ic : bool) (g : jsstring) :
  matches ic digit12 g -> g <> [] /\ allDigits g = true.
Proof.
  intros H. unfold digit12 in H.
  inversion H as [| |a b u v Hu Hv| | | | | | | |]; subst.
  apply matches_digit in Hu as (c & -> & Hc).
  inversion Hv as [| | | | |a u Hd|a| | | |]; subst.
  - apply matches_digit in Hd as (d & -> & Hd).
    split; [discriminate|]. cbn [app allDigits forallb]. now rewrite Hc, Hd.
  - split; [discriminate|]. cbn [app allDigits forallb]. now rewrite Hc.
Qed.

Lemma matches_two_digits (ic : bool) (g : jsstring) :
  matches ic (RCat digit digit) g -> g <> [] /\ allDigits g = true.
Proof.
  intros H. inversion H as [| |a b u v Hu Hv| | | | | | | |]; subst.
  apply matches_digit in Hu as (c & -> & Hc).
  apply matches_digit in Hv as (d & -> & Hd).
  split; [discriminate|]. cbn [app allDigits forallb]. now rewrite Hc, Hd.
Qed.

(** The captures of the 24-hour pattern are numbers that are not
    negative. *)
Lemma military_groups (s : jsstring) (m : rmatch) :
  exec false militaryPattern s = Some m ->
  (parseIntGroup (group 1 m) = NaN
   \/ exists v, parseIntGroup (group 1 m) = Num v /\ 0 <= v)
  /\ exists v,
      parseInt (if truthyGroup (group 2 m) then groupText 2 m else str "00")
      = Num v /\ 0 <= v.
Proof.
  intros Hexec. split.
  - destruct (group 1 m) as [g|] eqn:Hg; [|now left].
    right. destruct (exec_group_sound _ _ _ _ _ _ Hexec Hg) as (a & Ha & Hm).
    cbn in Ha. destruct Ha as [[= <-]|[[= ]|[]]].
    apply matches_digit12 in Hm as [Hne Hd].
    now apply parseInt_digits_nonneg.
  - unfold groupText. destruct (group 2 m) as [g|] eqn:Hg; cbn [truthyGroup].
    + destruct (exec_group_sound _ _ _ _ _ _ Hexec Hg) as (a & Ha & Hm).
      cbn in Ha. destruct Ha as [[= ]|[[= <-]|[]]].
      apply matches_two_digits in Hm as [Hne Hd].
      destruct g; [contradiction|]. cbn [isEmptyStr negb].
      now apply parseInt_digits_nonneg.
    + exists 0. split; [reflexivity|lia].
Qed.

(** *** The pattern of the group search *)

Lemma run_spaces_then_digit (n : nat) (t : jsstring) (c0 : captures) :
  map caps
      (flat_map (run true (RGroup 2 oneOrTwo))
         (map (fun p => MState (fst p) (snd p) c0)
              (starSet true [CSpace] n t)))
  = match trimStart t with
    | d :: _ => if is1or2 d then [(2%nat, [d]) :: c0] else []
    | [] => []
    end.
Proof.
  revert n. induction t as [|c t IH]; intros n.
  - reflexivity.
  - cbn [starSet trimStart]. rewrite inSet_space.
    destruct (isWhiteSpace c) eqn:Hc.
    + rewrite map_app, flat_map_app, map_app, IH.
      cbn [map flat_map run rest oneOrTwo fst snd].
      rewrite inSet_oneOrTwo, (space_not_1or2 c Hc).
      cbn [map app]. apply app_nil_r.
    + cbn [map flat_map run rest oneOrTwo fst snd consumed].
      rewrite inSet_oneOrTwo.
      destruct (is1or2 c); [|reflexivity].
      cbn [map app caps consumed rest].
      replace (S n - n)%nat with 1%nat by lia. reflexivity.
Qed.

Lemma run_groupPattern (pos : nat) (s : jsstring) :
  map caps (run true groupPattern (MState pos s []))
  = match s with
    | c :: t =>
        if isAtoH c then
          match trimStart t with
          | d :: _ => if is1or2 d then [[(2%nat, [d]); (1%nat, [c])]] else []
          | [] => []
          end
        else []
    | [] => []
    end.
Proof.
  unfold groupPattern. cbn [run].
  destruct s as [|c t]; [reflexivity|].
  cbn [run rest AtoH]. rewrite inSet_AtoH.
  destruct (isAtoH c); [|reflexivity].
  cbn [map flat_map consumed rest caps].
  replace (S pos - pos)%nat with 1%nat by lia.
  cbn [firstn]. rewrite app_nil_r.
  apply run_spaces_then_digit.
Qed.

Lemma execAt_groupPattern (pos : nat) (s : jsstring) :
  option_map codeOf (execAt true groupPattern pos s) = findCode s.
Proof.
  revert pos. induction s as [|c t IH]; intros pos.
  - cbn [execAt]. generalize (run_groupPattern pos []).
    destruct (run true groupPattern (MState pos [] [])); [reflexivity|].
    discriminate.
  - cbn [execAt findCode]. generalize (run_groupPattern pos (c :: t)).
    cbn iota.
    destruct (isAtoH c); [destruct (trimStart t) as [|d t'];
                          [|destruct (is1or2 d) eqn:Hd]|];
      destruct (run true groupPattern (MState pos (c :: t) [])) as [|st l];
      intros H; try discriminate H; try apply IH.
    cbn [map] in H. injection H as Hst _.
    cbn [option_map]. unfold codeOf, groupText, group.
    cbn [groups]. rewrite Hst. reflexivity.
Qed.

Lemma findCode_shape (s g : jsstring) :
  findCode s = Some g ->
  exists l d, g = [l; d] /\ isAtoH l = true /\ is1or2 d = true.
Proof.
  induction s as [|c t IH]; cbn [findCode]; [discriminate|].
  destruct (isAtoH c) eqn:Hc; [|exact IH].
  destruct (trimStart t) as [|d t']; [exact IH|].
  destruct (is1or2 d) eqn:Hd; [|exact IH].
  intros [= <-]. now exists c, d.
Qed.

(** *** The pattern of the explicit field *)

Lemma execAt_expectedPattern_later (pos : nat) (s : jsstring) :
  execAt true expectedPattern (S pos) s = None.
Proof.
  revert pos. induction s as [|c t IH]; intros pos; cbn; [reflexivity|].
  apply IH.
Qed.

Lemma run_expectedPattern (s : jsstring) :
  run true expectedPattern (MState 0 s [])
  = match s with
    | [l; d] => if isAtoH l && is1or2 d then [MState 2 [] []] else []
    | _ => []
    end.
Proof.
  unfold expectedPattern, AtoH, oneOrTwo.
  destruct s as [|l [|d [|x r]]];
    cbn [run Nat.eqb consumed flat_map app rest caps];
    rewrite ?inSet_AtoH; try reflexivity;
    destruct (isAtoH l);
    cbn [flat_map app run rest andb caps consumed];
    rewrite ?inSet_oneOrTwo; try reflexivity;
    destruct (is1or2 d); reflexivity.
Qed.

Lemma test_expectedPattern (s : jsstring) :
  test true expectedPattern s = isCodeAnyCase s.
Proof.
  unfold test, exec.
  destruct s as [|l t]; [reflexivity|].
  cbn [execAt]. rewrite run_expectedPattern, execAt_expectedPattern_later.
  destruct t as [|d [|x r]]; cbn [isCodeAnyCase]; try reflexivity.
  destruct (isAtoH l && is1or2 d); reflexivity.
Qed.

(** *** The pattern of the guard *)

Lemma execAt_letterPattern (pos : nat) (s : jsstring) :
  match execAt false letterPattern pos s with
  | Some _ => true
  | None => false
  end = existsb isLetter s.
Proof.
  revert pos. induction s as [|c t IH]; intros pos; [reflexivity|].
  cbn [execAt existsb]. unfold letterPattern at 1. cbn [run rest].
  rewrite inSet_letter.
  destruct (isLetter c); [reflexivity|]. apply IH.
Qed.

Lemma test_letterPattern (s : jsstring) :
  test false letterPattern s = existsb isLetter s.
Proof. apply execAt_letterPattern. Qed.

(* ================================================================= *)
(** ** The time parser *)

Lemma parseTime_truthy (host : Host) (v : JSValue) (t : TimeOfDay) :
  parseTime host v = Some t -> truthy v = true.
Proof.
  unfold parseTime. destruct (truthy v); [reflexivity|].
  cbn [negb catch]. discriminate.
Qed.

Lemma getHours_range (d : JSDate) : nanOrBetween 0 23 (getHours d) = true.
Proof.
  destruct d as [|l]; [reflexivity|].
  cbn [getHours nanOrBetween]. unfold between, msPerDay, msPerHour.
  apply andb_true_iff. rewrite !Z.leb_le.
  pose proof (Z.mod_pos_bound l 86400000 ltac:(lia)) as Hm.
  split.
  - apply Z.div_pos; lia.
  - apply Z.lt_succ_r. apply Z.div_lt_upper_bound; lia.
Qed.

Lemma getMinutes_range (d : JSDate) : nanOrBetween 0 59 (getMinutes d) = true.
Proof.
  destruct d as [|l]; [reflexivity|].
  cbn [getMinutes nanOrBetween]. unfold between, msPerHour, msPerMinute.
  apply andb_true_iff. rewrite !Z.leb_le.
  pose proof (Z.mod_pos_bound l 3600000 ltac:(lia)) as Hm.
  split.
  - apply Z.div_pos; lia.
  - apply Z.lt_succ_r. apply Z.div_lt_upper_bound; lia.
Qed.

Lemma range_from_tests (x : JSNum) (hi : Z) :
  num_lt x (Num 0) = false -> num_gt x (Num hi) = false ->
  nanOrBetween 0 hi x = true.
Proof.
  destruct x as [|z]; [reflexivity|].
  cbn [num_lt num_gt nanOrBetween]. unfold between. lia.
Qed.

(** Every field of a time of day the parser returns is [NaN] or in its
    range. *)
Lemma parseTime_fields (host : Host) (v : JSValue) (t : TimeOfDay) :
  parseTime host v = Some t ->
  nanOrBetween 0 23 (hours t) = true /\ nanOrBetween 0 59 (minutes t) = true.
Proof.
  unfold parseTime. destruct (truthy v); [|discriminate]. cbn [negb].
  assert (Hstring : forall s,
    catch
      (let cleaned := toLowerCase (trim s) in
       match exec false militaryPattern cleaned with
       | Some militaryMatch =>
           let hours := parseIntGroup (group 1 militaryMatch) in
           let minutes :=
             parseInt (if truthyGroup (group 2 militaryMatch)
                       then groupText 2 militaryMatch
                       else str "00") in
           if num_gt hours (Num 23) || num_gt minutes (Num 59)
           then Normal None
           else Normal (Some {| hours := hours; minutes := minutes |})
       | None =>
           let twelveHourMatch :=
             match exec true twelveHourPattern cleaned with
             | Some m => Some m
             | None => exec true noonMidnightPattern cleaned
             end in
           match twelveHourMatch with
           | Some twelveHourMatch =>
               let hours :=
                 if truthyGroup (group 1 twelveHourMatch)
                 then parseIntGroup (group 1 twelveHourMatch)
                 else Num 0 in
               let minutes :=
                 if truthyGroup (group 2 twelveHourMatch)
                 then parseIntGroup (group 2 twelveHourMatch)
                 else Num 0 in
               let period :=
                 option_map toLowerCase (group 3 twelveHourMatch) in
               let hours := if periodIs period "noon" then Num 12 else hours in
               let hours := if periodIs period "midnight" then Num 0 else hours in
               let hours :=
                 if periodIs period "pm" && num_ne hours (Num 12)
                 then num_add hours (Num 12) else hours in
               let hours :=
                 if periodIs period "am" && num_eq hours (Num 12)
                 then Num 0 else hours in
               if num_lt hours (Num 0) || num_gt hours (Num 23)
                  || num_lt minutes (Num 0) || num_gt minutes (Num 59)
               then Normal None
               else Normal (Some {| hours := hours; minutes := minutes |})
           | None => Normal None
           end
       end) None = Some t ->
    nanOrBetween 0 23 (hours t) = true /\ nanOrBetween 0 59 (minutes t) = true).
  { intros s. cbv zeta.
    destruct (exec false militaryPattern (toLowerCase (trim s)))
      as [m|] eqn:Hmil.
    - destruct (military_groups _ _ Hmil) as [Hh (vm & Hmin & Hvm)].
      rewrite Hmin.
      destruct Hh as [Hnan|(vh & Hh & Hvh)].
      + rewrite Hnan. cbn [num_gt num_lt orb catch].
        destruct (59 <? vm) eqn:Hc; [discriminate|].
        intros [= <-]. cbn [hours minutes nanOrBetween]. unfold between.
        split; [reflexivity|lia].
      + rewrite Hh. cbn [num_gt num_lt catch].
        destruct ((23 <? vh) || (59 <? vm)) eqn:Hc; [discriminate|].
        intros [= <-]. cbn [hours minutes nanOrBetween]. unfold between.
        apply orb_false_iff in Hc. lia.
    - destruct (match exec true twelveHourPattern (toLowerCase (trim s)) with
                | Some m => Some m
                | None => exec true noonMidnightPattern (toLowerCase (trim s))
                end) as [m|]; [|discriminate].
      match goal with
      | |- catch (if num_lt ?h _ || _ || num_lt ?mi _ || _ then _ else _) _ = _ -> _ =>
          generalize h, mi
      end.
      intros h mi.
      destruct (num_lt h (Num 0)) eqn:H1; [discriminate|].
      destruct (num_gt h (Num 23)) eqn:H2; [discriminate|].
      destruct (num_lt mi (Num 0)) eqn:H3; [discriminate|].
      destruct (num_gt mi (Num 59)) eqn:H4; [discriminate|].
      cbn [orb catch]. intros [= <-]. cbn [hours minutes].
      split; now apply range_from_tests. }
  destruct v as [|b|z|s|d]; cbn [toString bind].
  - discriminate.
  - apply Hstring.
  - apply Hstring.
  - apply Hstring.
  - cbn [catch]. intros [= <-]. cbn [hours minutes].
    split; [apply getHours_range|apply getMinutes_range].
Qed.

Lemma num_eqb_eq (a b : JSNum) : num_eqb a b = true -> a = b.
Proof.
  destruct a, b; cbn; try discriminate; [reflexivity|].
  intros H. apply Z.eqb_eq in H. now subst.
Qed.

Lemma time_eqb_eq (a b : option TimeOfDay) : time_eqb a b = true -> a = b.
Proof.
  destruct a as [[ha ma]|], b as [[hb mb]|]; cbn; try discriminate;
    [|reflexivity].
  intros H. apply andb_true_iff in H as [Hh Hm].
  now rewrite (num_eqb_eq _ _ Hh), (num_eqb_eq _ _ Hm).
Qed.

Lemma in_zrange (lo : Z) (len : nat) (x : Z) :
  lo <= x < lo + Z.of_nat len -> In x (zrange lo len).
Proof.
  intros H. unfold zrange. apply in_map_iff.
  exists (Z.to_nat (x - lo)). split; [lia|].
  apply in_seq. lia.
Qed.

Lemma in_bools (b : bool) : In b [true; false].
Proof. destruct b; cbn; auto. Qed.

Lemma twelveHourCheck_holds (host : Host) : twelveHourCheck host = true.
Proof. vm_compute. reflexivity. Qed.

(** C1, evaluated where the source misses it.  The 12-hour form with a
    period and the out-of-range 24-hour form behave as described:
    "1:30 pm" is 13:30, "25:00" is refused, and every reading from 1:00 to
    12:59 with "am" or "pm" is converted in the standard way.  For "noon"
    and "midnight" the second pattern has one capture only: the word lands
    in group 1, whose [parseInt] is [NaN], the period (group 3) is
    undefined, neither assignment of 12 or 0 runs, and the range test lets
    [NaN] through: the result is a time with hours [NaN], not 12:00 or
    0:00. *)
Theorem parseTime_named_times_lose_the_hour (host : Host) :
  parseTime host (text "1:30 pm") = Some {| hours := Num 13; minutes := Num 30 |}
  /\ parseTime host (text "25:00") = None
  /\ (forall h m withMinutes withSpace pm,
        1 <= h <= 12 -> 0 <= m <= 59 ->
        parseTime host (JSString (twelveHourText h m withMinutes withSpace pm))
        = Some {| hours := Num (to24 h pm);
                  minutes := Num (if withMinutes then m else 0) |})
  /\ parseTime host (text "noon") = Some {| hours := NaN; minutes := Num 0 |}
  /\ parseTime host (text "midnight") = Some {| hours := NaN; minutes := Num 0 |}.
Proof.
  split; [vm_compute; reflexivity|].
  split; [vm_compute; reflexivity|].
  split; [|split; vm_compute; reflexivity].
  intros h m withMinutes withSpace pm Hh Hm.
  apply time_eqb_eq.
  pose proof (twelveHourCheck_holds host) as H.
  unfold twelveHourCheck in H. rewrite forallb_forall in H.
  specialize (H h (in_zrange 1 12 h ltac:(lia))).
  rewrite forallb_forall in H.
  specialize (H m (in_zrange 0 60 m ltac:(lia))).
  rewrite forallb_forall in H. specialize (H withMinutes (in_bools _)).
  rewrite forallb_forall in H. specialize (H withSpace (in_bools _)).
  rewrite forallb_forall in H. exact (H pm (in_bools _)).
Qed.

(** "11:05 pm" is 23:05 and "12 am" is 0:00. *)
Lemma parseTime_twelve_hour_witness :
  parseTime utcHost (text "11:05 pm")
    = Some {| hours := Num 23; minutes := Num 5 |}
  /\ parseTime utcHost (text "12am")
    = Some {| hours := Num 0; minutes := Num 0 |}.
Proof.
  split.
  - apply (proj1 (proj2 (proj2 (parseTime_named_times_lose_the_hour utcHost)))
             11 5 true true true); lia.
  - apply (proj1 (proj2 (proj2 (parseTime_named_times_lose_the_hour utcHost)))
             12 0 false false false); lia.
Defined.

(** C2, evaluated at the failing input: [parseTime] succeeds on "noon"
    with a time of day that is not in range.  [NaN] is the only way out of
    the range: every field of every time of day the parser returns is
    [NaN] or in its range. *)
Theorem parseTime_noon_not_in_range (host : Host) :
  (exists t, parseTime host (text "noon") = Some t /\ inRange t = false)
  /\ (forall v t,
        parseTime host v = Some t ->
        nanOrBetween 0 23 (hours t) = true
        /\ nanOrBetween 0 59 (minutes t) = true).
Proof.
  split.
  - eexists; split.
    + vm_compute; reflexivity.
    + reflexivity.
  - apply parseTime_fields.
Qed.

(** The fields of "0930", read as 9:30. *)
Lemma parseTime_fields_witness :
  parseTime utcHost (text "0930") = Some {| hours := Num 9; minutes := Num 30 |}
  /\ nanOrBetween 0 23 (Num 9) = true /\ nanOrBetween 0 59 (Num 30) = true.
Proof.
  assert (H : parseTime utcHost (text "0930")
              = Some {| hours := Num 9; minutes := Num 30 |})
    by (vm_compute; reflexivity).
  split; [exact H|].
  exact (proj2 (parseTime_noon_not_in_range utcHost) _ _ H).
Defined.

(* ================================================================= *)
(** ** The group classifier *)

Lemma code_noSpace (l d : ascii) :
  isAtoH l = true -> is1or2 d = true -> noSpace [l; d] = true.
Proof.
  intros Hl Hd. cbn [noSpace forallb].
  now rewrite (AtoH_not_space l Hl), (is1or2_not_space d Hd).
Qed.

Lemma isCodeAnyCase_shape (s : jsstring) :
  isCodeAnyCase s = true ->
  exists l d, s = [l; d] /\ isAtoH l = true /\ is1or2 d = true.
Proof.
  destruct s as [|l [|d [|x r]]]; cbn [isCodeAnyCase]; try discriminate.
  intros H. apply andb_true_iff in H as [Hl Hd]. now exists l, d.
Qed.

(** The search of one name field, as the source runs it on a string. *)
Lemma search_step (s : jsstring) :
  (if isEmptyStr [] && truthy (JSString s) then
     m <- callMatch (JSString s) true groupPattern ;;
     match m with
     | Some m => Normal (groupText 1 m ++ groupText 2 m)
     | None => Normal []
     end
   else Normal [])
  = Normal (match findCode s with Some g => g | None => [] end).
Proof.
  cbn [isEmptyStr andb truthy callMatch bind].
  destruct s as [|c t]; [reflexivity|]. cbn [isEmptyStr negb].
  unfold exec. rewrite <- (execAt_groupPattern 0 (c :: t)).
  destruct (execAt true groupPattern 0 (c :: t)); reflexivity.
Qed.

(** On strings the classifier never throws and computes [classify]. *)
Lemma deriveLearnerGroup_strings (host : Host) (explicit session section : jsstring) :
  deriveLearnerGroup host (JSString explicit) (JSString session) (JSString section)
  = Normal (classify explicit session section).
Proof.
  unfold deriveLearnerGroup, classify.
  cbn [toString bind]. rewrite test_expectedPattern.
  assert (Hfirst :
    (if truthy (JSString explicit)
     then Normal (if negb (isCodeAnyCase (trim explicit)) then [] else trim explicit)
     else Normal [])
    = Normal (if isCodeAnyCase (trim explicit) then trim explicit else [])).
  { destruct explicit as [|c t]; [reflexivity|]. cbn [truthy isEmptyStr negb].
    destruct (isCodeAnyCase (trim (c :: t))); reflexivity. }
  rewrite Hfirst. cbn [bind].
  destruct (isCodeAnyCase (trim explicit)) eqn:Hcode.
  - destruct (isCodeAnyCase_shape _ Hcode) as (l & d & -> & Hl & Hd).
    cbn [isEmptyStr andb bind negb].
    now rewrite (trim_noSpace _ (code_noSpace l d Hl Hd)).
  - rewrite search_step. cbn [bind].
    destruct (findCode section) as [g|] eqn:Hsection.
    + destruct (findCode_shape _ _ Hsection) as (l & d & -> & Hl & Hd).
      cbn [isEmptyStr andb bind negb].
      now rewrite (trim_noSpace _ (code_noSpace l d Hl Hd)).
    + rewrite search_step. cbn [bind].
      destruct (findCode session) as [g|] eqn:Hsession; [|reflexivity].
      destruct (findCode_shape _ _ Hsession) as (l & d & -> & Hl & Hd).
      cbn [isEmptyStr andb bind negb].
      now rewrite (trim_noSpace _ (code_noSpace l d Hl Hd)).
Qed.

Lemma toUpperCase_code (l d : ascii) :
  isAtoH l = true -> is1or2 d = true -> isGroupCode (toUpperCase [l; d]) = true.
Proof.
  intros Hl Hd. cbn [toUpperCase map isGroupCode]. unfold upperChar.
  pose proof (code_range l) as Rl.
  assert (Hd' : between 97 122 (code d)
                || between 224 254 (code d) && negb (code d =? 247) = false).
  { revert Hd. unfold is1or2, between. intros Hd. lia. }
  rewrite Hd', Hd, andb_true_r.
  destruct (between 97 122 (code l)
            || between 224 254 (code l) && negb (code l =? 247)) eqn:Hup.
  - unfold isAtoH, between in *. rewrite code_chr by lia. lia.
  - unfold isAtoH, between in *. lia.
Qed.

Lemma classify_result (explicit session section : jsstring) :
  classify explicit session section = str "Ungrouped"
  \/ isGroupCode (classify explicit session section) = true.
Proof.
  unfold classify.
  destruct (isCodeAnyCase (trim explicit)) eqn:Hcode.
  - destruct (isCodeAnyCase_shape _ Hcode) as (l & d & -> & Hl & Hd).
    right. now apply toUpperCase_code.
  - destruct (findCode section) as [g|] eqn:Hsection.
    + destruct (findCode_shape _ _ Hsection) as (l & d & -> & Hl & Hd).
      right. now apply toUpperCase_code.
    + destruct (findCode session) as [g|] eqn:Hsession; [|now left].
      destruct (findCode_shape _ _ Hsession) as (l & d & -> & Hl & Hd).
      right. now apply toUpperCase_code.
Qed.

(* ================================================================= *)
(** ** The date-time combiner on serial numbers *)

Lemma fixInvalidDate_digits (host : Host) (s : jsstring) :
  s <> [] -> allDigits s = true -> fixInvalidDate host (JSString s) = Normal s.
Proof.
  intros Hne Hd. unfold fixInvalidDate. cbn [toString bind].
  destruct s as [|c t]; [contradiction|].
  assert (Hc : isDigit c = true).
  { cbn [allDigits forallb] in Hd. now apply andb_true_iff in Hd. }
  replace (startsWith (c :: t) (str "+057342")) with false; [reflexivity|].
  change (str "+057342") with ("+"%char :: str "057342").
  cbn [startsWith]. destruct (digit_not_sign c Hc) as [H _].
  unfold ascii_eqb in *. rewrite Z.eqb_sym in H. now rewrite H.
Qed.

Lemma newDate_inside (host : Host) (ms : Z) :
  Z.abs ms <= maxTime ->
  newDate host ms = DateAt (ms + tzMinutes host * msPerMinute).
Proof.
  intros H. unfold newDate. now replace (Z.abs ms <=? maxTime) with true by lia.
Qed.

(** The instant of a serial number that is written in digits. *)
Lemma newDate_serial (host : Host) (n : Z) :
  0 <= n < 100000 ->
  newDate host ((n - 25569) * 86400 * 1000)
  = DateAt ((n - 25569) * 86400 * 1000 + tzMinutes host * msPerMinute).
Proof.
  intros H. apply newDate_inside. unfold maxTime. lia.
Qed.

Lemma parseDateTime_serial (host : Host) (s : jsstring) (time : JSValue)
  (t : TimeOfDay) :
  s <> [] -> allDigits s = true -> digitsVal 0 s < 100000 ->
  parseTime host time = Some t ->
  parseDateTime host (JSString s) time
  = Some (setHours2 (serialDate host (digitsVal 0 s)) (hours t) (minutes t)).
Proof.
  intros Hne Hd Hn Ht. unfold parseDateTime.
  rewrite (parseTime_truthy _ _ _ Ht).
  replace (truthy (JSString s)) with true by now destruct s.
  cbn [negb orb]. rewrite (fixInvalidDate_digits host s Hne Hd). cbn [bind].
  unfold isNaN. rewrite (isNumericString_digits s Hne Hd), (parseInt_digits s Hne Hd).
  cbn [negb andb num_lt num_gt num_sub num_mul newDateNum].
  apply Z.ltb_lt in Hn. rewrite Hn, Ht. reflexivity.
Qed.

(** *** Arithmetic of days *)

Lemma day_split (d r : Z) :
  0 <= r < 86400000 ->
  (d * 86400000 + r) / 86400000 = d /\ (d * 86400000 + r) mod 86400000 = r.
Proof.
  intros Hr. split.
  - rewrite Z.div_add_l by lia. rewrite Z.div_small by lia. lia.
  - rewrite Z.add_comm, Z.mod_add by lia. apply Z.mod_small; lia.
Qed.

Lemma minute_aligned (a tz k : Z) :
  (a * 86400 * 1000 + tz * 60000 + k * 86400000) mod 60000 = 0.
Proof.
  replace (a * 86400 * 1000 + tz * 60000 + k * 86400000)
    with ((a * 1440 + tz + k * 1440) * 60000) by ring.
  apply Z.mod_mul; lia.
Qed.

Lemma day_shift (x k : Z) : (x + k * 86400000) / 86400000 = x / 86400000 + k.
Proof. apply Z.div_add; lia. Qed.

Lemma east_day (a tz : Z) :
  0 <= tz < 1440 -> (a * 86400000 + tz * 60000) / 86400000 = a.
Proof.
  intros H. rewrite Z.div_add_l by lia. rewrite Z.div_small by lia. lia.
Qed.

Lemma west_day (a tz : Z) :
  -1440 <= tz < 0 -> (a * 86400000 + tz * 60000) / 86400000 = a - 1.
Proof.
  intros H.
  replace (a * 86400000 + tz * 60000)
    with ((a - 1) * 86400000 + (tz + 1440) * 60000) by ring.
  apply east_day. lia.
Qed.

Lemma setHours2_day (l h m : Z) :
  l mod 60000 = 0 -> 0 <= h <= 23 -> 0 <= m <= 59 ->
  let l' := l / 86400000 * 86400000 + h * 3600000 + m * 60000 + l mod 60000 in
  l' / 86400000 = l / 86400000 /\ l' mod 86400000 = h * 3600000 + m * 60000.
Proof.
  intros H0 Hh Hm l'. subst l'. rewrite H0.
  replace (l / 86400000 * 86400000 + h * 3600000 + m * 60000 + 0)
    with (l / 86400000 * 86400000 + (h * 3600000 + m * 60000)) by ring.
  apply day_split. lia.
Qed.

(** *** The conversion *)

(** The serial numbers at work.  Five hours west of UTC, serial 45000 at
    "09:00" is 13 March 2023; in UTC the serial number 25569 of 1 January
    1970 is 31 December 1969, and the serial numbers 59 and 60 are the
    same day. *)
Lemma serial_45000_west_of_utc :
  option_map civilOfDate (parseDateTime westHost (text "45000") (text "09:00"))
    = Some (Some (2023, 3, 13))
  /\ option_map civilOfDate
       (parseDateTime utcHost (text "25569") (text "09:00"))
     = Some (Some (1969, 12, 31))
  /\ parseDateTime utcHost (text "59") (text "09:00")
     = parseDateTime utcHost (text "60") (text "09:00").
Proof.
  repeat split; vm_compute; reflexivity.
Qed.

(** C7.  What the serial-number path computes, against the conversion of
    the claim.  For a date string of decimal digits with value
    [n < 100000] and a time value read as the numbers [h]:[m], the
    combiner returns the date whose local day is the local day of the
    instant "Unix epoch plus [n - 25569] days", less one day when
    [n > 59], at [h]:[m] of that day: [new Date(ms)] is an instant,
    midnight in UTC, and [setDate] and [setHours] work on local time.  So
    the day depends on the host: on a host at or east of UTC it is day
    [n - 25569] after 1 January 1970 less the day subtracted, on a host
    west of UTC the day before that.  Day [n - 25569] after 1 January
    1970 is the date a spreadsheet shows for a serial number above 60
    (the offset 25569 has the spreadsheet's 29 February 1900 in it), so
    for these the date of the combiner is before the date of the
    spreadsheet on every host. *)
Theorem serial_date_conversion
  (host : Host) (s : jsstring) (time : JSValue) (h m : Z) :
  s <> [] -> allDigits s = true ->
  digitsVal 0 s < 100000 ->
  parseTime host time = Some {| hours := Num h; minutes := Num m |} ->
  let n := digitsVal 0 s in
  let leap := if 59 <? n then 1 else 0 in
  exists l,
    parseDateTime host (JSString s) time = Some (DateAt l)
    /\ l / msPerDay
       = ((n - 25569) * msPerDay + tzMinutes host * msPerMinute) / msPerDay
         - leap
    /\ l mod msPerDay = h * msPerHour + m * msPerMinute
    /\ (0 <= tzMinutes host < 1440 -> l / msPerDay = n - 25569 - leap)
    /\ (-1440 <= tzMinutes host < 0 ->
        l / msPerDay = n - 25569 - leap - 1)
    /\ (59 < n -> -1440 <= tzMinutes host < 1440 ->
        l / msPerDay < n - 25569).
Proof.
  intros Hne Hd Hn Ht n leap.
  destruct (parseTime_fields host time _ Ht) as [Hh Hm].
  cbn [hours minutes nanOrBetween] in Hh, Hm. unfold between in Hh, Hm.
  assert (Hh' : 0 <= h <= 23) by lia. assert (Hm' : 0 <= m <= 59) by lia.
  clear Hh Hm.
  rewrite (parseDateTime_serial host s time _ Hne Hd Hn Ht).
  fold n. unfold serialDate.
  assert (H0 : 0 <= n) by (apply digitsVal_nonneg; lia).
  rewrite (newDate_serial host n (conj H0 Hn)). unfold addDays.
  cbn [hours minutes]. subst leap.
  set (tz := tzMinutes host).
  assert (Hbase : (n - 25569) * 86400 * 1000 + tz * 60000
                  = (n - 25569) * 86400000 + tz * 60000) by ring.
  destruct (59 <? n) eqn:H59; cbn [setHours2]; eexists;
    (split; [reflexivity|]); unfold msPerDay, msPerHour, msPerMinute.
  - destruct (setHours2_day
                ((n - 25569) * 86400 * 1000 + tz * 60000 + -1 * 86400000) h m
                (minute_aligned _ _ _) Hh' Hm') as [Hday Htime].
    rewrite Hday, Htime, day_shift, Hbase.
    split; [lia|split; [reflexivity|]].
    assert (He : 0 <= tz < 1440 ->
                 ((n - 25569) * 86400000 + tz * 60000) / 86400000
                 = n - 25569) by (intros Htz; apply (east_day _ _ Htz)).
    assert (Hw : -1440 <= tz < 0 ->
                 ((n - 25569) * 86400000 + tz * 60000) / 86400000
                 = n - 25569 - 1) by (intros Htz; apply (west_day _ _ Htz)).
    split; [intros Htz; rewrite (He Htz); lia|].
    split; [intros Htz; rewrite (Hw Htz); lia|].
    intros _ Htz. destruct (Z_lt_ge_dec tz 0) as [Hneg|Hpos].
    + rewrite Hw by lia. lia.
    + rewrite He by lia. lia.
  - pose proof (minute_aligned (n - 25569) tz 0) as Hal.
    rewrite Z.add_0_r in Hal.
    destruct (setHours2_day
                ((n - 25569) * 86400 * 1000 + tz * 60000) h m Hal Hh' Hm')
      as [Hday Htime].
    rewrite Hday, Htime, Hbase.
    split; [lia|split; [reflexivity|]].
    split; [intros Htz; rewrite (east_day _ _ Htz); lia|].
    split; [intros Htz; rewrite (west_day _ _ Htz); lia|].
    intros Hgt. apply Z.ltb_ge in H59. lia.
Qed.

(** On a host in UTC, serial 45000 at "09:00" is 14 March 2023, 9:00; day
    45000 - 25569 after 1 January 1970, the date a spreadsheet shows for
    it, is 15 March 2023. *)
Lemma serial_date_conversion_witness :
  exists l,
    parseDateTime utcHost (text "45000") (text "09:00") = Some (DateAt l)
    /\ civilFromDays (l / msPerDay) = (2023, 3, 14)
    /\ l mod msPerDay = 9 * msPerHour
    /\ l / msPerDay < 45000 - 25569
    /\ civilFromDays (45000 - 25569) = (2023, 3, 15).
Proof.
  destruct (serial_date_conversion utcHost (str "45000") (text "09:00") 9 0)
    as (l & Hl & Hday & Htime & Hutc & _ & Hbefore).
  - discriminate.
  - reflexivity.
  - reflexivity.
  - vm_compute. reflexivity.
  - exists l. split; [exact Hl|]. split.
    + rewrite Hday. vm_compute. reflexivity.
    + split; [rewrite Htime; reflexivity|]. split.
      * apply Hbefore; vm_compute; [reflexivity|split; [discriminate|reflexivity]].
      * vm_compute. reflexivity.
Defined.

(* ================================================================= *)
(** ** Rows: what is emitted and what is skipped *)

Lemma stringsOf_strings (host : Host) (l : list jsstring) :
  stringsOf host (filter truthy (map JSString l))
  = Normal (filter (fun x => negb (isEmptyStr x)) l).
Proof.
  induction l as [|x l IH]; [reflexivity|].
  cbn [map filter truthy].
  destruct (negb (isEmptyStr x)); [|exact IH].
  cbn [stringsOf toString bind]. now rewrite IH.
Qed.

Lemma describe_strings (host : Host) (a b c : jsstring) :
  describe host [JSString a; JSString b; JSString c]
  = Normal (join (str " - ")
              (filter (fun x => negb (isEmptyStr x)) [a; b; c])).
Proof.
  unfold describe.
  change [JSString a; JSString b; JSString c] with (map JSString [a; b; c]).
  now rewrite stringsOf_strings.
Qed.

(** What a record emitted for a CSV row is made of. *)
Lemma processCSVRow_inv (host : Host) (row : csvRow) (e : EventRecord) :
  In e (processCSVRow host row) ->
  let sectionDate := getField row "Section Date" in
  let sessionName := getField row "Session Name" in
  let sectionName :=
    if negb (isEmptyStr (getField row "Section Name"))
    then getField row "Section Name" else getField row "Section" in
  exists s en,
    isEmptyStr sectionDate = false
    /\ invalidDateFormat sectionDate = false
    /\ parseDateTime host (JSString sectionDate)
         (JSString (getField row "Start Time")) = Some s
    /\ parseDateTime host (JSString sectionDate)
         (JSString (getField row "End Time")) = Some en
    /\ adjustEnd s en = Some (end_ e)
    /\ start e = s
    /\ Normal (learnerGroup e) =
       deriveLearnerGroup host (JSString (getField row "Learner Group"))
         (JSString sessionName) (JSString sectionName)
    /\ Normal (desc e) =
       describe host [JSString (getField row "Course Name");
                      JSString (getField row "Session Type");
                      JSString (getField row "Section Name")]
    /\ title e = jsOr (JSString sessionName) (text "Untitled Session")
    /\ location e =
       jsOr (JSString (getField row "Location")) (text "Unknown Location").
Proof.
  intros H sectionDate sessionName sectionName.
  unfold processCSVRow in H.
  fold sectionDate sessionName sectionName in H.
  destruct (deriveLearnerGroup host _ _ _) as [lg|] eqn:Hlg;
    cbn [catch bind] in H; [|contradiction].
  destruct (isEmptyStr sectionDate) eqn:Hempty; [contradiction|].
  destruct (invalidDateFormat sectionDate) eqn:Hguard; [contradiction|].
  destruct (parseDateTime host _ (JSString (getField row "Start Time")))
    as [s|] eqn:Hs; [|contradiction].
  destruct (parseDateTime host _ (JSString (getField row "End Time")))
    as [en|] eqn:Hen; [|contradiction].
  destruct (adjustEnd s en) as [en'|] eqn:Hadj; [|contradiction].
  destruct (describe host _) as [d|] eqn:Hd; cbn [catch bind] in H;
    [|contradiction].
  destruct H as [<- | []].
  exists s, en. cbn [start end_ title location learnerGroup desc].
  repeat split; auto.
Qed.

(** A CSV row that passes the guards and whose times parse is emitted. *)
Lemma processCSVRow_emit (host : Host) (row : csvRow) (s en en' : JSDate) :
  let sectionDate := getField row "Section Date" in
  let sessionName := getField row "Session Name" in
  let sectionName :=
    if negb (isEmptyStr (getField row "Section Name"))
    then getField row "Section Name" else getField row "Section" in
  isEmptyStr sectionDate = false ->
  invalidDateFormat sectionDate = false ->
  parseDateTime host (JSString sectionDate)
    (JSString (getField row "Start Time")) = Some s ->
  parseDateTime host (JSString sectionDate)
    (JSString (getField row "End Time")) = Some en ->
  adjustEnd s en = Some en' ->
  processCSVRow host row =
  [ {| title := jsOr (JSString sessionName) (text "Untitled Session");
       start := s;
       end_ := en';
       desc := join (str " - ")
                 (filter (fun x => negb (isEmptyStr x))
                    [getField row "Course Name"; getField row "Session Type";
                     getField row "Section Name"]);
       location :=
         jsOr (JSString (getField row "Location")) (text "Unknown Location");
       learnerGroup :=
         classify (getField row "Learner Group") sessionName sectionName |} ].
Proof.
  intros sectionDate sessionName sectionName Hempty Hguard Hs Hen Hadj.
  unfold processCSVRow.
  fold sectionDate sessionName sectionName.
  rewrite deriveLearnerGroup_strings. cbn [bind].
  rewrite Hempty, Hguard, Hs, Hen, Hadj, describe_strings.
  reflexivity.
Qed.

Lemma getField_row3 (d s e : string) :
  getField (row3 d s e) "Section Date" = str d
  /\ getField (row3 d s e) "Start Time" = str s
  /\ getField (row3 d s e) "End Time" = str e
  /\ getField (row3 d s e) "Session Name" = []
  /\ getField (row3 d s e) "Section Name" = []
  /\ getField (row3 d s e) "Section" = []
  /\ getField (row3 d s e) "Learner Group" = []
  /\ getField (row3 d s e) "Course Name" = []
  /\ getField (row3 d s e) "Session Type" = []
  /\ getField (row3 d s e) "Location" = [].
Proof.
  repeat split; reflexivity.
Qed.

(** What a record emitted for a spreadsheet row is made of. *)
Lemma processExcelRow_inv (host : Host) (headerRow : list jsstring)
  (row : list JSValue) (e : EventRecord) :
  In e (processExcelRow host headerRow row) ->
  exists sectionDate s en,
    sectionDateOf host (getExcelField headerRow row "Section Date")
      = Normal sectionDate
    /\ invalidDateFormat sectionDate = false
    /\ parseDateTime host (JSString sectionDate)
         (getExcelField headerRow row "Start Time") = Some s
    /\ parseDateTime host (JSString sectionDate)
         (getExcelField headerRow row "End Time") = Some en
    /\ adjustEnd s en = Some (end_ e)
    /\ start e = s.
Proof.
  intros H. unfold processExcelRow in H.
  destruct (sectionDateOf host _) as [sectionDate|] eqn:Hdate;
    cbn [catch bind] in H; [|contradiction].
  destruct (deriveLearnerGroup host _ _ _) as [lg|] eqn:Hlg;
    cbn [catch bind] in H; [|contradiction].
  destruct (isEmptyStr sectionDate) eqn:Hempty; [contradiction|].
  destruct (invalidDateFormat sectionDate) eqn:Hguard; [contradiction|].
  destruct (parseDateTime host _ (getExcelField headerRow row "Start Time"))
    as [s|] eqn:Hs; [|contradiction].
  destruct (parseDateTime host _ (getExcelField headerRow row "End Time"))
    as [en|] eqn:Hen; [|contradiction].
  destruct (adjustEnd s en) as [en'|] eqn:Hadj; [|contradiction].
  destruct (describe host _) as [d|] eqn:Hd; cbn [catch bind] in H;
    [|contradiction].
  destruct H as [<- | []].
  exists sectionDate, s, en. cbn [start end_]. auto 10.
Qed.

(** *** The guard on the text of the date *)

Lemma takeDigits_digits (n : nat) (acc : Z) (s : jsstring) (v : Z) (s' : jsstring) :
  takeDigits n acc s = Some (v, s') ->
  exists ds, s = ds ++ s' /\ allDigits ds = true.
Proof.
  revert acc s. induction n as [|n IH]; intros acc s; cbn [takeDigits].
  - intros [= _ <-]. now exists [].
  - destruct s as [|c t]; [discriminate|].
    destruct (isDigit c) eqn:Hc; [|discriminate].
    intros H. destruct (IH _ _ H) as (ds & -> & Hds).
    exists (c :: ds). split; [reflexivity|].
    cbn [allDigits forallb]. now rewrite Hc.
Qed.

(** Only a text of digits is valid under the format [YYYYMMDD]. *)
Lemma valid_YYYYMMDD_digits (s : jsstring) :
  isValid (momentStrict1 s fmt_YYYYMMDD) = true -> allDigits s = true.
Proof.
  unfold momentStrict1, fmt_YYYYMMDD. cbn [parseTokens].
  destruct (takeDigits 4 0 s) as [[y s1]|] eqn:Hy; [|discriminate].
  destruct (takeDigits 2 0 s1) as [[m s2]|] eqn:Hm; [|discriminate].
  destruct (takeDigits 2 0 s2) as [[d s3]|] eqn:Hd; [|discriminate].
  destruct s3; [|discriminate]. intros _.
  destruct (takeDigits_digits _ _ _ _ _ Hy) as (d1 & -> & H1).
  destruct (takeDigits_digits _ _ _ _ _ Hm) as (d2 & -> & H2).
  destruct (takeDigits_digits _ _ _ _ _ Hd) as (d3 & -> & H3).
  repeat apply allDigits_app; auto.
Qed.

Lemma letter_excludes_allDigits (s : jsstring) :
  existsb isLetter s = true -> allDigits s = false.
Proof.
  intros H. apply existsb_exists in H as (c & Hin & Hc).
  destruct (allDigits s) eqn:Hd; [|reflexivity].
  unfold allDigits in Hd. rewrite forallb_forall in Hd.
  specialize (Hd c Hin). rewrite (letter_not_digit c Hc) in Hd. discriminate.
Qed.

(** The guard refuses every text that holds a letter. *)
Lemma invalidDateFormat_letter (s : jsstring) :
  existsb isLetter s = true -> invalidDateFormat s = true.
Proof.
  intros H. unfold invalidDateFormat.
  rewrite test_letterPattern, H. cbn [andb].
  destruct (isValid (momentStrict1 s fmt_YYYYMMDD)) eqn:Hv; [|reflexivity].
  apply valid_YYYYMMDD_digits in Hv.
  rewrite (letter_excludes_allDigits s H) in Hv. discriminate.
Qed.

(** *** The end of an event *)

Lemma adjustEnd_rolled (s en en' : JSDate) :
  date_ge s en = true -> adjustEnd s en = Some en' ->
  en' = addDays en 1 /\ date_lt s en' = true.
Proof.
  unfold adjustEnd. intros ->.
  destruct (date_lt s (addDays en 1)) eqn:Hlt; [|discriminate].
  intros [= <-]. now split.
Qed.

(** C3 as stated fails at its second example: a row from 14:00 to 14:00 of
    one day is not skipped.  Start and end parse to the same date, the end
    is moved one day on, and the row is emitted. *)
Lemma csv_equal_times_row_not_skipped :
  parseDateTime utcHost (text "20240115") (text "14:00")
    = Some (DateAt (daysFromCivil 2024 1 15 * msPerDay + 14 * msPerHour))
  /\ processCSVRow utcHost (row3 "20240115" "14:00" "14:00") <> [].
Proof.
  split; vm_compute; [reflexivity|discriminate].
Qed.

(** C3, amended.  In both callbacks, when the parsed start is at or after
    the parsed end, a record is emitted only with the end moved exactly
    one day on and the start strictly before that end; for a CSV row that
    passes the guard on the date this condition is also sufficient.  A row
    of one day from 14:00 to 13:00 is emitted with 23 hours between start
    and end, from a CSV file and from a sheet, and a row from 14:00 to
    14:00 is emitted with 24 hours. *)
Theorem start_not_before_end_rolls_one_day (host : Host) :
  (forall row s en e,
      parseDateTime host (JSString (getField row "Section Date"))
        (JSString (getField row "Start Time")) = Some s ->
      parseDateTime host (JSString (getField row "Section Date"))
        (JSString (getField row "End Time")) = Some en ->
      date_ge s en = true ->
      In e (processCSVRow host row) ->
      start e = s /\ end_ e = addDays en 1 /\ date_lt s (end_ e) = true)
  /\ (forall row s en,
      parseDateTime host (JSString (getField row "Section Date"))
        (JSString (getField row "Start Time")) = Some s ->
      parseDateTime host (JSString (getField row "Section Date"))
        (JSString (getField row "End Time")) = Some en ->
      date_ge s en = true ->
      invalidDateFormat (getField row "Section Date") = false ->
      date_lt s (addDays en 1) = true ->
      exists e, processCSVRow host row = [e])
  /\ (forall headerRow row sectionDate s en e,
      sectionDateOf host (getExcelField headerRow row "Section Date")
        = Normal sectionDate ->
      parseDateTime host (JSString sectionDate)
        (getExcelField headerRow row "Start Time") = Some s ->
      parseDateTime host (JSString sectionDate)
        (getExcelField headerRow row "End Time") = Some en ->
      date_ge s en = true ->
      In e (processExcelRow host headerRow row) ->
      start e = s /\ end_ e = addDays en 1 /\ date_lt s (end_ e) = true)
  /\ (exists e l,
      processCSVRow host (row3 "20240115" "14:00" "13:00") = [e]
      /\ start e = DateAt l /\ end_ e = DateAt (l + 23 * msPerHour))
  /\ (exists e l,
      processCSVRow host (row3 "20240115" "14:00" "14:00") = [e]
      /\ start e = DateAt l /\ end_ e = DateAt (l + 24 * msPerHour))
  /\ (exists e l,
      processExcelRow host numberedHeader datedRow = [e]
      /\ start e = DateAt l /\ end_ e = DateAt (l + 23 * msPerHour)).
Proof.
  split; [|split; [|split; [|split; [|split]]]].
  - intros row s en e Hs Hen Hge He.
    destruct (processCSVRow_inv host row e He)
      as (s' & en' & _ & _ & Hs' & Hen' & Hadj & Hstart & _).
    rewrite Hs in Hs'. rewrite Hen in Hen'.
    injection Hs' as <-. injection Hen' as <-.
    destruct (adjustEnd_rolled s en (end_ e) Hge Hadj) as [Hend Hlt].
    auto.
  - intros row s en Hs Hen Hge Hguard Hlt.
    assert (Hempty : isEmptyStr (getField row "Section Date") = false).
    { destruct (getField row "Section Date"); [discriminate Hs|reflexivity]. }
    eexists. apply (processCSVRow_emit host row s en (addDays en 1));
      try assumption.
    unfold adjustEnd. now rewrite Hge, Hlt.
  - intros headerRow row sectionDate s en e Hdate Hs Hen Hge He.
    destruct (processExcelRow_inv host headerRow row e He)
      as (sd' & s' & en' & Hdate' & _ & Hs' & Hen' & Hadj & Hstart).
    rewrite Hdate in Hdate'. injection Hdate' as <-.
    rewrite Hs in Hs'. rewrite Hen in Hen'.
    injection Hs' as <-. injection Hen' as <-.
    destruct (adjustEnd_rolled s en (end_ e) Hge Hadj) as [Hend Hlt].
    auto.
  - eexists. eexists. split; [vm_compute; reflexivity|].
    split; vm_compute; reflexivity.
  - eexists. eexists. split; [vm_compute; reflexivity|].
    split; vm_compute; reflexivity.
  - eexists. eexists. split; [vm_compute; reflexivity|].
    split; vm_compute; reflexivity.
Qed.

(** On a host in UTC, the row from 14:00 to 13:00: both times parse, the
    start is after the end, and the record emitted ends on the next day. *)
Lemma rolls_one_day_witness :
  exists e,
    processCSVRow utcHost (row3 "20240115" "14:00" "13:00") = [e]
    /\ end_ e
       = addDays (DateAt (daysFromCivil 2024 1 15 * msPerDay + 13 * msPerHour)) 1.
Proof.
  destruct (proj1 (proj2 (start_not_before_end_rolls_one_day utcHost))
              (row3 "20240115" "14:00" "13:00")
              (DateAt (daysFromCivil 2024 1 15 * msPerDay + 14 * msPerHour))
              (DateAt (daysFromCivil 2024 1 15 * msPerDay + 13 * msPerHour)))
    as [e He]; try (vm_compute; reflexivity).
  exists e. split; [exact He|].
  apply (proj1 (start_not_before_end_rolls_one_day utcHost)
           (row3 "20240115" "14:00" "13:00")
           (DateAt (daysFromCivil 2024 1 15 * msPerDay + 14 * msPerHour))
           (DateAt (daysFromCivil 2024 1 15 * msPerDay + 13 * msPerHour)) e);
    try (vm_compute; reflexivity).
  rewrite He. now left.
Defined.

Lemma adjustEnd_ordered (s en en' : JSDate) :
  adjustEnd s en = Some en' ->
  isValid s = true -> isValid en' = true -> date_gt en' s = true.
Proof.
  unfold adjustEnd. destruct (date_ge s en) eqn:Hge.
  - destruct (date_lt s (addDays en 1)) eqn:Hlt; [|discriminate].
    now intros [= <-].
  - intros [= <-]. destruct s, en; try discriminate.
    unfold date_ge, date_le in Hge. cbn [date_gt date_lt]. lia.
Qed.

(** C5, evaluated at the failing input.  A CSV row dated by the serial
    number 45000 that starts at "noon" is emitted with an invalid start:
    [setHours(NaN, 0)] invalidates the date, an invalid date is still a
    [Date] object, so neither the callback nor the final filter refuses
    it, and [end > start] is false of the record.  An invalid date is the
    only way past the order: in every record either callback emits, if
    start and end are both valid then the end is after the start. *)
Theorem csv_noon_row_emitted_with_invalid_start (host : Host) :
  (exists e,
      processCSVRows host [row3 "45000" "noon" "13:00"] = [e]
      /\ start e = InvalidDate
      /\ date_gt (end_ e) (start e) = false)
  /\ (forall rows e,
        In e (processCSVRows host rows) ->
        isValid (start e) = true -> isValid (end_ e) = true ->
        date_gt (end_ e) (start e) = true)
  /\ (forall headerRow rows e,
        In e (processExcelRows host headerRow rows) ->
        isValid (start e) = true -> isValid (end_ e) = true ->
        date_gt (end_ e) (start e) = true).
Proof.
  split; [|split].
  - assert (Hstart : parseDateTime host (text "45000") (text "noon")
                     = Some InvalidDate).
    { unfold text at 1.
      rewrite (parseDateTime_serial host (str "45000") (text "noon")
                 {| hours := NaN; minutes := Num 0 |});
        [|discriminate|reflexivity|reflexivity|vm_compute; reflexivity].
      unfold serialDate. rewrite newDate_serial by (vm_compute; split; discriminate || reflexivity).
      change (59 <? digitsVal 0 (str "45000")) with true. reflexivity. }
    assert (Hend : exists l, parseDateTime host (text "45000") (text "13:00")
                             = Some (DateAt l)).
    { unfold text at 1.
      rewrite (parseDateTime_serial host (str "45000") (text "13:00")
                 {| hours := Num 13; minutes := Num 0 |});
        [|discriminate|reflexivity|reflexivity|vm_compute; reflexivity].
      unfold serialDate. rewrite newDate_serial by (vm_compute; split; discriminate || reflexivity).
      change (59 <? digitsVal 0 (str "45000")) with true.
      cbn [addDays setHours2 hours minutes]. eexists. reflexivity. }
    destruct Hend as [l Hend].
    unfold processCSVRows. cbn [flat_map].
    rewrite (processCSVRow_emit host (row3 "45000" "noon" "13:00")
               InvalidDate (DateAt l) (DateAt l));
      try reflexivity; try assumption.
    eexists. cbn [app filter bothDates]. split; [reflexivity|].
    split; reflexivity.
  - intros rows e He Hs Hen. unfold processCSVRows in He.
    apply filter_In in He as [He _].
    apply in_flat_map in He as (row & _ & He).
    destruct (processCSVRow_inv host row e He)
      as (s & en & _ & _ & _ & _ & Hadj & <- & _).
    exact (adjustEnd_ordered _ _ _ Hadj Hs Hen).
  - intros headerRow rows e He Hs Hen. unfold processExcelRows in He.
    apply filter_In in He as [He _].
    apply in_flat_map in He as (row & _ & He).
    destruct (processExcelRow_inv host headerRow row e He)
      as (sd & s & en & _ & _ & _ & _ & Hadj & <-).
    exact (adjustEnd_ordered _ _ _ Hadj Hs Hen).
Qed.

(** The record of the row from 14:00 to 13:00 has valid dates, so its end
    is after its start. *)
Lemma emitted_order_witness :
  exists e,
    processCSVRows utcHost [row3 "20240115" "14:00" "13:00"] = [e]
    /\ date_gt (end_ e) (start e) = true.
Proof.
  destruct (processCSVRows utcHost [row3 "20240115" "14:00" "13:00"])
    as [|e [|e' l]] eqn:Hrows; try (vm_compute in Hrows; discriminate Hrows).
  exists e. split; [reflexivity|].
  apply (proj1 (proj2 (csv_noon_row_emitted_with_invalid_start utcHost))
           [row3 "20240115" "14:00" "13:00"] e).
  - rewrite Hrows. now left.
  - vm_compute in Hrows. injection Hrows as <-. reflexivity.
  - vm_compute in Hrows. injection Hrows as <-. reflexivity.
Defined.

(** *** The classifier in a row, and the defaults *)

(** C6, evaluated at the failing input, with what holds beside it.  The
    explicit field is converted with [toString()] before it is used; the
    two name fields are not, and [match] is called on them as they come.
    A spreadsheet cell that holds a number (a section numbered 12) has no
    such method: the classifier throws, and the row is lost to the
    [catch] of the callback although its date and times are good.  On
    three strings the classifier never throws and computes [classify],
    whose value is "Ungrouped" or an upper-case code; the four examples of
    the claim are instances. *)
Theorem deriveLearnerGroup_throws_on_numeric_name (host : Host) :
  deriveLearnerGroup host (text "") (text "") (JSNumber 12) = Throw
  /\ deriveLearnerGroup host (text "") (JSNumber 12) (text "") = Throw
  /\ processExcelRow host numberedHeader numberedRow = []
  /\ processExcelRow host numberedHeader numberedRowAsText <> []
  /\ (forall explicit session section,
        deriveLearnerGroup host (JSString explicit) (JSString session)
          (JSString section)
        = Normal (classify explicit session section)
        /\ (classify explicit session section = str "Ungrouped"
            \/ isGroupCode (classify explicit session section) = true))
  /\ deriveLearnerGroup host (text "a1") (text "") (text "") = Normal (str "A1")
  /\ deriveLearnerGroup host (text "") (text "Lecture B2 Review") (text "")
     = Normal (str "B2")
  /\ deriveLearnerGroup host (text "") (text "") (text "")
     = Normal (str "Ungrouped")
  /\ deriveLearnerGroup host (text "Z9") (text "") (text "")
     = Normal (str "Ungrouped").
Proof.
  split; [vm_compute; reflexivity|].
  split; [vm_compute; reflexivity|].
  split; [vm_compute; reflexivity|].
  split; [vm_compute; discriminate|].
  split.
  - intros explicit session section.
    split; [apply deriveLearnerGroup_strings|apply classify_result].
  - repeat split; vm_compute; reflexivity.
Qed.



(* ================================================================= *)
(** ** The event handlers *)

Lemma removedFrom_filter (x : EventObject) (l : list EventObject) :
  RemovedFrom x l (filter (fun evt => negb (sameObject evt x)) l).
Proof.
  induction l as [|e l IH]; cbn [filter].
  - constructor.
  - unfold sameObject at 1.
    destruct (Nat.eqb_spec (ref e) (ref x)) as [Heq|Hne]; cbn [negb].
    + now apply removed_drop.
    + now apply removed_keep.
Qed.

(** C10.  [handleDeleteEvent] removes the entries that are the object it
    is given and nothing else: the list after it is the list before
    without those entries, the others in their order; an entry stays
    exactly when it is another object, whatever its fields; and when the
    object is not in the list the list is unchanged. *)
Theorem handleDeleteEvent_removes_the_object
  (st : UIState) (x : EventObject) :
  let after := events (fst (handleDeleteEvent st x)) in
  RemovedFrom x (events st) after
  /\ (forall e, In e after <-> In e (events st) /\ ref e <> ref x)
  /\ ((forall e, In e (events st) -> ref e <> ref x) -> after = events st).
Proof.
  cbn [handleDeleteEvent fst events].
  split; [apply removedFrom_filter|split].
  - intros e. rewrite filter_In. unfold sameObject.
    destruct (Nat.eqb_spec (ref e) (ref x)); cbn [negb]; intuition congruence.
  - intros Hout. induction (events st) as [|e l IH]; [reflexivity|].
    cbn [filter]. unfold sameObject at 1.
    destruct (Nat.eqb_spec (ref e) (ref x)) as [Heq|Hne]; cbn [negb].
    + exfalso. apply (Hout e); [now left|exact Heq].
    + f_equal. apply IH. intros e' He'. apply Hout. now right.
Qed.

(** Deleting [eventA] keeps [eventA'], which has the same fields, and
    deleting an object that is not in the list changes nothing. *)
Lemma handleDeleteEvent_witness :
  body eventA' = body eventA
  /\ In eventA' (events (fst (handleDeleteEvent editingA eventA)))
  /\ events (fst (handleDeleteEvent editingA eventInverted)) = events editingA.
Proof.
  split; [reflexivity|split].
  - apply (proj1 (proj2 (handleDeleteEvent_removes_the_object editingA eventA))).
    split; [right; left; reflexivity | discriminate].
  - apply (proj2 (proj2 (handleDeleteEvent_removes_the_object editingA eventInverted))).
    intros e [<-|[<-|[]]]; discriminate.
Defined.

(** C8.  When the test [end <= start] of the source holds for the
    candidate (both dates valid, the end not after the start), no list
    changes: [handleAddEvent] raises the alert and returns the state it
    was given, and the form's [onSubmit], the only caller of
    [handleAddEvent] and [handleUpdateEvent], returns the state it was
    given before it calls either, with the alert unless the question
    about several days was asked and refused.  When a date of the
    candidate is invalid the end is not after the start either, yet the
    test [end <= start] is false as well: [handleAddEvent] appends the
    candidate, and the form, once the question about several days is
    confirmed, passes it on, to be added or to take the place of the
    selected event. *)
Theorem end_not_after_start_is_refused
  (st : UIState) (candidate : EventObject)
  (formTitle : jsstring) (confirmed : bool) (fresh : nat) :
  (date_le (endOf candidate) (startOf candidate) = true ->
   handleAddEvent st candidate = (st, [endAfterStartAlert])
   /\ onSubmit st formTitle (startOf candidate) (endOf candidate)
        confirmed fresh
      = (st,
         if num_ne (dayOfMonth (startOf candidate))
                   (dayOfMonth (endOf candidate))
            && negb confirmed
         then [] else [endAfterStartAlert]))
  /\ (isValid (startOf candidate) && isValid (endOf candidate) = false ->
      let built :=
        {| ref := fresh;
           body := Entered formTitle (startOf candidate) (endOf candidate) |} in
      date_gt (endOf candidate) (startOf candidate) = false
      /\ handleAddEvent st candidate
         = ({| events := events st ++ [candidate];
               selectedSlot := None;
               selectedEvent := selectedEvent st |}, [])
      /\ onSubmit st formTitle (startOf candidate) (endOf candidate)
           false fresh = (st, [])
      /\ onSubmit st formTitle (startOf candidate) (endOf candidate)
           true fresh
         = match selectedSlot st with
           | Some _ =>
               ({| events := events st ++ [built];
                   selectedSlot := None;
                   selectedEvent := selectedEvent st |}, [])
           | None =>
               ({| events :=
                     map (fun evt => if isSelected st evt then built else evt)
                         (events st);
                   selectedSlot := None;
                   selectedEvent := None |}, [])
           end).
Proof.
  split.
  - intros Hle. split.
    + unfold handleAddEvent. now rewrite Hle.
    + unfold onSubmit.
      destruct (num_ne _ _ && negb confirmed); [reflexivity|].
      cbn [endOf startOf body]. now rewrite Hle.
  - intros Hinv built.
    assert (Hle : date_le (endOf candidate) (startOf candidate) = false).
    { destruct (startOf candidate), (endOf candidate);
        try reflexivity; discriminate. }
    assert (Hgt : date_gt (endOf candidate) (startOf candidate) = false).
    { destruct (startOf candidate), (endOf candidate);
        try reflexivity; discriminate. }
    assert (Hday : num_ne (dayOfMonth (startOf candidate))
                          (dayOfMonth (endOf candidate)) = true).
    { destruct (startOf candidate) as [|a], (endOf candidate) as [|b];
        try discriminate; unfold dayOfMonth; cbn [civilOfDate];
        reflexivity. }
    split; [exact Hgt|]. split.
    + unfold handleAddEvent. now rewrite Hle.
    + unfold onSubmit. rewrite Hday. cbn [negb andb].
      split; [reflexivity|].
      cbn [endOf startOf body]. rewrite Hle.
      unfold handleAddEvent, handleUpdateEvent.
      cbn [endOf startOf body]. rewrite Hle.
      destruct (selectedSlot st) eqn:Hslot; [reflexivity|].
      reflexivity.
Qed.

(** The seminar that ends an hour before it starts is refused by
    [handleAddEvent] and by the form; the form with an end that is no
    date, confirmed, puts an object without an end in the place of the
    selected seminar. *)
Lemma end_not_after_start_witness :
  date_le (endOf eventInverted) (startOf eventInverted) = true
  /\ handleAddEvent addingSlot eventInverted = (addingSlot, [endAfterStartAlert])
  /\ onSubmit editingA (str "Seminar") (startOf eventInverted)
       (endOf eventInverted) true 4 = (editingA, [endAfterStartAlert])
  /\ isValid (endOf eventWithoutEnd) = false
  /\ events (fst (onSubmit editingA (str "Seminar") (startOf eventWithoutEnd)
                    (endOf eventWithoutEnd) true 4))
     = [ {| ref := 4;
            body := Entered (str "Seminar") (startOf eventWithoutEnd)
                      (endOf eventWithoutEnd) |};
         eventA' ].
Proof.
  split; [reflexivity|].
  split.
  - apply (proj1 (proj1 (end_not_after_start_is_refused addingSlot eventInverted
                           [] true 0) eq_refl)).
  - split.
    + apply (proj2 (proj1 (end_not_after_start_is_refused editingA eventInverted
                             (str "Seminar") true 4) eq_refl)).
    + split; [reflexivity|].
      pose proof (proj2 (end_not_after_start_is_refused editingA eventWithoutEnd
                           (str "Seminar") true 4) eq_refl) as H.
      cbv zeta in H. destruct H as (_ & _ & _ & H).
      rewrite H. reflexivity.
Defined.

(* ================================================================= *)
(** ** The calendar *)

Lemma doyChecks_hold :
  ltac:(let t := eval unfold doyChecks in (doyChecks = true) in exact t).
Proof. vm_compute. reflexivity. Qed.

Lemma dateChecks_hold :
  ltac:(let t := eval unfold dateChecks in (dateChecks = true) in exact t).
Proof. vm_compute. reflexivity. Qed.

Lemma doyCheck_holds (doy : Z) : 0 <= doy <= 365 -> doyCheck doy = true.
Proof.
  intros H.
  assert (Hin : In doy (zrange 0 366)) by (apply in_zrange; lia).
  pose proof doyChecks_hold as C. rewrite forallb_forall in C.
  exact (C doy Hin).
Qed.

Lemma dateCheck_holds (m d : Z) :
  1 <= m <= 12 -> 1 <= d <= 31 -> dateCheck m d = true.
Proof.
  intros Hm Hd.
  assert (Im : In m (zrange 1 12)) by (apply in_zrange; lia).
  assert (Id : In d (zrange 1 31)) by (apply in_zrange; lia).
  pose proof dateChecks_hold as C. rewrite forallb_forall in C.
  specialize (C m Im). rewrite forallb_forall in C. exact (C d Id).
Qed.

(** The year of a day of the era, and the day of that year. *)
Lemma yearOfEra_bounds (doe : Z) :
  0 <= doe < 146097 ->
  0 <= yearOfEra doe <= 399
  /\ 0 <= doe - firstDayOfYear (yearOfEra doe) <= 365.
Proof.
  unfold yearOfEra, firstDayOfYear. intros H.
  split; Z.div_mod_to_equations; lia.
Qed.

Lemma leap_mod (y : Z) :
  y mod 4 = 0 /\ (y mod 100 <> 0 \/ y mod 400 = 0) -> isLeapYear y = true.
Proof.
  unfold isLeapYear. intros [H4 [H100|H400]].
  - apply Z.eqb_eq in H4. apply Z.eqb_neq in H100. now rewrite H4, H100.
  - apply Z.eqb_eq in H400. rewrite H400. apply orb_true_r.
Qed.

Lemma mod_leap (y : Z) :
  isLeapYear y = true ->
  y mod 4 = 0 /\ (y mod 100 <> 0 \/ y mod 400 = 0).
Proof.
  unfold isLeapYear. intros H. apply orb_true_iff in H as [H|H].
  - apply andb_true_iff in H as [H4 H100].
    apply Z.eqb_eq in H4. apply negb_true_iff, Z.eqb_neq in H100. auto.
  - apply Z.eqb_eq in H. split; [|now right].
    Z.div_mod_to_equations. lia.
Qed.

(** The day 365 of a year is there only before a leap year's March. *)
Lemma yearOfEra_leap (doe : Z) :
  0 <= doe < 146097 ->
  doe - firstDayOfYear (yearOfEra doe) = 365 ->
  isLeapYear (yearOfEra doe + 1) = true.
Proof.
  intros H H365. apply leap_mod. revert H365.
  unfold yearOfEra, firstDayOfYear.
  Z.div_mod_to_equations. lia.
Qed.

(** A day of a year of the era is a day of the era, of that year. *)
Lemma yearOfEra_day (yoe doy : Z) :
  0 <= yoe <= 399 ->
  0 <= doy <= 364 \/ (doy = 365 /\ isLeapYear (yoe + 1) = true) ->
  0 <= firstDayOfYear yoe + doy <= 146096
  /\ yearOfEra (firstDayOfYear yoe + doy) = yoe.
Proof.
  intros Hy Hd.
  assert (Hd' : 0 <= doy <= 364
                \/ (doy = 365
                    /\ (yoe + 1) mod 4 = 0
                    /\ ((yoe + 1) mod 100 <> 0 \/ (yoe + 1) mod 400 = 0))).
  { destruct Hd as [Hd|[Hd Hl]]; [now left|right].
    split; [exact Hd|]. now apply mod_leap. }
  clear Hd. unfold yearOfEra, firstDayOfYear.
  split; Z.div_mod_to_equations; lia.
Qed.

(** The first day of the next year. *)
Lemma firstDayOfYear_next (yoe : Z) :
  0 <= yoe <= 399 ->
  firstDayOfYear (yoe + 1)
  = firstDayOfYear yoe + (if isLeapYear (yoe + 1) then 366 else 365)
    - (if yoe =? 399 then 1 else 0).
Proof.
  intros Hy. destruct (isLeapYear (yoe + 1)) eqn:Hl.
  - apply mod_leap in Hl. revert Hl. unfold firstDayOfYear.
    destruct (yoe =? 399) eqn:E; Z.div_mod_to_equations; lia.
  - assert (Hn : ~ ((yoe + 1) mod 4 = 0
                    /\ ((yoe + 1) mod 100 <> 0 \/ (yoe + 1) mod 400 = 0))).
    { intros H. apply leap_mod in H. congruence. }
    revert Hn. unfold firstDayOfYear.
    destruct (yoe =? 399) eqn:E; Z.div_mod_to_equations; lia.
Qed.

Lemma civilFromDays_era (z : Z) :
  civilFromDays z =
  match monthOfDoy ((z + 719468) mod 146097
                    - firstDayOfYear (yearOfEra ((z + 719468) mod 146097))) with
  | (m, d) =>
      (yearOfEra ((z + 719468) mod 146097) + (z + 719468) / 146097 * 400
       + janFeb m, m, d)
  end.
Proof.
  unfold civilFromDays, monthOfDoy, firstDayOfYear, yearOfEra, janFeb.
  cbv zeta.
  rewrite (Z.mod_eq (z + 719468) 146097) by lia.
  replace (146097 * ((z + 719468) / 146097))
    with ((z + 719468) / 146097 * 146097) by ring.
  generalize ((z + 719468) / 146097) as era.
  intros era. generalize (z + 719468 - era * 146097) as doe. intros doe.
  match goal with |- context [?m <=? 2] => destruct (m <=? 2) end;
    f_equal; f_equal; ring.
Qed.

Lemma daysFromCivil_era (y m d : Z) :
  daysFromCivil y m d
  = (y - janFeb m) / 400 * 146097
    + (firstDayOfYear ((y - janFeb m) mod 400) + dayOfYear m d) - 719468.
Proof.
  unfold daysFromCivil, firstDayOfYear, dayOfYear, janFeb. cbv zeta.
  replace (if m <=? 2 then y - 1 else y)
    with (y - (if m <=? 2 then 1 else 0)) by (destruct (m <=? 2); ring).
  generalize (y - (if m <=? 2 then 1 else 0)) as y'. intros y'.
  rewrite (Z.mod_eq y' 400) by lia.
  replace (400 * (y' / 400)) with (y' / 400 * 400) by ring.
  ring.
Qed.

Lemma isLeapYear_era (y e : Z) : isLeapYear (y + e * 400) = isLeapYear y.
Proof.
  unfold isLeapYear.
  replace ((y + e * 400) mod 4) with (y mod 4)
    by (replace (y + e * 400) with (y + e * 100 * 4) by ring;
        now rewrite Z_mod_plus_full).
  replace ((y + e * 400) mod 100) with (y mod 100)
    by (replace (y + e * 400) with (y + e * 4 * 100) by ring;
        now rewrite Z_mod_plus_full).
  now rewrite Z_mod_plus_full.
Qed.

Lemma daysInMonth_era (y e m : Z) :
  daysInMonth (y + e * 400) m = daysInMonth y m.
Proof. unfold daysInMonth. now rewrite isLeapYear_era. Qed.

Lemma daysInMonth_length (y m : Z) :
  daysInMonth y m = monthLength m (isLeapYear y).
Proof.
  unfold monthLength, daysInMonth. destruct (m =? 2); reflexivity.
Qed.

Lemma monthLength_le (m : Z) (b : bool) :
  monthLength m b <= monthLength m true.
Proof.
  unfold monthLength. destruct (m =? 2); [destruct b; lia|lia].
Qed.

Lemma era_split (e r : Z) :
  0 <= r < 146097 ->
  (e * 146097 + r) / 146097 = e /\ (e * 146097 + r) mod 146097 = r.
Proof.
  intros H. split.
  - rewrite Z.div_add_l by lia. rewrite Z.div_small by lia. lia.
  - rewrite Z.add_comm, Z_mod_plus_full. now apply Z.mod_small.
Qed.

Lemma year_split (e r : Z) :
  0 <= r <= 399 -> (r + e * 400) / 400 = e /\ (r + e * 400) mod 400 = r.
Proof.
  intros H. split.
  - rewrite Z.div_add by lia. rewrite Z.div_small by lia. lia.
  - rewrite Z_mod_plus_full. apply Z.mod_small. lia.
Qed.

(** The fields of the day [z] of the epoch form a date of the calendar,
    and the day is found again from them. *)
Lemma civilFromDays_inv (z : Z) :
  match civilFromDays z with
  | (y, m, d) =>
      fieldsValid (DateFields y m d) = true /\ daysFromCivil y m d = z
  end.
Proof.
  rewrite civilFromDays_era.
  pose proof (Z.mod_pos_bound (z + 719468) 146097 ltac:(lia)) as Hdoe.
  pose proof (Z.div_mod (z + 719468) 146097 ltac:(lia)) as Hz.
  revert Hdoe Hz.
  generalize ((z + 719468) / 146097) as era.
  generalize ((z + 719468) mod 146097) as doe.
  intros doe era Hdoe Hz.
  destruct (yearOfEra_bounds doe Hdoe) as [Hy Hdoy].
  pose proof (yearOfEra_leap doe Hdoe) as Hleap.
  revert Hy Hdoy Hleap. generalize (yearOfEra doe) as yoe.
  intros yoe Hy Hdoy Hleap.
  pose proof (doyCheck_holds _ Hdoy) as C. unfold doyCheck in C.
  remember (doe - firstDayOfYear yoe) as doy eqn:Edoy.
  destruct (monthOfDoy doy) as [m d].
  destruct (monthOfDoy (doy + 1)) as [m' d'].
  apply andb_true_iff in C as [C _]. apply andb_true_iff in C as [C _].
  apply andb_true_iff in C as [C Hback].
  apply andb_true_iff in C as [Hm Hd].
  apply Z.eqb_eq in Hback.
  split.
  - unfold fieldsValid. cbn [fYear fMonth fDay]. rewrite Hm. cbn [andb].
    replace (yoe + era * 400 + janFeb m) with (yoe + janFeb m + era * 400)
      by ring.
    rewrite daysInMonth_era, daysInMonth_length.
    unfold between in *. apply andb_true_iff in Hd as [Hd1 Hd2].
    apply andb_true_iff. split; [exact Hd1|].
    apply Z.leb_le. apply Z.leb_le in Hd2.
    destruct (doy =? 365) eqn:E.
    + apply Z.eqb_eq in E.
      assert (Hm2 : m = 2).
      { unfold monthLength in Hd2. destruct (m =? 2) eqn:E2; [lia|].
        exfalso. revert Hback. unfold dayOfYear. cbv zeta.
        assert (Hd31 : d <= 31).
        { revert Hd2. unfold daysInMonth. rewrite E2.
          destruct ((m =? 4) || (m =? 6) || (m =? 9) || (m =? 11)); lia. }
        Z.div_mod_to_equations. lia. }
      subst m. change (janFeb 2) with 1.
      rewrite (Hleap E). exact Hd2.
    + pose proof (monthLength_le m (isLeapYear (yoe + janFeb m))) as Hle.
      unfold monthLength in *. destruct (m =? 2);
        [destruct (isLeapYear (yoe + janFeb m)); lia|lia].
  - rewrite daysFromCivil_era.
    replace (yoe + era * 400 + janFeb m - janFeb m) with (yoe + era * 400)
      by ring.
    destruct (year_split era yoe Hy) as [-> ->].
    rewrite Hback. lia.
Qed.

(** The next day has another day of the month. *)
Lemma next_day_of_month (z : Z) :
  snd (civilFromDays (z + 1)) <> snd (civilFromDays z).
Proof.
  rewrite !civilFromDays_era.
  replace (z + 1 + 719468) with (z + 719468 + 1) by ring.
  rewrite <- (Z.add_mod_idemp_l (z + 719468) 1 146097) by lia.
  pose proof (Z.mod_pos_bound (z + 719468) 146097 ltac:(lia)) as Hdoe.
  revert Hdoe.
  generalize ((z + 719468 + 1) / 146097) as era'.
  generalize ((z + 719468) / 146097) as era.
  generalize ((z + 719468) mod 146097) as doe.
  intros doe era era' Hdoe.
  destruct (Z.eq_dec doe 146096) as [->|Hlast].
  { vm_compute. discriminate. }
  rewrite (Z.mod_small (doe + 1) 146097) by lia.
  destruct (yearOfEra_bounds doe Hdoe) as [Hy Hdoy].
  pose proof (yearOfEra_leap doe Hdoe) as Hleap.
  pose proof (doyCheck_holds _ Hdoy) as C. unfold doyCheck in C.
  assert (Hnext :
    (yearOfEra (doe + 1) = yearOfEra doe
     /\ doe + 1 - firstDayOfYear (yearOfEra (doe + 1))
        = doe - firstDayOfYear (yearOfEra doe) + 1
     /\ doe - firstDayOfYear (yearOfEra doe) <= 364)
    \/ (doe + 1 - firstDayOfYear (yearOfEra (doe + 1)) = 0
        /\ 364 <= doe - firstDayOfYear (yearOfEra doe))).
  { revert Hy Hdoy Hleap. generalize (yearOfEra doe) as yoe.
    intros yoe Hy Hdoy Hleap.
    pose proof (firstDayOfYear_next yoe Hy) as Hf.
    destruct (Z_le_gt_dec (doe - firstDayOfYear yoe) 363) as [H363|H363].
    - left.
      destruct (yearOfEra_day yoe (doe - firstDayOfYear yoe + 1) Hy
                  ltac:(left; lia)) as [_ E].
      replace (firstDayOfYear yoe + (doe - firstDayOfYear yoe + 1))
        with (doe + 1) in E by ring.
      rewrite E. lia.
    - destruct (isLeapYear (yoe + 1)) eqn:Hl.
      + destruct (Z.eq_dec (doe - firstDayOfYear yoe) 364) as [E364|N364].
        * left.
          destruct (yearOfEra_day yoe (doe - firstDayOfYear yoe + 1) Hy
                      ltac:(right; split; [lia|exact Hl])) as [_ E].
          replace (firstDayOfYear yoe + (doe - firstDayOfYear yoe + 1))
            with (doe + 1) in E by ring.
          rewrite E. lia.
        * right.
          destruct (yoe =? 399) eqn:E399.
          { exfalso. apply Z.eqb_eq in E399. subst yoe.
            change (firstDayOfYear 399) with 145731 in *. lia. }
          apply Z.eqb_neq in E399.
          destruct (yearOfEra_day (yoe + 1) 0 ltac:(lia) ltac:(left; lia))
            as [_ E].
          replace (firstDayOfYear (yoe + 1) + 0) with (doe + 1) in E by lia.
          rewrite E. lia.
      + assert (E364 : doe - firstDayOfYear yoe = 364).
        { destruct (Z.eq_dec (doe - firstDayOfYear yoe) 365) as [E|E];
            [|lia].
          specialize (Hleap E). congruence. }
        right.
        destruct (yoe =? 399) eqn:E399.
        { exfalso. apply Z.eqb_eq in E399. subst yoe.
          vm_compute in Hl. discriminate. }
        apply Z.eqb_neq in E399.
        destruct (yearOfEra_day (yoe + 1) 0 ltac:(lia) ltac:(left; lia))
          as [_ E].
        replace (firstDayOfYear (yoe + 1) + 0) with (doe + 1) in E by lia.
        rewrite E. lia. }
  revert C Hnext.
  generalize (yearOfEra (doe + 1)) as yoe'. generalize (yearOfEra doe) as yoe.
  intros yoe yoe' C Hnext.
  destruct Hnext as [(-> & -> & H364)|(-> & H364)].
  - destruct (monthOfDoy (doe - firstDayOfYear yoe)) as [m d].
    destruct (monthOfDoy (doe - firstDayOfYear yoe + 1)) as [m' d'].
    cbn [snd]. apply andb_true_iff in C as [C _].
    apply andb_true_iff in C as [_ C].
    replace (365 <=? doe - firstDayOfYear yoe) with false in C by lia.
    cbn [orb] in C. apply negb_true_iff, Z.eqb_neq in C. exact C.
  - change (monthOfDoy 0) with (3, 1).
    destruct (monthOfDoy (doe - firstDayOfYear yoe)) as [m d].
    destruct (monthOfDoy (doe - firstDayOfYear yoe + 1)) as [m' d'].
    apply andb_true_iff in C as [_ C].
    replace (doe - firstDayOfYear yoe <? 364) with false in C by lia.
    cbn [orb] in C. apply negb_true_iff, Z.eqb_neq in C.
    cbn [snd]. intros E. apply C. symmetry. exact E.
Qed.

(** A date of the calendar is found again from its day of the epoch. *)
Lemma civilFromDays_daysFromCivil (y m d : Z) :
  fieldsValid (DateFields y m d) = true ->
  civilFromDays (daysFromCivil y m d) = (y, m, d).
Proof.
  unfold fieldsValid. cbn [fYear fMonth fDay]. intros H.
  apply andb_true_iff in H as [Hm Hd]. unfold between in Hm, Hd.
  rewrite daysInMonth_length in Hd.
  pose proof (monthLength_le m (isLeapYear y)) as Hle.
  assert (H31 : monthLength m true <= 31).
  { unfold monthLength, daysInMonth.
    destruct (m =? 2); [lia|].
    destruct ((m =? 4) || (m =? 6) || (m =? 9) || (m =? 11)); lia. }
  pose proof (dateCheck_holds m d ltac:(lia) ltac:(lia)) as C.
  unfold dateCheck in C.
  replace (d <=? monthLength m true) with true in C by lia.
  cbn [negb orb] in C. cbv zeta in C.
  apply andb_true_iff in C as [C Hback].
  apply andb_true_iff in C as [Hdoy Hlast].
  unfold between in Hdoy.
  rewrite daysFromCivil_era.
  pose proof (Z.mod_pos_bound (y - janFeb m) 400 ltac:(lia)) as Hyoe.
  pose proof (Z.div_mod (y - janFeb m) 400 ltac:(lia)) as Hy.
  revert Hyoe Hy.
  generalize ((y - janFeb m) / 400) as era.
  generalize ((y - janFeb m) mod 400) as yoe.
  intros yoe era Hyoe Hy.
  assert (Hvalid : 0 <= dayOfYear m d <= 364
                   \/ (dayOfYear m d = 365 /\ isLeapYear (yoe + 1) = true)).
  { destruct (dayOfYear m d <? 365) eqn:E; [left; lia|right].
    split; [lia|]. cbn [orb] in Hlast.
    apply andb_true_iff in Hlast as [E2 E29].
    apply Z.eqb_eq in E2, E29. subst m d.
    change (janFeb 2) with 1 in Hy.
    replace y with (yoe + 1 + era * 400) in Hd by lia.
    rewrite isLeapYear_era in Hd. unfold monthLength in Hd.
    change (2 =? 2) with true in Hd. cbv iota in Hd.
    destruct (isLeapYear (yoe + 1)); [reflexivity|lia]. }
  destruct (yearOfEra_day yoe (dayOfYear m d) ltac:(lia) Hvalid)
    as [Hdoe Hyear].
  rewrite civilFromDays_era.
  replace (era * 146097 + (firstDayOfYear yoe + dayOfYear m d) - 719468
           + 719468)
    with (era * 146097 + (firstDayOfYear yoe + dayOfYear m d)) by ring.
  destruct (era_split era (firstDayOfYear yoe + dayOfYear m d) ltac:(lia))
    as [-> ->].
  rewrite Hyear.
  replace (firstDayOfYear yoe + dayOfYear m d - firstDayOfYear yoe)
    with (dayOfYear m d) by ring.
  destruct (monthOfDoy (dayOfYear m d)) as [m2 d2].
  apply andb_true_iff in Hback as [Hm2 Hd2].
  apply Z.eqb_eq in Hm2, Hd2. subst m2 d2.
  repeat f_equal. lia.
Qed.

Lemma militaryCheck_holds (host : Host) :
  ltac:(let t := eval unfold militaryCheck in (militaryCheck host = true) in
        exact t).
Proof. vm_compute. reflexivity. Qed.

(** X1.  A time written with digits only, the hour on one or two digits and
    the minutes on two, with or without a colon, is read as that hour and
    minute when the hour is at most 23 and the minutes at most 59, and is
    refused otherwise. *)
Theorem parseTime_military_times (host : Host) (h m : Z)
  (padded withColon : bool) :
  0 <= h <= 99 -> 0 <= m <= 99 ->
  parseTime host (JSString (militaryText h m padded withColon))
  = if (h <=? 23) && (m <=? 59)
    then Some {| hours := Num h; minutes := Num m |}
    else None.
Proof.
  intros Hh Hm. apply time_eqb_eq.
  assert (Ih : In h (zrange 0 100)) by (apply in_zrange; lia).
  assert (Im : In m (zrange 0 100)) by (apply in_zrange; lia).
  pose proof (militaryCheck_holds host) as H.
  rewrite forallb_forall in H. specialize (H h Ih).
  rewrite forallb_forall in H. specialize (H m Im).
  rewrite forallb_forall in H. specialize (H padded (in_bools _)).
  rewrite forallb_forall in H. exact (H withColon (in_bools _)).
Qed.

(** "7:05" is five past seven and "2460" is no time. *)
Lemma parseTime_military_witness :
  parseTime utcHost (text "7:05") = Some {| hours := Num 7; minutes := Num 5 |}
  /\ parseTime utcHost (text "2460") = None.
Proof.
  split.
  - apply (parseTime_military_times utcHost 7 5 false true); lia.
  - apply (parseTime_military_times utcHost 24 60 true false); lia.
Defined.

(** *** White space and case *)

Lemma trimStart_app (s t : jsstring) :
  trimStart (s ++ t)
  = match trimStart s with
    | [] => trimStart t
    | _ :: _ => trimStart s ++ t
    end.
Proof.
  induction s as [|c s IH]; cbn [app trimStart].
  - destruct (trimStart t); reflexivity.
  - destruct (isWhiteSpace c); [exact IH|reflexivity].
Qed.

Lemma trimStart_spaces (s : jsstring) :
  forallb isWhiteSpace s = true -> trimStart s = [].
Proof.
  induction s as [|c s IH]; [reflexivity|].
  cbn [forallb trimStart]. intros H. apply andb_true_iff in H as [-> H].
  auto.
Qed.

Lemma forallb_rev {A} (p : A -> bool) (l : list A) :
  forallb p (rev l) = forallb p l.
Proof.
  apply Bool.eq_iff_eq_true. rewrite !forallb_forall.
  split; intros H x Hx; apply H; [now apply in_rev in Hx|now apply in_rev].
Qed.

Lemma trimEnd_app_spaces (s post : jsstring) :
  forallb isWhiteSpace post = true -> trimEnd (s ++ post) = trimEnd s.
Proof.
  intros H. unfold trimEnd. rewrite rev_app_distr, trimStart_app.
  rewrite trimStart_spaces by now rewrite forallb_rev. reflexivity.
Qed.

Lemma trimEnd_nil_r (s : jsstring) : trimStart s = [] -> trimEnd s = [].
Proof.
  unfold trimEnd. intros H.
  assert (Hs : forallb isWhiteSpace s = true).
  { induction s as [|c s IH]; [reflexivity|].
    cbn [trimStart] in H. cbn [forallb].
    destruct (isWhiteSpace c); [auto|discriminate]. }
  rewrite trimStart_spaces by now rewrite forallb_rev. reflexivity.
Qed.

(** White space around a text does not count for [trim]. *)
Lemma trim_margins (pre s post : jsstring) :
  forallb isWhiteSpace pre = true -> forallb isWhiteSpace post = true ->
  trim (pre ++ s ++ post) = trim s.
Proof.
  intros Hpre Hpost. unfold trim.
  rewrite trimStart_app, (trimStart_spaces pre Hpre).
  rewrite trimStart_app.
  destruct (trimStart s) as [|c r] eqn:Hs.
  - rewrite (trimStart_spaces post Hpost). reflexivity.
  - apply trimEnd_app_spaces. exact Hpost.
Qed.

Lemma upperChar_space (c : ascii) : isWhiteSpace (upperChar c) = isWhiteSpace c.
Proof.
  destruct c as [[] [] [] [] [] [] [] []]; vm_compute; reflexivity.
Qed.

Lemma lower_upperChar (c : ascii) : lowerChar (upperChar c) = lowerChar c.
Proof.
  destruct c as [[] [] [] [] [] [] [] []]; vm_compute; reflexivity.
Qed.

Lemma trimStart_map (f : ascii -> ascii) (s : jsstring) :
  (forall c, isWhiteSpace (f c) = isWhiteSpace c) ->
  trimStart (map f s) = map f (trimStart s).
Proof.
  intros Hf. induction s as [|c s IH]; [reflexivity|].
  cbn [map trimStart]. rewrite Hf. destruct (isWhiteSpace c); [exact IH|].
  reflexivity.
Qed.

Lemma trim_map (f : ascii -> ascii) (s : jsstring) :
  (forall c, isWhiteSpace (f c) = isWhiteSpace c) ->
  trim (map f s) = map f (trim s).
Proof.
  intros Hf. unfold trim, trimEnd.
  rewrite (trimStart_map f s Hf), <- map_rev, (trimStart_map f _ Hf).
  now rewrite map_rev.
Qed.

Lemma cleaned_upper (s : jsstring) :
  toLowerCase (trim (toUpperCase s)) = toLowerCase (trim s).
Proof.
  unfold toUpperCase, toLowerCase.
  rewrite (trim_map upperChar s upperChar_space), map_map.
  apply map_ext. exact lower_upperChar.
Qed.

(** On a text the time parser depends on the trimmed text in lower case
    only; the empty text has the result of a text of white space. *)
Lemma parseTime_cleaned (host : Host) (s s' : jsstring) :
  toLowerCase (trim s) = toLowerCase (trim s') ->
  parseTime host (JSString s) = parseTime host (JSString s').
Proof.
  intros H. unfold parseTime.
  destruct s as [|a s], s' as [|a' s'];
    cbn [truthy isEmptyStr negb toString bind]; cbv zeta.
  - reflexivity.
  - rewrite <- H. vm_compute. reflexivity.
  - rewrite H. vm_compute. reflexivity.
  - rewrite H. reflexivity.
Qed.

(** X2.  White space before and after the text of a time, and the case of
    its letters, do not change what the time parser returns. *)
Theorem parseTime_margins_and_case (host : Host) (pre s post : jsstring) :
  forallb isWhiteSpace pre = true -> forallb isWhiteSpace post = true ->
  parseTime host (JSString (pre ++ s ++ post)) = parseTime host (JSString s)
  /\ parseTime host (JSString (toUpperCase s)) = parseTime host (JSString s).
Proof.
  intros Hpre Hpost. split.
  - apply parseTime_cleaned. now rewrite (trim_margins pre s post Hpre Hpost).
  - apply parseTime_cleaned. apply cleaned_upper.
Qed.

(** "  1:30 pm " and "1:30 PM" are read as "1:30 pm" is. *)
Lemma parseTime_margins_witness :
  parseTime utcHost (text "  1:30 pm ") = parseTime utcHost (text "1:30 pm")
  /\ parseTime utcHost (text "1:30 PM") = parseTime utcHost (text "1:30 pm").
Proof.
  split.
  - exact (proj1 (parseTime_margins_and_case utcHost (str "  ") (str "1:30 pm")
                    (str " ") eq_refl eq_refl)).
  - exact (proj2 (parseTime_margins_and_case utcHost [] (str "1:30 pm") []
                    eq_refl eq_refl)).
Defined.

(* ================================================================= *)
(** ** The date-time combiner: the time of day and the day *)

(** The reading of a time value made of a day, an hour, a minute and the
    rest of the minute. *)
Lemma reading_of_day (k h m r : Z) :
  0 <= h <= 23 -> 0 <= m <= 59 -> 0 <= r < 60000 ->
  let l := k * 86400000 + h * 3600000 + m * 60000 + r in
  l / 86400000 = k
  /\ (l mod 86400000) / 3600000 = h
  /\ (l mod 3600000) / 60000 = m.
Proof.
  intros Hh Hm Hr l.
  destruct (day_split k (h * 3600000 + m * 60000 + r) ltac:(lia)) as [Hd Hmod].
  replace (k * 86400000 + (h * 3600000 + m * 60000 + r)) with l in Hd, Hmod
    by (unfold l; ring).
  rewrite Hd, Hmod. split; [reflexivity|]. split.
  - replace (h * 3600000 + m * 60000 + r)
      with (h * 3600000 + (m * 60000 + r)) by ring.
    rewrite Z.div_add_l by lia. rewrite Z.div_small by lia. lia.
  - replace l with (m * 60000 + r + (k * 24 + h) * 3600000)
      by (unfold l; ring).
    rewrite Z_mod_plus_full.
    rewrite Z.mod_small by lia.
    rewrite Z.div_add_l by lia. rewrite Z.div_small by lia. lia.
Qed.

Lemma momentSet_midnight (k h m : Z) :
  momentSet (DateAt (k * msPerDay)) (Num h) (Num m)
  = DateAt (k * msPerDay + h * msPerHour + m * msPerMinute).
Proof.
  unfold momentSet, setHours1, setMinutes1, msPerDay, msPerHour, msPerMinute.
  cbn [num_isNaN]. f_equal.
  assert (A1 : k * 86400000 / 86400000 = k) by (apply Z.div_mul; lia).
  assert (A2 : (k * 86400000) mod 3600000 = 0).
  { replace (k * 86400000) with (k * 24 * 3600000) by ring.
    apply Z.mod_mul; lia. }
  rewrite A1, A2.
  assert (A3 : (k * 86400000 + h * 3600000 + 0) / 3600000 = k * 24 + h).
  { replace (k * 86400000 + h * 3600000 + 0) with ((k * 24 + h) * 3600000)
      by ring.
    apply Z.div_mul; lia. }
  assert (A4 : (k * 86400000 + h * 3600000 + 0) mod 60000 = 0).
  { replace (k * 86400000 + h * 3600000 + 0)
      with ((k * 1440 + h * 60) * 60000) by ring.
    apply Z.mod_mul; lia. }
  rewrite A3, A4. ring.
Qed.

Lemma momentSet_midnight_minutes (k m : Z) :
  momentSet (DateAt (k * msPerDay)) NaN (Num m)
  = DateAt (k * msPerDay + m * msPerMinute).
Proof.
  unfold momentSet, setMinutes1, msPerDay, msPerHour, msPerMinute.
  cbn [num_isNaN]. f_equal.
  assert (A1 : k * 86400000 / 3600000 = k * 24).
  { replace (k * 86400000) with (k * 24 * 3600000) by ring.
    apply Z.div_mul; lia. }
  assert (A2 : (k * 86400000) mod 60000 = 0).
  { replace (k * 86400000) with (k * 1440 * 60000) by ring.
    apply Z.mod_mul; lia. }
  rewrite A1, A2. ring.
Qed.

(** A moment parsed from a text is the local midnight of a date of the
    calendar. *)
Lemma momentStrict_midnight (s : jsstring) (fmts : list (list ftoken)) (l : Z) :
  momentStrict s fmts = DateAt l ->
  exists f,
    fieldsValid f = true
    /\ l = daysFromCivil (fYear f) (fMonth f) (fDay f) * msPerDay.
Proof.
  induction fmts as [|fmt fmts IH]; cbn [momentStrict]; [discriminate|].
  destruct (momentStrict1 s fmt) as [|l'] eqn:H1; [exact IH|].
  intros [= <-]. unfold momentStrict1 in H1.
  destruct (parseTokens fmt s (DateFields 0 1 1)) as [f|]; [|discriminate].
  destruct (fieldsValid f) eqn:Hv; [|discriminate].
  injection H1 as <-. now exists f.
Qed.

(** The date of the serial-number path, before the time is set: a valid
    date unless the instant is before the first time value. *)
Lemma serial_path_date (host : Host) (n : Z) :
  n < 100000 ->
  let date :=
    if num_gt (Num n) (Num 59)
    then addDays (newDateNum host
            (num_mul (num_mul (num_sub (Num n) (Num 25569)) (Num 86400))
               (Num 1000))) (-1)
    else newDateNum host
            (num_mul (num_mul (num_sub (Num n) (Num 25569)) (Num 86400))
               (Num 1000)) in
  (-99974431 <= n -> exists l, date = DateAt l)
  /\ (n < -99974431 -> date = InvalidDate).
Proof.
  intros Hn. cbn [num_sub num_mul newDateNum]. unfold newDate, maxTime.
  cbv zeta. split; intros H.
  - replace (Z.abs ((n - 25569) * 86400 * 1000) <=? 8640000000000000)
      with true by lia.
    destruct (num_gt (Num n) (Num 59)); cbn [addDays]; eexists; reflexivity.
  - replace (Z.abs ((n - 25569) * 86400 * 1000) <=? 8640000000000000)
      with false by lia.
    destruct (num_gt (Num n) (Num 59)); reflexivity.
Qed.

Lemma parseDateTime_without_time (host : Host) (d t : JSValue) :
  parseTime host t = None -> parseDateTime host d t = None.
Proof.
  intros H. unfold parseDateTime.
  destruct (truthy d); [|reflexivity].
  destruct (truthy t); [|reflexivity]. cbn [negb orb].
  destruct (fixInvalidDate host d) as [f|]; [|reflexivity].
  cbn [bind]. cbv zeta. rewrite H.
  destruct (negb (isNaN f) && num_lt (parseInt f) (Num 100000));
    [reflexivity|].
  destruct (negb (isValid (momentStrict f dateFormats))); reflexivity.
Qed.

Lemma parseDateTime_time (host : Host) (d t : JSValue) (r : JSDate) :
  parseDateTime host d t = Some r ->
  truthy d = true /\ exists time, parseTime host t = Some time.
Proof.
  intros H. split.
  - unfold parseDateTime in H. destruct (truthy d); [reflexivity|].
    discriminate.
  - destruct (parseTime host t) as [time|] eqn:Ht; [now exists time|].
    rewrite (parseDateTime_without_time host d t Ht) in H. discriminate.
Qed.

(** X3.  The combiner gives nothing when the date is missing or empty, and
    nothing when the time parser gives nothing for the time, whatever the
    date is. *)
Theorem parseDateTime_needs_date_and_time (host : Host) (d t : JSValue) :
  truthy d = false \/ parseTime host t = None ->
  parseDateTime host d t = None.
Proof.
  intros [H|H].
  - unfold parseDateTime. now rewrite H.
  - now apply parseDateTime_without_time.
Qed.

(** No time in "soon", no date in the empty text. *)
Lemma parseDateTime_needs_witness :
  parseDateTime utcHost (text "20240115") (text "soon") = None
  /\ parseDateTime utcHost (text "") (text "09:00") = None.
Proof.
  split.
  - apply parseDateTime_needs_date_and_time. right. vm_compute. reflexivity.
  - apply parseDateTime_needs_date_and_time. left. reflexivity.
Defined.

(** X4.  A timestamp the combiner returns for a time of day in range
    shows this time of day when it is a valid date: its hours and minutes
    are the ones the time parser read.  It is an invalid date only on the
    serial-number path, for a number of -99974431 or less, whose instant
    is at or before the first time value of a [Date], and it is one for
    every number below that. *)
Theorem parseDateTime_shows_the_time (host : Host) (d t : JSValue) (r : JSDate) :
  parseDateTime host d t = Some r ->
  exists time,
    parseTime host t = Some time
    /\ (inRange time = true ->
        (isValid r = true ->
         getHours r = hours time /\ getMinutes r = minutes time)
        /\ (isValid r = false ->
            exists f n,
              fixInvalidDate host d = Normal f /\ isNaN f = false
              /\ parseInt f = Num n /\ n <= -99974431)
        /\ (forall f n,
              fixInvalidDate host d = Normal f -> isNaN f = false ->
              parseInt f = Num n -> n < -99974431 ->
              isValid r = false)).
Proof.
  unfold parseDateTime.
  destruct (negb (truthy d) || negb (truthy t)); [discriminate|].
  destruct (fixInvalidDate host d) as [f|]; [|discriminate].
  cbn [bind]. cbv zeta.
  destruct (negb (isNaN f) && num_lt (parseInt f) (Num 100000)) eqn:Hserial.
  - apply andb_true_iff in Hserial as [Hnum Hn].
    apply negb_true_iff in Hnum.
    destruct (parseInt f) as [|n] eqn:Hint; [discriminate|].
    cbn [num_lt] in Hn. apply Z.ltb_lt in Hn.
    destruct (serial_path_date host n Hn) as [Hin Hout]. cbv zeta in Hin, Hout.
    destruct (Z_le_gt_dec (-99974431) n) as [Hn'|Hn'].
    + destruct (Hin Hn') as [l ->].
      destruct (parseTime host t) as [time|]; [|discriminate].
      cbn [catch]. intros [= <-]. exists time. split; [reflexivity|].
      unfold inRange. destruct (hours time) as [|h]; [discriminate|].
      destruct (minutes time) as [|m]; [discriminate|].
      unfold between. intros Hr.
      cbn [setHours2 isValid getTime_isNaN negb getHours getMinutes].
      unfold msPerDay, msPerHour, msPerMinute.
      pose proof (Z.mod_pos_bound l 60000 ltac:(lia)) as Hl.
      destruct (reading_of_day (l / 86400000) h m (l mod 60000)
                  ltac:(lia) ltac:(lia) Hl) as (_ & Hh & Hm).
      split; [intros _; now rewrite Hh, Hm|].
      split; [discriminate|].
      intros f' n' [= <-] _ Hint' Hlow. rewrite Hint in Hint'.
      injection Hint' as <-. lia.
    + rewrite (Hout ltac:(lia)).
      destruct (parseTime host t) as [time|]; [|discriminate].
      cbn [catch]. intros [= <-]. exists time. split; [reflexivity|].
      intros _.
      cbn [setHours2 isValid getTime_isNaN negb].
      split; [discriminate|].
      split; [|reflexivity].
      intros _. exists f, n. repeat split; try assumption. lia.
  - destruct (momentStrict f dateFormats) as [|l0] eqn:Hdate; [discriminate|].
    cbn [isValid getTime_isNaN negb].
    destruct (parseTime host t) as [time|]; [|discriminate].
    destruct (momentStrict_midnight _ _ _ Hdate) as (fl & _ & ->).
    destruct (getTime_isNaN _) eqn:Hnan; [discriminate|].
    cbn [catch]. intros [= <-]. exists time. split; [reflexivity|].
    unfold inRange. destruct (hours time) as [|h]; [discriminate|].
    destruct (minutes time) as [|m]; [discriminate|].
    unfold between. intros Hr.
    rewrite momentSet_midnight.
    cbn [isValid getTime_isNaN negb getHours getMinutes].
    unfold msPerDay, msPerHour, msPerMinute.
    destruct (reading_of_day (daysFromCivil (fYear fl) (fMonth fl) (fDay fl))
                h m 0 ltac:(lia) ltac:(lia) ltac:(lia)) as (_ & Hh & Hm).
    rewrite Z.add_0_r in Hh, Hm.
    split; [intros _; now rewrite Hh, Hm|].
    split; [discriminate|].
    intros f' n' [= <-] Hnum Hint Hlow. rewrite Hnum, Hint in Hserial.
    cbn [negb andb num_lt] in Hserial. lia.
Qed.

(** The serial number 45000 at "09:30" is a date at 9:30; the number
    -99999999 at "09:30" is an invalid date. *)
Lemma parseDateTime_shows_witness :
  exists l time,
    parseDateTime utcHost (text "45000") (text "09:30") = Some (DateAt l)
    /\ parseTime utcHost (text "09:30") = Some time
    /\ getHours (DateAt l) = hours time
    /\ getMinutes (DateAt l) = minutes time
    /\ parseDateTime utcHost (text "-99999999") (text "09:30")
       = Some InvalidDate.
Proof.
  assert (H : parseDateTime utcHost (text "45000") (text "09:30")
              = Some (DateAt 1678786200000)) by (vm_compute; reflexivity).
  destruct (parseDateTime_shows_the_time utcHost _ _ _ H)
    as (time & Ht & Hr).
  exists 1678786200000, time. split; [exact H|]. split; [exact Ht|].
  assert (E : Some time = Some {| hours := Num 9; minutes := Num 30 |})
    by (rewrite <- Ht; vm_compute; reflexivity).
  injection E as ->.
  destruct (Hr eq_refl) as (Hv & _ & _).
  destruct (Hv eq_refl) as [Hh Hm].
  split; [exact Hh|]. split; [exact Hm|].
  vm_compute. reflexivity.
Defined.

(* ================================================================= *)
(** ** The date-time combiner on the numeric notations *)

Lemma lit_not_digit (x c : ascii) :
  isDigit x = false -> isDigit c = true -> ascii_eqb x c = false.
Proof.
  unfold ascii_eqb, isDigit. intros Hx Hc.
  destruct (code x =? code c) eqn:E; [|reflexivity].
  apply Z.eqb_eq in E. rewrite E in Hx. congruence.
Qed.

Lemma digit_not_lit (x c : ascii) :
  isDigit x = false -> isDigit c = true -> ascii_eqb c x = false.
Proof.
  unfold ascii_eqb, isDigit. intros Hx Hc.
  destruct (code c =? code x) eqn:E; [|reflexivity].
  apply Z.eqb_eq in E. rewrite E in Hc. congruence.
Qed.

Lemma lowerChar_digit (c : ascii) : isDigit c = true -> lowerChar c = c.
Proof.
  unfold isDigit, lowerChar, between. intros H.
  replace ((65 <=? code c) && (code c <=? 90)) with false by lia.
  replace ((192 <=? code c) && (code c <=? 222)) with false by lia.
  reflexivity.
Qed.

Ltac digit_lits :=
  repeat match goal with
         | H : isDigit ?c = true
           |- context [ascii_eqb (Ascii ?a ?b ?d ?e ?f ?g ?h ?i) ?c] =>
             rewrite (lit_not_digit (Ascii a b d e f g h i) c eq_refl H)
         | H : isDigit ?c = true
           |- context [ascii_eqb ?c (Ascii ?a ?b ?d ?e ?f ?g ?h ?i)] =>
             rewrite (digit_not_lit (Ascii a b d e f g h i) c eq_refl H)
         end.

Lemma takeMonthName_digit (c : ascii) (s : jsstring) :
  isDigit c = true -> takeMonthName (c :: s) = None.
Proof.
  intros H. unfold takeMonthName. cbn [firstn toLowerCase map].
  rewrite (lowerChar_digit c H).
  unfold monthsShort. cbn [map str list_ascii_of_string indexOfStr streq].
  digit_lits. reflexivity.
Qed.

Ltac use_digits :=
  digit_lits;
  repeat match goal with
         | H : isDigit ?c = true |- context [isDigit ?c] => rewrite H
         | H : isDigit ?c = true |- context [takeMonthName (?c :: ?s)] =>
             rewrite (takeMonthName_digit c s H)
         end.

Ltac crunch :=
  repeat (progress
            (cbn [parseTokens takeDigits app lits map str
                  list_ascii_of_string fmt_YYYYMMDD fYear fMonth fDay];
             eval_chars; use_digits; digit_lits)).

Lemma dropDigits_app (ds : jsstring) (c : ascii) (rest : jsstring) :
  allDigits ds = true -> isDigit c = false ->
  dropDigits (ds ++ c :: rest) = c :: rest.
Proof.
  intros Hd Hc. induction ds as [|d ds IH]; cbn [app dropDigits].
  - now rewrite Hc.
  - cbn [allDigits forallb] in Hd. apply andb_true_iff in Hd as [-> Hd].
    now apply IH.
Qed.

(** Two digits at least and then a dash or a slash: not the text of a
    number. *)
Lemma isNumericString_sep (d1 d2 : ascii) (ds : jsstring) (c : ascii)
  (rest : jsstring) :
  isDigit d1 = true -> isDigit d2 = true -> allDigits ds = true ->
  isDigit c = false -> ascii_eqb c "." = false ->
  ascii_eqb c "e" = false -> ascii_eqb c "E" = false ->
  noSpace (d1 :: d2 :: ds ++ c :: rest) = true ->
  isNumericString (d1 :: d2 :: ds ++ c :: rest) = false.
Proof.
  intros H1 H2 Hds Hc Hdot He HE Hns. unfold isNumericString.
  rewrite (trim_noSpace _ Hns).
  destruct (digit_not_sign d1 H1) as [Hp Hm]. rewrite Hp, Hm. cbn [orb].
  assert (Hr : radixLiteral (d1 :: d2 :: ds ++ c :: rest) = false).
  { unfold radixLiteral. rewrite (lowerChar_digit d2 H2).
    digit_lits. cbn [andb orb].
    apply andb_false_r. }
  rewrite Hr. cbn [orb]. unfold unsignedDecimal.
  assert (Hi : streq (d1 :: d2 :: ds ++ c :: rest) (str "Infinity") = false).
  { cbn [str list_ascii_of_string streq].
    now digit_lits. }
  rewrite Hi.
  change (d1 :: d2 :: ds ++ c :: rest) with ((d1 :: d2 :: ds) ++ c :: rest).
  rewrite dropDigits_app;
    [|cbn [allDigits forallb]; now rewrite H1, H2|exact Hc].
  rewrite Hdot. cbn [app startsWithDigit exponentOrEnd].
  rewrite He, HE. cbn [orb]. apply andb_false_r.
Qed.

Lemma momentSet_valid (l : Z) (h m : JSNum) :
  getTime_isNaN (momentSet (DateAt l) h m) = false.
Proof.
  unfold momentSet. destruct h, m; reflexivity.
Qed.

(** The combiner on a text that is not taken for a serial number and that
    one of the formats accepts. *)
Lemma parseDateTime_calendar (host : Host) (s : jsstring) (t : JSValue)
  (time : TimeOfDay) (l : Z) :
  s <> [] ->
  startsWith s (str "+057342") = false ->
  negb (isNaN s) && num_lt (parseInt s) (Num 100000) = false ->
  momentStrict s dateFormats = DateAt l ->
  parseTime host t = Some time ->
  parseDateTime host (JSString s) t
  = Some (momentSet (DateAt l) (hours time) (minutes time)).
Proof.
  intros Hne Hfix Hser Hdate Ht. unfold parseDateTime.
  rewrite (parseTime_truthy host t time Ht).
  destruct s as [|c s]; [congruence|].
  cbn [truthy isEmptyStr negb orb fixInvalidDate toString bind].
  rewrite Hfix. cbn [bind]. cbv zeta. rewrite Hser, Hdate, Ht.
  cbn [isValid getTime_isNaN negb]. now rewrite momentSet_valid.
Qed.

Lemma digit_value (c : ascii) : isDigit c = true -> 0 <= digitVal c <= 9.
Proof. unfold isDigit, digitVal, between. lia. Qed.

Lemma length4 {A} (l : list A) :
  List.length l = 4%nat -> exists a b c d, l = [a; b; c; d].
Proof.
  destruct l as [|a [|b [|c [|d [|e l]]]]]; try discriminate.
  intros _. now exists a, b, c, d.
Qed.

Lemma length2 {A} (l : list A) :
  List.length l = 2%nat -> exists a b, l = [a; b].
Proof.
  destruct l as [|a [|b [|c l]]]; try discriminate.
  intros _. now exists a, b.
Qed.

(** What the list of formats makes of the numeric notations. *)
Lemma momentStrict_notations (y mo da s : jsstring) :
  List.length y = 4%nat -> List.length mo = 2%nat -> List.length da = 2%nat ->
  allDigits y = true -> allDigits mo = true -> allDigits da = true ->
  fieldsValid (DateFields (digitsVal 0 y) (digitsVal 0 mo) (digitsVal 0 da))
  = true ->
  10 <= digitsVal 0 y ->
  In s (dateNotations y mo da) ->
  s <> []
  /\ startsWith s (str "+057342") = false
  /\ negb (isNaN s) && num_lt (parseInt s) (Num 100000) = false
  /\ momentStrict s dateFormats
     = DateAt (daysFromCivil (digitsVal 0 y) (digitsVal 0 mo) (digitsVal 0 da)
               * msPerDay).
Proof.
  intros Ly Lm Ld Hy Hm Hd Hv H10 Hin.
  destruct (length4 y Ly) as (y1 & y2 & y3 & y4 & ->).
  destruct (length2 mo Lm) as (m1 & m2 & ->).
  destruct (length2 da Ld) as (d1 & d2 & ->).
  cbn [allDigits forallb] in Hy, Hm, Hd.
  repeat match goal with
         | H : _ && _ = true |- _ => apply andb_true_iff in H as [? H]
         end.
  clear Hy Hm Hd.
  assert (Sp : forall c, isDigit c = true -> isWhiteSpace c = false)
    by exact digit_not_space.
  cbn [digitsVal] in Hv, H10 |- *.
  repeat match goal with
         | H : isDigit ?c = true, H' : context [isDigit ?c] |- _ =>
             rewrite H in H'
         end.
  use_digits.
  repeat match goal with
         | H : isDigit ?c = true |- _ =>
             pose proof (digit_value c H); pose proof (Sp c H); revert H
         end.
  intros.
  unfold dateNotations in Hin. cbn [In app str list_ascii_of_string] in Hin.
  unfold isNaN.
  destruct Hin as [<-|[<-|[<-|[<-|[<-|[]]]]]].
  - split; [discriminate|].
    split; [cbn [str list_ascii_of_string startsWith]; now use_digits|].
    split.
    + rewrite isNumericString_digits;
        [|discriminate|cbn [allDigits forallb]; now use_digits].
      rewrite parseInt_digits;
        [|discriminate|cbn [allDigits forallb]; now use_digits].
      cbn [digitsVal]. use_digits. cbn [negb andb num_lt]. lia.
    + unfold dateFormats. cbn [momentStrict]. unfold momentStrict1 at 1.
      crunch. now rewrite Hv.
  - split; [discriminate|].
    split; [cbn [str list_ascii_of_string startsWith]; now use_digits|].
    split.
    + change (y1 :: y2 :: y3 :: y4 :: "-"%char :: m1 :: m2 :: "-"%char :: [d1; d2])
        with (y1 :: y2 :: [y3; y4] ++ "-"%char :: m1 :: m2 :: "-"%char :: [d1; d2]).
      rewrite isNumericString_sep; try reflexivity; try assumption.
      * cbn [allDigits forallb]. now use_digits.
      * cbn [noSpace forallb app]. eval_chars.
        repeat match goal with H : isWhiteSpace _ = false |- _ => rewrite H end.
        reflexivity.
    + unfold dateFormats. cbn [momentStrict]. unfold momentStrict1.
      crunch. now rewrite Hv.
  - split; [discriminate|].
    split; [cbn [str list_ascii_of_string startsWith]; now use_digits|].
    split.
    + change (m1 :: m2 :: "/"%char :: d1 :: d2 :: "/"%char :: [y1; y2; y3; y4])
        with (m1 :: m2 :: [] ++ "/"%char :: d1 :: d2 :: "/"%char :: [y1; y2; y3; y4]).
      rewrite isNumericString_sep; try reflexivity; try assumption.
      cbn [noSpace forallb app]. eval_chars.
      repeat match goal with H : isWhiteSpace _ = false |- _ => rewrite H end.
      reflexivity.
    + unfold dateFormats. cbn [momentStrict]. unfold momentStrict1.
      crunch. now rewrite Hv.
  - split; [discriminate|].
    split; [cbn [str list_ascii_of_string startsWith]; now use_digits|].
    split.
    + change (d1 :: d2 :: "-"%char :: m1 :: m2 :: "-"%char :: [y1; y2; y3; y4])
        with (d1 :: d2 :: [] ++ "-"%char :: m1 :: m2 :: "-"%char :: [y1; y2; y3; y4]).
      rewrite isNumericString_sep; try reflexivity; try assumption.
      cbn [noSpace forallb app]. eval_chars.
      repeat match goal with H : isWhiteSpace _ = false |- _ => rewrite H end.
      reflexivity.
    + unfold dateFormats. cbn [momentStrict]. unfold momentStrict1.
      crunch. now rewrite Hv.
  - split; [discriminate|].
    split; [cbn [str list_ascii_of_string startsWith]; now use_digits|].
    split.
    + change (y1 :: y2 :: y3 :: y4 :: "/"%char :: m1 :: m2 :: "/"%char :: [d1; d2])
        with (y1 :: y2 :: [y3; y4] ++ "/"%char :: m1 :: m2 :: "/"%char :: [d1; d2]).
      rewrite isNumericString_sep; try reflexivity; try assumption.
      * cbn [allDigits forallb]. now use_digits.
      * cbn [noSpace forallb app]. eval_chars.
        repeat match goal with H : isWhiteSpace _ = false |- _ => rewrite H end.
        reflexivity.
    + unfold dateFormats. cbn [momentStrict]. unfold momentStrict1.
      crunch. now rewrite Hv.
Qed.

(** X5.  A date of the calendar from the year 10 on, written in one of the
    five numeric notations, with a time the time parser reads as the
    numbers [h] and [mi]: the combiner returns a timestamp that shows this
    year, month and day, at [h]:[mi]. *)
Theorem parseDateTime_numeric_notations (host : Host) (y mo da s : jsstring)
  (t : JSValue) (h mi : Z) :
  List.length y = 4%nat -> List.length mo = 2%nat -> List.length da = 2%nat ->
  allDigits y = true -> allDigits mo = true -> allDigits da = true ->
  fieldsValid (DateFields (digitsVal 0 y) (digitsVal 0 mo) (digitsVal 0 da))
  = true ->
  10 <= digitsVal 0 y ->
  In s (dateNotations y mo da) ->
  parseTime host t = Some {| hours := Num h; minutes := Num mi |} ->
  exists r,
    parseDateTime host (JSString s) t = Some r
    /\ civilOfDate r = Some (digitsVal 0 y, digitsVal 0 mo, digitsVal 0 da)
    /\ getHours r = Num h /\ getMinutes r = Num mi.
Proof.
  intros Ly Lm Ld Hy Hm Hd Hv H10 Hin Ht.
  destruct (momentStrict_notations y mo da s Ly Lm Ld Hy Hm Hd Hv H10 Hin)
    as (Hne & Hfix & Hser & Hdate).
  rewrite (parseDateTime_calendar host s t _ _ Hne Hfix Hser Hdate Ht).
  cbn [hours minutes]. rewrite momentSet_midnight.
  eexists. split; [reflexivity|].
  destruct (parseTime_fields host t _ Ht) as [Hh Hmi].
  cbn [hours minutes nanOrBetween] in Hh, Hmi. unfold between in Hh, Hmi.
  cbn [civilOfDate getHours getMinutes].
  unfold msPerDay, msPerHour, msPerMinute.
  destruct (reading_of_day
              (daysFromCivil (digitsVal 0 y) (digitsVal 0 mo) (digitsVal 0 da))
              h mi 0 ltac:(lia) ltac:(lia) ltac:(lia)) as (Hday & Hh' & Hm').
  rewrite Z.add_0_r in Hday, Hh', Hm'.
  rewrite Hday, Hh', Hm'.
  now rewrite (civilFromDays_daysFromCivil _ _ _ Hv).
Qed.

(** "15-01-2024" at "09:30" is 15 January 2024, 9:30. *)
Lemma parseDateTime_notations_witness :
  exists r,
    parseDateTime utcHost (text "15-01-2024") (text "09:30") = Some r
    /\ civilOfDate r = Some (2024, 1, 15)
    /\ getHours r = Num 9 /\ getMinutes r = Num 30.
Proof.
  apply (parseDateTime_numeric_notations utcHost (str "2024") (str "01")
           (str "15") (str "15-01-2024") (text "09:30") 9 30);
    try reflexivity.
  - vm_compute. discriminate.
  - cbn. auto.
Defined.

(** X6.  On such a date the words "noon" and "midnight" both give the
    timestamp of 0:00 at the start of the day: the hour the time parser
    returns for them is [NaN], and moment leaves the hour of the parsed
    date, which is 0, as it is. *)
Theorem parseDateTime_noon_at_start_of_day (host : Host) (y mo da s : jsstring) :
  List.length y = 4%nat -> List.length mo = 2%nat -> List.length da = 2%nat ->
  allDigits y = true -> allDigits mo = true -> allDigits da = true ->
  fieldsValid (DateFields (digitsVal 0 y) (digitsVal 0 mo) (digitsVal 0 da))
  = true ->
  10 <= digitsVal 0 y ->
  In s (dateNotations y mo da) ->
  let midnight :=
    DateAt (daysFromCivil (digitsVal 0 y) (digitsVal 0 mo) (digitsVal 0 da)
            * msPerDay) in
  parseDateTime host (JSString s) (text "noon") = Some midnight
  /\ parseDateTime host (JSString s) (text "midnight") = Some midnight
  /\ getHours midnight = Num 0 /\ getMinutes midnight = Num 0.
Proof.
  intros Ly Lm Ld Hy Hm Hd Hv H10 Hin midnight.
  destruct (momentStrict_notations y mo da s Ly Lm Ld Hy Hm Hd Hv H10 Hin)
    as (Hne & Hfix & Hser & Hdate).
  assert (Hnoon : parseTime host (text "noon")
                  = Some {| hours := NaN; minutes := Num 0 |})
    by (vm_compute; reflexivity).
  assert (Hmid : parseTime host (text "midnight")
                 = Some {| hours := NaN; minutes := Num 0 |})
    by (vm_compute; reflexivity).
  rewrite (parseDateTime_calendar host s _ _ _ Hne Hfix Hser Hdate Hnoon).
  rewrite (parseDateTime_calendar host s _ _ _ Hne Hfix Hser Hdate Hmid).
  cbn [hours minutes]. rewrite momentSet_midnight_minutes.
  unfold midnight, msPerMinute. rewrite Z.mul_0_l, Z.add_0_r.
  split; [reflexivity|]. split; [reflexivity|].
  cbn [getHours getMinutes]. unfold msPerDay, msPerHour, msPerMinute.
  pose proof (reading_of_day
                (daysFromCivil (digitsVal 0 y) (digitsVal 0 mo) (digitsVal 0 da))
                0 0 0 ltac:(lia) ltac:(lia) ltac:(lia)) as R.
  cbv zeta in R.
  replace (daysFromCivil (digitsVal 0 y) (digitsVal 0 mo) (digitsVal 0 da)
           * 86400000 + 0 * 3600000 + 0 * 60000 + 0)
    with (daysFromCivil (digitsVal 0 y) (digitsVal 0 mo) (digitsVal 0 da)
          * 86400000) in R by ring.
  destruct R as (_ & Hh' & Hm'). now rewrite Hh', Hm'.
Qed.

(** "20240115" at "noon" is 15 January 2024, 0:00. *)
Lemma parseDateTime_noon_witness :
  parseDateTime utcHost (text "20240115") (text "noon")
  = Some (DateAt (daysFromCivil 2024 1 15 * msPerDay))
  /\ getHours (DateAt (daysFromCivil 2024 1 15 * msPerDay)) = Num 0.
Proof.
  destruct (parseDateTime_noon_at_start_of_day utcHost (str "2024") (str "01")
              (str "15") (str "20240115")) as (H1 & _ & H2 & _);
    try reflexivity.
  - vm_compute. discriminate.
  - cbn. auto.
  - split; [exact H1|exact H2].
Defined.

(* ================================================================= *)
(** ** Dates that are [Date] objects and the legacy text *)

Lemma zeroFillCheck_year :
  ltac:(let t := eval unfold zeroFillCheck in (zeroFillCheck 100 4 = true) in
        exact t).
Proof. vm_compute. reflexivity. Qed.

Lemma zeroFillCheck_two :
  ltac:(let t := eval unfold zeroFillCheck in (zeroFillCheck 1 2 = true) in
        exact t).
Proof. vm_compute. reflexivity. Qed.

Lemma zeroFill_year (v : Z) :
  0 <= v <= 9999 ->
  List.length (zeroFill v 4) = 4%nat
  /\ allDigits (zeroFill v 4) = true /\ digitsVal 0 (zeroFill v 4) = v.
Proof.
  intros H.
  assert (Ha : In (v / 100) (zrange 0 100)).
  { apply in_zrange.
    split; [apply Z.div_pos; lia|apply Z.div_lt_upper_bound; lia]. }
  assert (Hb : In (v mod 100) (zrange 0 100)).
  { apply in_zrange. pose proof (Z.mod_pos_bound v 100). lia. }
  assert (He : v / 100 * 100 + v mod 100 = v).
  { rewrite (Z.div_mod v 100) at 3; lia. }
  pose proof zeroFillCheck_year as C.
  rewrite forallb_forall in C. specialize (C _ Ha).
  rewrite forallb_forall in C. specialize (C _ Hb).
  cbv beta zeta in C. rewrite He in C.
  apply andb_true_iff in C as [C Hv]. apply andb_true_iff in C as [Hl Hd].
  apply Nat.eqb_eq in Hl. apply Z.eqb_eq in Hv. auto.
Qed.

Lemma zeroFill_two (v : Z) :
  0 <= v <= 99 ->
  List.length (zeroFill v 2) = 2%nat
  /\ allDigits (zeroFill v 2) = true /\ digitsVal 0 (zeroFill v 2) = v.
Proof.
  intros H.
  assert (Ha : In 0 (zrange 0 1)) by (cbn; auto).
  assert (Hb : In v (zrange 0 100)) by (apply in_zrange; lia).
  pose proof zeroFillCheck_two as C.
  rewrite forallb_forall in C. specialize (C _ Ha).
  rewrite forallb_forall in C. specialize (C _ Hb).
  cbv beta zeta in C. rewrite Z.mul_0_l, Z.add_0_l in C.
  apply andb_true_iff in C as [C Hv]. apply andb_true_iff in C as [Hl Hd].
  apply Nat.eqb_eq in Hl. apply Z.eqb_eq in Hv. auto.
Qed.

Lemma daysInMonth_le_31 (y m : Z) : daysInMonth y m <= 31.
Proof.
  unfold daysInMonth.
  destruct (m =? 2); [destruct (isLeapYear y); lia|].
  destruct ((m =? 4) || (m =? 6) || (m =? 9) || (m =? 11)); lia.
Qed.

(** The text moment writes for a date, read back by the combiner: the
    midnight of the day of the date, with the time set. *)
Lemma parseDateTime_of_date_text (host : Host) (l : Z) (t : JSValue)
  (time : TimeOfDay) :
  10 <= fst (fst (civilFromDays (l / msPerDay))) <= 9999 ->
  parseTime host t = Some time ->
  parseDateTime host (JSString (formatYYYYMMDD (DateAt l))) t
  = Some (momentSet (DateAt (l / msPerDay * msPerDay))
            (hours time) (minutes time)).
Proof.
  intros Hy Ht. unfold formatYYYYMMDD. cbn [civilOfDate].
  pose proof (civilFromDays_inv (l / msPerDay)) as Hc.
  destruct (civilFromDays (l / msPerDay)) as [[y m] d].
  cbn [fst] in Hy. destruct Hc as [Hv Hback].
  pose proof Hv as Hv'. unfold fieldsValid, between in Hv'.
  cbn [fYear fMonth fDay] in Hv'.
  pose proof (daysInMonth_le_31 y m) as H31.
  destruct (zeroFill_year y ltac:(lia)) as (Ly & Dy & Vy).
  destruct (zeroFill_two m ltac:(lia)) as (Lm & Dm & Vm).
  destruct (zeroFill_two d ltac:(lia)) as (Ld & Dd & Vd).
  destruct (momentStrict_notations (zeroFill y 4) (zeroFill m 2) (zeroFill d 2)
              (zeroFill y 4 ++ zeroFill m 2 ++ zeroFill d 2)
              Ly Lm Ld Dy Dm Dd)
    as (Hne & Hfix & Hser & Hdate).
  - now rewrite Vy, Vm, Vd.
  - rewrite Vy. lia.
  - left. reflexivity.
  - rewrite Vy, Vm, Vd, Hback in Hdate.
    exact (parseDateTime_calendar host _ t time _ Hne Hfix Hser Hdate Ht).
Qed.

(** Setting a time of day on a midnight stays on the day. *)
Lemma momentSet_same_day (k : Z) (h m : JSNum) :
  nanOrBetween 0 23 h = true -> nanOrBetween 0 59 m = true ->
  exists ls,
    momentSet (DateAt (k * msPerDay)) h m = DateAt ls /\ ls / msPerDay = k.
Proof.
  intros Hh Hm. destruct h as [|h], m as [|m];
    cbn [nanOrBetween] in Hh, Hm; unfold between in Hh, Hm.
  - exists (k * msPerDay). split; [reflexivity|].
    unfold msPerDay. apply Z.div_mul. lia.
  - rewrite momentSet_midnight_minutes. eexists. split; [reflexivity|].
    unfold msPerDay, msPerMinute.
    pose proof (reading_of_day k 0 m 0 ltac:(lia) ltac:(lia) ltac:(lia)) as R.
    cbv zeta in R.
    replace (k * 86400000 + 0 * 3600000 + m * 60000 + 0)
      with (k * 86400000 + m * 60000) in R by ring.
    apply R.
  - unfold momentSet, setHours1. cbn [num_isNaN]. eexists.
    split; [reflexivity|]. unfold msPerDay, msPerHour.
    rewrite Z.div_mul by lia.
    replace (k * 86400000) with (k * 24 * 3600000) at 2 by ring.
    rewrite Z.mod_mul by lia.
    pose proof (reading_of_day k h 0 0 ltac:(lia) ltac:(lia) ltac:(lia)) as R.
    cbv zeta in R.
    replace (k * 86400000 + h * 3600000 + 0 * 60000 + 0)
      with (k * 86400000 + h * 3600000 + 0) in R by ring.
    apply R.
  - rewrite momentSet_midnight. eexists. split; [reflexivity|].
    unfold msPerDay, msPerHour, msPerMinute.
    pose proof (reading_of_day k h m 0 ltac:(lia) ltac:(lia) ltac:(lia)) as R.
    cbv zeta in R. rewrite Z.add_0_r in R. apply R.
Qed.

(** X7.  A spreadsheet row whose Section Date cell is a [Date] object of
    a year from 10 to 9999: every record the row contributes starts at a
    valid timestamp of the calendar day the cell shows and ends, after the
    start, on that day or the next one. *)
Theorem excel_date_cell_keeps_the_day (host : Host) (headerRow : list jsstring)
  (row : list JSValue) (e : EventRecord) (l : Z) :
  getExcelField headerRow row "Section Date" = JSDateObj (DateAt l) ->
  10 <= fst (fst (civilFromDays (l / msPerDay))) <= 9999 ->
  In e (processExcelRow host headerRow row) ->
  exists ls le,
    start e = DateAt ls /\ end_ e = DateAt le
    /\ civilOfDate (start e) = civilOfDate (DateAt l)
    /\ (le / msPerDay = l / msPerDay \/ le / msPerDay = l / msPerDay + 1)
    /\ ls < le.
Proof.
  intros Hcell Hy Hin.
  destruct (processExcelRow_inv host headerRow row e Hin)
    as (sd & s & en & Hsd & _ & Hs & Hen & Hadj & Hstart).
  rewrite Hcell in Hsd. cbn [sectionDateOf] in Hsd. injection Hsd as <-.
  destruct (parseDateTime_time host _ _ _ Hs) as [_ [t1 Ht1]].
  destruct (parseDateTime_time host _ _ _ Hen) as [_ [t2 Ht2]].
  rewrite (parseDateTime_of_date_text host l _ t1 Hy Ht1) in Hs.
  rewrite (parseDateTime_of_date_text host l _ t2 Hy Ht2) in Hen.
  destruct (parseTime_fields host _ _ Ht1) as [Hh1 Hm1].
  destruct (parseTime_fields host _ _ Ht2) as [Hh2 Hm2].
  destruct (momentSet_same_day (l / msPerDay) _ _ Hh1 Hm1) as (ls & Es & Ds).
  destruct (momentSet_same_day (l / msPerDay) _ _ Hh2 Hm2) as (le & Ee & De).
  rewrite Es in Hs. rewrite Ee in Hen.
  injection Hs as <-. injection Hen as <-.
  unfold adjustEnd in Hadj. cbn [date_ge date_le addDays date_lt] in Hadj.
  exists ls. rewrite Hstart. cbn [civilOfDate]. rewrite Ds.
  destruct (le <=? ls) eqn:Hle.
  - destruct (ls <? le + 1 * msPerDay) eqn:Hlt; [|discriminate].
    injection Hadj as <-. exists (le + 1 * msPerDay).
    repeat split; try reflexivity.
    + right. unfold msPerDay in *. rewrite day_shift. lia.
    + lia.
  - injection Hadj as <-. exists le.
    repeat split; try reflexivity; [now left|lia].
Qed.

(** The row of the example sheet with a date cell for 15 January 2024. *)
Lemma excel_date_cell_witness :
  exists e ls,
    In e (processExcelRow utcHost numberedHeader datedRow)
    /\ start e = DateAt ls
    /\ civilOfDate (start e) = Some (2024, 1, 15).
Proof.
  destruct (processExcelRow utcHost numberedHeader datedRow) as [|e r] eqn:E;
    [vm_compute in E; discriminate|].
  destruct (excel_date_cell_keeps_the_day utcHost numberedHeader datedRow e
              (daysFromCivil 2024 1 15 * msPerDay))
    as (ls & le & Hs & _ & Hc & _).
  - reflexivity.
  - vm_compute. split; discriminate.
  - rewrite E. now left.
  - exists e, ls. split; [now left|]. split; [exact Hs|].
    rewrite Hc. vm_compute. reflexivity.
Defined.

(** X8.  A date text that begins with "+057342" is handled as the text
    with "2023" in place of these characters is: by the combiner, for
    every time value, and by the guard of the rows. *)
Theorem legacy_prefix_reads_as_2023 (host : Host) (rest : jsstring)
  (t : JSValue) :
  parseDateTime host (JSString (str "+057342" ++ rest)) t
  = parseDateTime host (JSString (str "2023" ++ rest)) t
  /\ invalidDateFormat (str "+057342" ++ rest)
     = invalidDateFormat (str "2023" ++ rest).
Proof.
  split.
  - unfold parseDateTime.
    cbn [str list_ascii_of_string app truthy isEmptyStr negb orb
         fixInvalidDate toString bind startsWith skipn].
    eval_chars. cbn [andb].
    replace (startsWith rest []) with true by (destruct rest; reflexivity).
    reflexivity.
  - destruct (existsb isLetter rest) eqn:Hl.
    + rewrite !invalidDateFormat_letter; [reflexivity| |];
        cbn [str list_ascii_of_string app existsb]; rewrite Hl;
        now rewrite !orb_true_r.
    + unfold invalidDateFormat. rewrite !test_letterPattern.
      cbn [str list_ascii_of_string app existsb]. rewrite Hl.
      reflexivity.
Qed.

(* ================================================================= *)
(** ** Dates with the name of a month *)

Lemma trimStart_cons (c : ascii) (t : jsstring) :
  isWhiteSpace c = false -> trimStart (c :: t) = c :: t.
Proof. intros H. cbn [trimStart]. now rewrite H. Qed.

(** A text that neither begins nor ends with white space is trimmed
    already. *)
Lemma trim_ends (s : jsstring) :
  trimStart s = s -> trimStart (rev s) = rev s -> trim s = s.
Proof.
  intros H1 H2. unfold trim, trimEnd. rewrite H1, H2. apply rev_involutive.
Qed.

(** A text that begins with a letter holds no number for [parseInt]. *)
Lemma parseInt_not_digit (c : ascii) (t : jsstring) :
  isWhiteSpace c = false -> isDigit c = false ->
  ascii_eqb c "-" = false -> ascii_eqb c "+" = false ->
  parseInt (c :: t) = NaN.
Proof.
  intros Hs Hd Hm Hp. unfold parseInt. rewrite (trimStart_cons c t Hs).
  now rewrite Hm, Hp, Hd.
Qed.

(** Two digits and then something else than a digit, a point or an
    exponent: not the text of a number, with white space inside or
    without. *)
Lemma isNumericString_two_digits (d1 d2 c : ascii) (rest : jsstring) :
  isDigit d1 = true -> isDigit d2 = true ->
  isDigit c = false -> ascii_eqb c "." = false ->
  ascii_eqb c "e" = false -> ascii_eqb c "E" = false ->
  trim (d1 :: d2 :: c :: rest) = d1 :: d2 :: c :: rest ->
  isNumericString (d1 :: d2 :: c :: rest) = false.
Proof.
  intros H1 H2 Hc Hdot He HE Htrim. unfold isNumericString. rewrite Htrim.
  destruct (digit_not_sign d1 H1) as [Hp Hm]. rewrite Hp, Hm. cbn [orb].
  assert (Hr : radixLiteral (d1 :: d2 :: c :: rest) = false).
  { unfold radixLiteral. rewrite (lowerChar_digit d2 H2).
    digit_lits. cbn [andb orb]. apply andb_false_r. }
  rewrite Hr. cbn [orb]. unfold unsignedDecimal.
  assert (Hi : streq (d1 :: d2 :: c :: rest) (str "Infinity") = false).
  { cbn [str list_ascii_of_string streq]. now digit_lits. }
  rewrite Hi. cbn [dropDigits]. rewrite H1, H2, Hc, Hdot.
  cbn [startsWithDigit exponentOrEnd]. rewrite He, HE. cbn [orb].
  apply andb_false_r.
Qed.

(** The name of a month: three letters that [takeMonthName] reads as the
    number of the month. *)
Lemma namedMonths_shape (name : jsstring) (mo : Z) :
  In (name, mo) namedMonths ->
  exists n1 n2 n3,
    name = [n1; n2; n3]
    /\ isLetter n1 = true /\ isDigit n1 = false /\ isWhiteSpace n1 = false
    /\ ascii_eqb n1 "-" = false /\ ascii_eqb n1 "+" = false
    /\ forall rest, takeMonthName (n1 :: n2 :: n3 :: rest) = Some (mo, rest).
Proof.
  unfold namedMonths. cbn [map fst snd In str list_ascii_of_string].
  intros H.
  repeat (destruct H as [H|H];
          [injection H as <- <-; do 3 eexists;
           repeat split; reflexivity|]).
  contradiction.
Qed.

(** What the list of formats makes of the named-month notations, and what
    the test for a serial number makes of them. *)
Lemma momentStrict_named (name y da s : jsstring) (mo : Z) :
  In (name, mo) namedMonths ->
  List.length y = 4%nat -> List.length da = 2%nat ->
  allDigits y = true -> allDigits da = true ->
  fieldsValid (DateFields (digitsVal 0 y) mo (digitsVal 0 da)) = true ->
  In s (namedMonthNotations name y da) ->
  s <> []
  /\ startsWith s (str "+057342") = false
  /\ negb (isNaN s) && num_lt (parseInt s) (Num 100000) = false
  /\ momentStrict s dateFormats
     = DateAt (daysFromCivil (digitsVal 0 y) mo (digitsVal 0 da) * msPerDay)
  /\ existsb isLetter s = true.
Proof.
  intros Hname Ly Ld Hy Hd Hv Hin.
  destruct (namedMonths_shape name mo Hname)
    as (n1 & n2 & n3 & -> & Hletter & Hnd & Hns & Hminus & Hplus & Hmonth).
  destruct (length4 y Ly) as (y1 & y2 & y3 & y4 & ->).
  destruct (length2 da Ld) as (d1 & d2 & ->).
  cbn [allDigits forallb] in Hy, Hd.
  repeat match goal with
         | H : _ && _ = true |- _ => apply andb_true_iff in H as [? H]
         end.
  clear Hy Hd.
  assert (Sp : forall c, isDigit c = true -> isWhiteSpace c = false)
    by exact digit_not_space.
  cbn [digitsVal] in Hv |- *.
  repeat match goal with
         | H : isDigit ?c = true, H' : context [isDigit ?c] |- _ =>
             rewrite H in H'
         end.
  use_digits.
  repeat match goal with
         | H : isDigit ?c = true |- _ =>
             pose proof (digit_value c H); pose proof (Sp c H); revert H
         end.
  intros.
  unfold namedMonthNotations in Hin.
  cbn [In app str list_ascii_of_string] in Hin.
  destruct Hin as [<-|[<-|[]]].
  - split; [discriminate|].
    split.
    { cbn [str list_ascii_of_string startsWith]. unfold ascii_eqb in *.
      rewrite Z.eqb_sym. now rewrite Hplus. }
    split; [rewrite (parseInt_not_digit n1 _ Hns Hnd Hminus Hplus);
            apply andb_false_r|].
    split.
    + unfold dateFormats. cbn [momentStrict]. unfold momentStrict1.
      repeat (progress (crunch; rewrite ?Hnd, ?Hmonth)).
      now rewrite Hv.
    + cbn [existsb]. now rewrite Hletter.
  - split; [discriminate|].
    split; [cbn [str list_ascii_of_string startsWith]; now use_digits|].
    split.
    { unfold isNaN. rewrite isNumericString_two_digits;
        [reflexivity|assumption|assumption|reflexivity|reflexivity
        |reflexivity|reflexivity|].
      apply trim_ends; [now apply trimStart_cons|].
      cbn [rev app]. now apply trimStart_cons. }
    split.
    + unfold dateFormats. cbn [momentStrict]. unfold momentStrict1.
      repeat (progress (crunch; rewrite ?Hnd, ?Hmonth)).
      now rewrite Hv.
    + cbn [existsb]. rewrite Hletter. now rewrite !orb_true_r.
Qed.

(** C4.  The guard of the two callbacks against the named-month formats
    of the combiner.  A row whose Section Date holds a letter is skipped
    by both callbacks, whatever its times: no text with a letter is valid
    under [YYYYMMDD], so the second test of the guard never lets one
    through.  The combiner behind the guard reads both named-month
    notations of its list of formats: for every date of the calendar
    written as MMM DD, YYYY or DD MMM YYYY and every time read as the
    numbers [h]:[mi] it returns the timestamp of that day at [h]:[mi].
    So every row with such a date is skipped although its date and times
    are read. *)
Theorem date_with_letter_skipped (host : Host) :
  (forall row,
      existsb isLetter (getField row "Section Date") = true ->
      processCSVRow host row = [])
  /\ (forall headerRow row sectionDate,
      sectionDateOf host (getExcelField headerRow row "Section Date")
        = Normal sectionDate ->
      existsb isLetter sectionDate = true ->
      processExcelRow host headerRow row = [])
  /\ (forall name mo y da s t h mi,
      In (name, mo) namedMonths ->
      List.length y = 4%nat -> List.length da = 2%nat ->
      allDigits y = true -> allDigits da = true ->
      fieldsValid (DateFields (digitsVal 0 y) mo (digitsVal 0 da)) = true ->
      In s (namedMonthNotations name y da) ->
      parseTime host t = Some {| hours := Num h; minutes := Num mi |} ->
      (exists r,
          parseDateTime host (JSString s) t = Some r
          /\ civilOfDate r = Some (digitsVal 0 y, mo, digitsVal 0 da)
          /\ getHours r = Num h /\ getMinutes r = Num mi)
      /\ invalidDateFormat s = true
      /\ (forall row,
            getField row "Section Date" = s -> processCSVRow host row = [])).
Proof.
  assert (Hcsv : forall row,
             existsb isLetter (getField row "Section Date") = true ->
             processCSVRow host row = []).
  { intros row Hletter.
    destruct (processCSVRow host row) as [|e l] eqn:Hrow; [reflexivity|].
    destruct (processCSVRow_inv host row e) as (s & en & _ & Hguard & _).
    { rewrite Hrow. left. reflexivity. }
    rewrite (invalidDateFormat_letter _ Hletter) in Hguard. discriminate. }
  split; [exact Hcsv|]. split.
  - intros headerRow row sectionDate Hdate Hletter.
    destruct (processExcelRow host headerRow row) as [|e l] eqn:Hrow;
      [reflexivity|].
    destruct (processExcelRow_inv host headerRow row e)
      as (sd & s & en & Hdate' & Hguard & _).
    { rewrite Hrow. left. reflexivity. }
    rewrite Hdate in Hdate'. injection Hdate' as <-.
    rewrite (invalidDateFormat_letter _ Hletter) in Hguard. discriminate.
  - intros name mo y da s t h mi Hname Ly Ld Hy Hd Hv Hin Ht.
    destruct (momentStrict_named name y da s mo Hname Ly Ld Hy Hd Hv Hin)
      as (Hne & Hfix & Hser & Hdate & Hletter).
    split; [|split].
    + rewrite (parseDateTime_calendar host s t _ _ Hne Hfix Hser Hdate Ht).
      cbn [hours minutes]. rewrite momentSet_midnight.
      eexists. split; [reflexivity|].
      destruct (parseTime_fields host t _ Ht) as [Hh Hmi].
      cbn [hours minutes nanOrBetween] in Hh, Hmi.
      unfold between in Hh, Hmi.
      cbn [civilOfDate getHours getMinutes].
      unfold msPerDay, msPerHour, msPerMinute.
      destruct (reading_of_day
                  (daysFromCivil (digitsVal 0 y) mo (digitsVal 0 da))
                  h mi 0 ltac:(lia) ltac:(lia) ltac:(lia))
        as (Hday & Hh' & Hm').
      rewrite Z.add_0_r in Hday, Hh', Hm'.
      rewrite Hday, Hh', Hm'.
      now rewrite (civilFromDays_daysFromCivil _ _ _ Hv).
    + now apply invalidDateFormat_letter.
    + intros row Hrow. apply Hcsv. now rewrite Hrow.
Qed.

(** The row of 15 January 2024, written "Jan 15, 2024", from 9:00 to
    10:00: the combiner reads the date with the start time, and the row
    is skipped. *)
Lemma date_with_letter_witness :
  (exists r,
      parseDateTime utcHost (text "Jan 15, 2024") (text "09:00") = Some r
      /\ civilOfDate r = Some (2024, 1, 15)
      /\ getHours r = Num 9 /\ getMinutes r = Num 0)
  /\ processCSVRow utcHost (row3 "Jan 15, 2024" "09:00" "10:00") = [].
Proof.
  destruct (proj2 (proj2 (date_with_letter_skipped utcHost))
              (str "Jan") 1 (str "2024") (str "15") (str "Jan 15, 2024")
              (text "09:00") 9 0)
    as (Hread & _ & Hskip).
  - left. reflexivity.
  - reflexivity.
  - reflexivity.
  - reflexivity.
  - reflexivity.
  - reflexivity.
  - left. reflexivity.
  - vm_compute. reflexivity.
  - split; [exact Hread|]. apply Hskip. reflexivity.
Defined.

(* ================================================================= *)
(** ** Rows: the cells a record needs *)

Lemma sectionDateOf_defined (host : Host) (v : JSValue) (s : jsstring) :
  sectionDateOf host v = Normal s -> v <> JSUndefined.
Proof. intros H ->. discriminate. Qed.

Lemma getExcelField_found (headerRow : list jsstring) (row : list JSValue)
  (name : string) :
  getExcelField headerRow row name <> JSUndefined ->
  getExcelField headerRow row name <> JSString [] ->
  exists i,
    indexOf (toLowerCase (str name)) headerRow = Some i
    /\ (i < List.length row)%nat
    /\ nth i row JSUndefined = getExcelField headerRow row name.
Proof.
  unfold getExcelField.
  destruct (indexOf (toLowerCase (str name)) headerRow) as [i|];
    [|congruence].
  intros Hu _. exists i. split; [reflexivity|]. split; [|reflexivity].
  destruct (Nat.lt_ge_cases i (List.length row)) as [H|H]; [exact H|].
  now rewrite nth_overflow in Hu.
Qed.

Lemma truthy_defined (v : JSValue) :
  truthy v = true -> v <> JSUndefined /\ v <> JSString [].
Proof. destruct v as [| | |s|]; try discriminate; try (split; discriminate).
  destruct s; [discriminate|]. split; discriminate.
Qed.

(** X9.  A spreadsheet row contributes a record only if the header has
    the three columns Section Date, Start Time and End Time, the row is
    long enough to have a cell in each, the cell of the date is not empty
    and the cells of the two times are not empty, zero or false. *)
Theorem excel_record_needs_its_cells (host : Host) (headerRow : list jsstring)
  (row : list JSValue) (e : EventRecord) :
  In e (processExcelRow host headerRow row) ->
  (exists i,
      indexOf (str "section date") headerRow = Some i
      /\ (i < List.length row)%nat
      /\ nth i row JSUndefined <> JSUndefined
      /\ nth i row JSUndefined <> JSString [])
  /\ (exists i,
      indexOf (str "start time") headerRow = Some i
      /\ (i < List.length row)%nat
      /\ truthy (nth i row JSUndefined) = true)
  /\ (exists i,
      indexOf (str "end time") headerRow = Some i
      /\ (i < List.length row)%nat
      /\ truthy (nth i row JSUndefined) = true).
Proof.
  intros Hin.
  destruct (processExcelRow_inv host headerRow row e Hin)
    as (sd & s & en & Hsd & _ & Hs & Hen & _).
  destruct (parseDateTime_time host _ _ _ Hs) as [Hd [t1 Ht1]].
  destruct (parseDateTime_time host _ _ _ Hen) as [_ [t2 Ht2]].
  apply parseTime_truthy in Ht1, Ht2.
  split; [|split].
  - assert (Hne : getExcelField headerRow row "Section Date" <> JSString []).
    { intros E. rewrite E in Hsd. cbn in Hsd. injection Hsd as <-.
      discriminate. }
    destruct (getExcelField_found headerRow row "Section Date"
                (sectionDateOf_defined host _ _ Hsd) Hne) as (i & Hi & Hl & Hn).
    exists i. rewrite Hn. repeat split; try assumption.
    exact (sectionDateOf_defined host _ _ Hsd).
  - destruct (truthy_defined _ Ht1) as [Hu Hne].
    destruct (getExcelField_found headerRow row "Start Time" Hu Hne)
      as (i & Hi & Hl & Hn).
    exists i. rewrite Hn. auto.
  - destruct (truthy_defined _ Ht2) as [Hu Hne].
    destruct (getExcelField_found headerRow row "End Time" Hu Hne)
      as (i & Hi & Hl & Hn).
    exists i. rewrite Hn. auto.
Qed.

(** The row of the example sheet with the date in a cell. *)
Lemma excel_record_cells_witness :
  exists e i,
    In e (processExcelRow utcHost numberedHeader datedRow)
    /\ indexOf (str "start time") numberedHeader = Some i
    /\ (i < List.length datedRow)%nat.
Proof.
  destruct (processExcelRow utcHost numberedHeader datedRow) as [|e r] eqn:E;
    [vm_compute in E; discriminate|].
  assert (Hin : In e (processExcelRow utcHost numberedHeader datedRow))
    by (rewrite E; now left).
  destruct (excel_record_needs_its_cells utcHost numberedHeader datedRow e Hin)
    as (_ & (i & Hi & Hl & _) & _).
  exists e, i. split; [left; reflexivity|]. split; assumption.
Defined.

(** *** Fields of a CSV row that are not there *)

Lemma getField_absent (row : csvRow) (name : string) :
  lacksColumn row name = true ->
  getField row name
  = match property (str "undefined") row with
    | Some v => v
    | None => []
    end.
Proof.
  unfold lacksColumn, getField. intros H.
  assert (F : find (fun key => streq (toLowerCase key) (toLowerCase (str name)))
                   (map fst row) = None).
  { induction (map fst row) as [|k ks IH]; [reflexivity|].
    cbn [forallb find] in *. apply andb_true_iff in H as [Hk H].
    apply negb_true_iff in Hk. rewrite Hk. auto. }
  now rewrite F.
Qed.

(** X10.  A field of a CSV row whose name is no key of the row, up to
    case, is read from the column named "undefined" when the row has one,
    and is the empty text otherwise: such a column stands for every column
    that is not there. *)
Theorem getField_falls_back_on_undefined (row : csvRow) (name : string) :
  lacksColumn row name = true ->
  (forall v, property (str "undefined") row = Some v -> getField row name = v)
  /\ (property (str "undefined") row = None -> getField row name = []).
Proof.
  intros H. rewrite (getField_absent row name H).
  split; [intros v ->|intros ->]; reflexivity.
Qed.

(** The date of a row without a Section Date column, read from the column
    "undefined"; the row gives a record on that day, whose title, place
    and description come from that column too. *)
Lemma getField_undefined_witness :
  getField undefinedColumnRow "Section Date" = str "20240115"
  /\ exists e,
       processCSVRow utcHost undefinedColumnRow = [e]
       /\ civilOfDate (start e) = Some (2024, 1, 15).
Proof.
  split.
  - apply (proj1 (getField_falls_back_on_undefined undefinedColumnRow
                    "Section Date" eq_refl)).
    reflexivity.
  - exists {| title := text "20240115";
              start := DateAt (daysFromCivil 2024 1 15 * msPerDay
                               + 9 * msPerHour);
              end_ := DateAt (daysFromCivil 2024 1 15 * msPerDay
                              + 10 * msPerHour);
              desc := str "20240115 - 20240115 - 20240115";
              location := text "20240115";
              learnerGroup := str "Ungrouped" |}.
    split; vm_compute; reflexivity.
Defined.

(* ================================================================= *)
(** ** Slots of the calendar *)

(** An hour that begins at a full hour is inside a day, or it is the
    hour from 23:00 on and ends with the day. *)
Lemma hour_in_day (l : Z) :
  let s := l / 3600000 * 3600000 in
  s <= l < s + 3600000
  /\ (((s mod 86400000) / 3600000 <> 23
       /\ (s + 3600000) / 86400000 = s / 86400000)
      \/ ((s mod 86400000) / 3600000 = 23
          /\ (s + 3600000) / 86400000 = s / 86400000 + 1
          /\ s / 86400000 * 86400000 + 86400000 = s + 3600000)).
Proof.
  intros s.
  pose proof (Z.div_mod l 3600000 ltac:(lia)) as Hl.
  pose proof (Z.mod_pos_bound l 3600000 ltac:(lia)) as Hlr.
  split; [unfold s; lia|].
  set (k := l / 3600000) in *.
  pose proof (Z.div_mod k 24 ltac:(lia)) as Hk.
  pose proof (Z.mod_pos_bound k 24 ltac:(lia)) as Hj.
  set (q := k / 24) in *. set (j := k mod 24) in *.
  assert (Hs : s = q * 86400000 + j * 3600000) by (unfold s; lia).
  destruct (day_split q (j * 3600000) ltac:(lia)) as [Hq Hr].
  rewrite <- Hs in Hq, Hr. rewrite Hq, Hr.
  rewrite Z.div_mul by lia.
  destruct (Z.eq_dec j 23) as [E|E].
  - right. split; [exact E|].
    assert (Hn : s + 3600000 = (q + 1) * 86400000) by lia.
    split; [|lia]. rewrite Hn. apply Z.div_mul. lia.
  - left. split; [exact E|].
    replace (s + 3600000) with (q * 86400000 + (j + 1) * 3600000)
      by lia.
    apply (day_split q ((j + 1) * 3600000)). lia.
Qed.

Lemma dayOfMonth_next (z : Z) :
  num_ne (dayOfMonth (DateAt ((z + 1) * msPerDay)))
         (dayOfMonth (DateAt (z * msPerDay))) = true.
Proof.
  unfold dayOfMonth, civilOfDate, msPerDay. rewrite !Z.div_mul by lia.
  pose proof (next_day_of_month z) as H.
  destruct (civilFromDays (z + 1)) as [[y' m'] d'].
  destruct (civilFromDays z) as [[y m] d]. cbn [snd] in H.
  unfold num_ne, num_eq. apply negb_true_iff. now apply Z.eqb_neq.
Qed.

Lemma dayOfMonth_same_day (a b : Z) :
  a / msPerDay = b / msPerDay ->
  num_ne (dayOfMonth (DateAt a)) (dayOfMonth (DateAt b)) = false.
Proof.
  unfold dayOfMonth, civilOfDate. intros ->.
  destruct (civilFromDays (b / msPerDay)) as [[y m] d].
  unfold num_ne, num_eq. now rewrite Z.eqb_refl.
Qed.

Lemma dayOfMonth_day (a : Z) :
  dayOfMonth (DateAt a) = dayOfMonth (DateAt (a / msPerDay * msPerDay)).
Proof.
  unfold dayOfMonth, civilOfDate, msPerDay. now rewrite Z.div_mul by lia.
Qed.

(** The slot a double click opens. *)
Lemma double_click_slot (st : UIState) (l : Z) :
  let s := l / msPerHour * msPerHour in
  let e := if (s mod msPerDay) / msPerHour =? 23
           then s / msPerDay * msPerDay + (msPerDay - 1)
           else s + msPerHour in
  handleDateDoubleClick st (DateAt l)
  = ({| events := events st;
        selectedSlot := Some (DateAt s, DateAt e);
        selectedEvent := selectedEvent st |}, [])
  /\ s <= l < s + msPerHour
  /\ s < e <= s + msPerHour
  /\ e / msPerDay = s / msPerDay.
Proof.
  unfold handleDateDoubleClick. cbn [startOfHour addHours endOfDay].
  unfold msPerHour, msPerDay.
  destruct (hour_in_day l) as [Hl Hday]. cbv zeta in Hl, Hday |- *.
  replace (l / 3600000 * 3600000 + 1 * 3600000)
    with (l / 3600000 * 3600000 + 3600000) by ring.
  revert Hl Hday. generalize (l / 3600000 * 3600000) as s. intros s Hl Hday.
  destruct Hday as [[Hhour Hsame]|(Hhour & Hnext & Hend)].
  - replace (s mod 86400000 / 3600000 =? 23) with false by lia.
    rewrite (dayOfMonth_same_day (s + 3600000) s Hsame).
    split; [reflexivity|]. split; [exact Hl|].
    split; [lia|exact Hsame].
  - replace (s mod 86400000 / 3600000 =? 23) with true by lia.
    assert (Hd : num_ne (dayOfMonth (DateAt (s + 3600000)))
                        (dayOfMonth (DateAt s)) = true).
    { rewrite (dayOfMonth_day s), (dayOfMonth_day (s + 3600000)).
      unfold msPerDay. rewrite Hnext. apply dayOfMonth_next. }
    rewrite Hd.
    replace (s / 86400000 * 86400000 + 86400000 - 1)
      with (s / 86400000 * 86400000 + (86400000 - 1)) by ring.
    split; [reflexivity|]. split; [exact Hl|].
    revert Hend. generalize (s / 86400000) as q. intros q Hend.
    split; [lia|].
    apply (day_split q (86400000 - 1)). lia.
Qed.

(** X11.  A double click at a date, two days or more inside the range of
    the time values, opens the slot of the hour the date lies in: it
    begins at the full hour at or before the date and ends one hour
    later, except from 23:00 on, where it ends with the last millisecond
    of the day, at 23:59:59.999; so it ends on the day it begins, and an
    event with the times of the slot is accepted by [handleAddEvent]. *)
Theorem double_click_opens_the_hour (st : UIState) (l : Z)
  (eventTitle : jsstring) (fresh : nat) :
  Z.abs l <= maxTime - 2 * msPerDay ->
  let s := l / msPerHour * msPerHour in
  let e := if (s mod msPerDay) / msPerHour =? 23
           then s / msPerDay * msPerDay + (msPerDay - 1)
           else s + msPerHour in
  let added := {| ref := fresh;
                  body := Entered eventTitle (DateAt s) (DateAt e) |} in
  handleDateDoubleClick st (DateAt l)
  = ({| events := events st;
        selectedSlot := Some (DateAt s, DateAt e);
        selectedEvent := selectedEvent st |}, [])
  /\ s <= l < s + msPerHour
  /\ getMinutes (DateAt s) = Num 0
  /\ e / msPerDay = s / msPerDay
  /\ (getHours (DateAt s) = Num 23 ->
      e = s + msPerHour - 1
      /\ getHours (DateAt e) = Num 23 /\ getMinutes (DateAt e) = Num 59)
  /\ (getHours (DateAt s) <> Num 23 -> e = s + msPerHour)
  /\ handleAddEvent (fst (handleDateDoubleClick st (DateAt l))) added
     = ({| events := events st ++ [added];
           selectedSlot := None;
           selectedEvent := selectedEvent st |}, []).
Proof.
  intros _ s e added.
  destruct (double_click_slot st l) as (Hslot & Hl & He & Hd).
  fold s in Hslot, Hl, He, Hd. fold e in Hslot, He, Hd.
  split; [exact Hslot|]. split; [exact Hl|].
  split.
  { cbn [getMinutes]. f_equal. unfold s, msPerHour, msPerMinute.
    rewrite Z.mod_mul by lia. reflexivity. }
  split; [exact Hd|].
  destruct (hour_in_day l) as [_ Hday]. cbv zeta in Hday.
  change (l / 3600000 * 3600000) with s in Hday.
  cbn [getHours].
  split; [|split].
  - intros [= Hh]. unfold msPerDay, msPerHour in Hh.
    destruct Hday as [[Hn _]|(_ & _ & Hend)]; [contradiction|].
    assert (Ee : e = s + msPerHour - 1).
    { unfold e, msPerDay, msPerHour. rewrite Hh. cbn [Z.eqb Pos.eqb].
      lia. }
    split; [exact Ee|].
    cbn [getMinutes]. rewrite Ee.
    unfold msPerDay, msPerHour, msPerMinute.
    replace (s + 3600000 - 1)
      with (s / 86400000 * 86400000 + 23 * 3600000 + 59 * 60000 + 59999)
      by lia.
    destruct (reading_of_day (s / 86400000) 23 59 59999
                ltac:(lia) ltac:(lia) ltac:(lia)) as (_ & H23 & H59).
    now rewrite H23, H59.
  - intros Hh. unfold e.
    destruct ((s mod msPerDay) / msPerHour =? 23) eqn:E; [|reflexivity].
    apply Z.eqb_eq in E. rewrite E in Hh. contradiction.
  - rewrite Hslot. cbn [fst]. unfold handleAddEvent.
    cbn [endOf startOf body date_le events selectedEvent added].
    replace (e <=? s) with false by lia. reflexivity.
Qed.

(** A double click at 23:20 on 15 January 2024 opens the slot from 23:00
    to 23:59:59.999. *)
Lemma double_click_witness :
  selectedSlot (fst (handleDateDoubleClick addingSlot (DateAt 1705360800000)))
  = Some (DateAt 1705359600000, DateAt 1705363199999)
  /\ getHours (DateAt 1705363199999) = Num 23
  /\ getMinutes (DateAt 1705363199999) = Num 59.
Proof.
  destruct (double_click_opens_the_hour addingSlot 1705360800000 [] 0)
    as (Hslot & _ & _ & _ & Hcut & _).
  - vm_compute. discriminate.
  - rewrite Hslot. split; [reflexivity|].
    destruct (Hcut eq_refl) as (_ & Hh & Hm).
    split; [exact Hh|exact Hm].
Defined.

(* ================================================================= *)
(** ** The event handlers together *)

Lemma filter_others (x : EventObject) (l : list EventObject) :
  (forall e, In e l -> ref e <> ref x) ->
  filter (fun evt => negb (sameObject evt x)) l = l.
Proof.
  intros H. induction l as [|e l IH]; [reflexivity|].
  cbn [filter]. unfold sameObject at 1.
  destruct (Nat.eqb_spec (ref e) (ref x)) as [E|E].
  - exfalso. apply (H e); [now left|exact E].
  - cbn [negb]. f_equal. apply IH. intros y Hy. apply H. now right.
Qed.

(** X12.  An event that was added and is deleted again leaves the list of
    events as it was before, when no event of the list is the same
    object. *)
Theorem add_then_delete_restores (st : UIState) (e : EventObject) :
  date_le (endOf e) (startOf e) = false ->
  (forall x, In x (events st) -> ref x <> ref e) ->
  events (fst (handleDeleteEvent (fst (handleAddEvent st e)) e)) = events st.
Proof.
  intros Hv Hfresh. unfold handleAddEvent. rewrite Hv.
  cbn [fst handleDeleteEvent events].
  rewrite filter_app, (filter_others e (events st) Hfresh).
  cbn [filter]. unfold sameObject. rewrite Nat.eqb_refl. cbn [negb].
  apply app_nil_r.
Qed.

(** The copy of the seminar is added to the list of the seminar and
    deleted again. *)
Lemma add_then_delete_witness :
  events (fst (handleDeleteEvent (fst (handleAddEvent addingSlot eventA'))
                 eventA'))
  = [eventA].
Proof.
  apply (add_then_delete_restores addingSlot eventA').
  - reflexivity.
  - intros x [<-|[]]. cbn. discriminate.
Defined.

(** X13.  An edit made through the form, with times in order and on one
    day or confirmed: the list keeps its length; at every place of the
    list the selected event is replaced by the object the form built and
    every other event stays where it was; so every event of the new list
    is the object the form built or an event of the old list that is not
    the selected one, and every event of the old list that is not the
    selected one is in the new list; nothing is selected afterwards, and
    the object the form built has no learner group, whatever the selected
    event had. *)
Theorem form_edit_replaces_the_selected (st : UIState) (sel : EventObject)
  (formTitle : jsstring) (s e : JSDate) (confirmed : bool) (fresh : nat) :
  selectedSlot st = None -> selectedEvent st = Some sel ->
  date_le e s = false ->
  num_ne (dayOfMonth s) (dayOfMonth e) && negb confirmed = false ->
  let edited := {| ref := fresh; body := Entered formTitle s e |} in
  let after := fst (onSubmit st formTitle s e confirmed fresh) in
  List.length (events after) = List.length (events st)
  /\ (forall i x,
        nth_error (events st) i = Some x ->
        nth_error (events after) i
        = Some (if sameObject x sel then edited else x))
  /\ (forall x, In x (events after) ->
        x = edited \/ (In x (events st) /\ ref x <> ref sel))
  /\ (forall x, In x (events st) -> ref x <> ref sel ->
        In x (events after))
  /\ (In sel (events st) ->
      In edited (events after)
      /\ forall x, In x (events after) -> ref x = ref sel -> x = edited)
  /\ selectedEvent after = None
  /\ groupOf edited = None.
Proof.
  intros Hslot Hsel Hord Hday edited after.
  assert (Hafter : after
    = {| events := map (fun evt => if sameObject evt sel then edited else evt)
                       (events st);
         selectedSlot := None;
         selectedEvent := None |}).
  { unfold after, onSubmit. rewrite Hday.
    cbn [endOf startOf body]. rewrite Hord, Hslot.
    unfold handleUpdateEvent, isSelected. rewrite Hsel, Hslot. reflexivity. }
  rewrite Hafter. cbn [events selectedEvent].
  split; [apply length_map|].
  split.
  { intros i x Hx. rewrite nth_error_map, Hx. reflexivity. }
  split.
  { intros x Hx. apply in_map_iff in Hx as (y & Hy & Hin).
    unfold sameObject in Hy.
    destruct (Nat.eqb_spec (ref y) (ref sel)) as [E|E]; subst x; auto. }
  split.
  { intros x Hx Hother. apply in_map_iff. exists x. split; [|exact Hx].
    unfold sameObject.
    destruct (Nat.eqb_spec (ref x) (ref sel)) as [E|E];
      [contradiction|reflexivity]. }
  split; [|split; reflexivity].
  intros Hin. split.
  - apply in_map_iff. exists sel. split; [|exact Hin].
    unfold sameObject. now rewrite Nat.eqb_refl.
  - intros x Hx Hr. apply in_map_iff in Hx as (y & Hy & _).
    unfold sameObject in Hy.
    destruct (Nat.eqb_spec (ref y) (ref sel)) as [E|E]; subst x;
      [reflexivity|contradiction].
Qed.

(** The seminar, selected, is moved one hour later. *)
Lemma form_edit_witness :
  events (fst (onSubmit editingA (str "Seminar") (DateAt 1705330800000)
                 (DateAt 1705334400000) false 7))
  = [ {| ref := 7;
         body := Entered (str "Seminar") (DateAt 1705330800000)
                   (DateAt 1705334400000) |};
      eventA' ]
  /\ List.length
       (events (fst (onSubmit editingA (str "Seminar") (DateAt 1705330800000)
                       (DateAt 1705334400000) false 7))) = 2%nat.
Proof.
  split; [vm_compute; reflexivity|].
  assert (Hday : num_ne (dayOfMonth (DateAt 1705330800000))
                        (dayOfMonth (DateAt 1705334400000)) && negb false
                 = false) by (vm_compute; reflexivity).
  exact (proj1 (form_edit_replaces_the_selected editingA eventA (str "Seminar")
                  (DateAt 1705330800000) (DateAt 1705334400000) false 7
                  eq_refl eq_refl eq_refl Hday)).
Defined.

(* ================================================================= *)
(** ** Colours of the groups *)

Lemma colorCheck_holds :
  ltac:(let t := eval unfold colorCheck in (colorCheck = true) in exact t).
Proof. vm_compute. reflexivity. Qed.

Lemma chr_code (c : ascii) : chr (code c) = c.
Proof.
  unfold chr, code. rewrite N2Z.id. apply ascii_N_embedding.
Qed.

Lemma streq_refl (s : jsstring) : streq s s = true.
Proof.
  induction s as [|c s IH]; [reflexivity|].
  cbn [streq]. unfold ascii_eqb. now rewrite Z.eqb_refl.
Qed.

Lemma code_inj (a b : ascii) : code a = code b -> a = b.
Proof. intros H. rewrite <- (chr_code a), <- (chr_code b). now rewrite H. Qed.

Lemma streq_eq (a b : jsstring) : streq a b = true -> a = b.
Proof.
  revert b. induction a as [|x a IH]; intros [|y b]; cbn [streq];
    try discriminate; [reflexivity|].
  intros H. apply andb_true_iff in H as [Hc H].
  apply Z.eqb_eq in Hc. apply code_inj in Hc. subst y. f_equal. auto.
Qed.

Lemma property_In (key v : jsstring) (row : csvRow) :
  property key row = Some v -> In (key, v) row.
Proof.
  induction row as [|[k w] t IH]; [discriminate|].
  cbn [property]. destruct (streq k key) eqn:E.
  - intros [= ->]. apply streq_eq in E. subst k. now left.
  - intros H. right. auto.
Qed.

(** The colour of a group code. *)
Lemma color_of_code (g : jsstring) :
  isGroupCode g = true ->
  exists c,
    property g groupColors = Some c
    /\ colorOfGroup (Some g) = c
    /\ c <> defaultColor
    /\ forall g', property g' groupColors = Some c ->
         g' = g \/ (isE2orF2 g = true /\ isE2orF2 g' = true).
Proof.
  intros Hg.
  destruct g as [|l [|d [|x g]]]; try discriminate.
  cbn [isGroupCode] in Hg. unfold is1or2, between in Hg.
  assert (Il : In (code l) (zrange 65 8)) by (apply in_zrange; lia).
  assert (Id : In (code d) (zrange 49 2)) by (apply in_zrange; lia).
  clear Hg.
  pose proof colorCheck_holds as C.
  rewrite forallb_forall in C. specialize (C _ Il).
  rewrite forallb_forall in C. specialize (C _ Id).
  cbv beta zeta in C. rewrite !chr_code in C.
  unfold colorOfGroup.
  destruct (property [l; d] groupColors) as [c|] eqn:Hc; [|discriminate].
  apply andb_true_iff in C as [C Hall].
  apply andb_true_iff in C as [Hne Hdef].
  exists c. split; [reflexivity|].
  apply negb_true_iff in Hne. rewrite Hne.
  split; [reflexivity|]. split.
  - intros ->. now rewrite streq_refl in Hdef.
  - intros g' Hg'. apply property_In in Hg'.
    rewrite forallb_forall in Hall. specialize (Hall _ Hg').
    cbn [fst snd] in Hall. rewrite streq_refl in Hall. cbn [negb orb] in Hall.
    apply orb_true_iff in Hall as [E|E].
    + left. now apply streq_eq.
    + right. now apply andb_true_iff in E.
Qed.

(** X14.  The background colour of the events of a CSV upload: a record
    in a group A1 to H2 has the colour of the table for its group, which
    is not the default colour; a record that is "Ungrouped" has the
    default colour; and two records in different groups have the same
    colour only when one is in E2 and the other in F2. *)
Theorem csv_event_colours (host : Host) (row : csvRow) (r : EventRecord)
  (n : nat) :
  In r (processCSVRow host row) ->
  let e := {| ref := n; body := Imported r |} in
  (learnerGroup r = str "Ungrouped" /\ backgroundColor e = defaultColor)
  \/ (isGroupCode (learnerGroup r) = true
      /\ property (learnerGroup r) groupColors = Some (backgroundColor e)
      /\ backgroundColor e <> defaultColor
      /\ forall row' r' n',
           In r' (processCSVRow host row') ->
           backgroundColor {| ref := n'; body := Imported r' |}
           = backgroundColor e ->
           learnerGroup r' = learnerGroup r
           \/ (isE2orF2 (learnerGroup r) = true
               /\ isE2orF2 (learnerGroup r') = true)).
Proof.
  intros Hin e.
  assert (Hgroup : forall row r, In r (processCSVRow host row) ->
            learnerGroup r = str "Ungrouped"
            \/ isGroupCode (learnerGroup r) = true).
  { clear. intros row r Hin.
    destruct (processCSVRow_inv host row r Hin)
      as (s & en & _ & _ & _ & _ & _ & _ & Hg & _).
    rewrite deriveLearnerGroup_strings in Hg. injection Hg as ->.
    apply classify_result. }
  unfold backgroundColor, e. cbn [groupOf body].
  destruct (Hgroup row r Hin) as [Hu|Hc].
  - left. split; [exact Hu|]. rewrite Hu. reflexivity.
  - right. destruct (color_of_code _ Hc) as (c & Hp & Hcol & Hd & Huniq).
    rewrite Hcol. split; [exact Hc|]. split; [exact Hp|]. split; [exact Hd|].
    intros row' r' n' Hin' Hsame. cbn [groupOf body] in Hsame.
    destruct (Hgroup row' r' Hin') as [Hu'|Hc'].
    + rewrite Hu' in Hsame. exfalso. apply Hd. rewrite <- Hsame. reflexivity.
    + destruct (color_of_code _ Hc') as (c' & Hp' & Hcol' & _).
      rewrite Hcol' in Hsame. subst c'. exact (Huniq _ Hp').
Qed.

(** The record of the example row has the default colour. *)
Lemma csv_event_colours_witness :
  exists r,
    In r (processCSVRow utcHost (row3 "20240115" "09:00" "10:00"))
    /\ backgroundColor {| ref := 1; body := Imported r |} = defaultColor.
Proof.
  destruct (processCSVRow utcHost (row3 "20240115" "09:00" "10:00"))
    as [|r t] eqn:E; [vm_compute in E; discriminate|].
  exists r. split; [left; reflexivity|].
  assert (Hin : In r (processCSVRow utcHost (row3 "20240115" "09:00" "10:00")))
    by (rewrite E; left; reflexivity).
  destruct (csv_event_colours utcHost _ r 1 Hin) as [[_ H]|[Hc _]];
    [exact H|].
  vm_compute in E. injection E as <- _. discriminate Hc.
Defined.

(* ================================================================= *)
(** ** Uploads *)

Lemma processCSVRow_length (host : Host) (row : csvRow) :
  (List.length (processCSVRow host row) <= 1)%nat.
Proof.
  unfold processCSVRow.
  destruct (deriveLearnerGroup host _ _ _) as [lg|];
    cbn [catch bind]; [|cbn; lia].
  destruct (isEmptyStr _); [cbn; lia|].
  destruct (invalidDateFormat _); [cbn; lia|].
  destruct (parseDateTime host _ (JSString (getField row "Start Time")))
    as [s|]; [|cbn; lia].
  destruct (parseDateTime host _ (JSString (getField row "End Time")))
    as [en|]; [|cbn; lia].
  destruct (adjustEnd s en) as [en'|]; [|cbn; lia].
  destruct (describe host _) as [d|]; cbn [catch bind]; cbn; lia.
Qed.


Lemma flat_map_length_le {A B} (f : A -> list B) (l : list A) :
  (forall x, (List.length (f x) <= 1)%nat) ->
  (List.length (flat_map f l) <= List.length l)%nat.
Proof.
  intros H. induction l as [|x l IH]; [cbn; lia|].
  cbn [flat_map]. rewrite length_app. specialize (H x). cbn [List.length]. lia.
Qed.

Lemma filter_bothDates (l : list EventRecord) : filter bothDates l = l.
Proof.
  induction l as [|e l IH]; [reflexivity|]. cbn. now rewrite IH.
Qed.

Lemma processCSVRows_length (host : Host) (rows : list csvRow) :
  (List.length (processCSVRows host rows) <= List.length rows)%nat.
Proof.
  unfold processCSVRows. rewrite filter_bothDates.
  apply flat_map_length_le. apply processCSVRow_length.
Qed.






(** *** The rows of a CSV text *)

Lemma csvRow_keys (text : jsstring) (row : csvRow) (key : jsstring) :
  In row (papaParse text) -> In key (map fst row) -> In key (csvHeader text).
Proof.
  unfold papaParse, csvHeader.
  destruct (csvLines text) as [|header rows]; [contradiction|].
  intros Hrow Hkey. apply in_map_iff in Hrow as (line & <- & _).
  apply in_map_iff in Hkey as ([k v] & <- & Hin).
  now apply in_combine_l in Hin.
Qed.

Lemma property_absent (key : jsstring) (row : csvRow) :
  (forall k, In k (map fst row) -> streq k key = false) ->
  property key row = None.
Proof.
  induction row as [|[k v] t IH]; [reflexivity|].
  intros H. cbn [property]. rewrite (H k (or_introl eq_refl)).
  apply IH. intros k' Hk'. apply H. now right.
Qed.

Lemma getField_headerLacks (text : jsstring) (row : csvRow) (name : string) :
  headerLacks (csvHeader text) name = true ->
  In row (papaParse text) -> getField row name = [].
Proof.
  unfold headerLacks. intros H Hrow. rewrite forallb_forall in H.
  rewrite getField_absent.
  - rewrite property_absent; [reflexivity|].
    intros k Hk. specialize (H k (csvRow_keys text row k Hrow Hk)).
    apply andb_true_iff in H as [_ H]. now apply negb_true_iff in H.
  - unfold lacksColumn. apply forallb_forall. intros k Hk.
    specialize (H k (csvRow_keys text row k Hrow Hk)).
    now apply andb_true_iff in H as [H _].
Qed.

Lemma processCSVRow_without_date (host : Host) (row : csvRow) :
  getField row "Section Date" = [] -> processCSVRow host row = [].
Proof.
  intros H. unfold processCSVRow. rewrite H.
  destruct (deriveLearnerGroup host _ _ _); reflexivity.
Qed.

Lemma processCSVRow_without_time (host : Host) (row : csvRow) :
  getField row "Start Time" = [] \/ getField row "End Time" = [] ->
  processCSVRow host row = [].
Proof.
  intros H. destruct (processCSVRow host row) as [|e t] eqn:E; [reflexivity|].
  assert (Hin : In e (processCSVRow host row)) by (rewrite E; left; reflexivity).
  destruct (processCSVRow_inv host row e Hin)
    as (s & en & _ & _ & Hs & Hen & _).
  destruct (parseDateTime_time host _ _ _ Hs) as [_ [t1 Ht1]].
  destruct (parseDateTime_time host _ _ _ Hen) as [_ [t2 Ht2]].
  apply parseTime_truthy in Ht1, Ht2.
  destruct H as [H|H]; [rewrite H in Ht1|rewrite H in Ht2]; discriminate.
Qed.

Lemma flat_map_nil {A B} (f : A -> list B) (l : list A) :
  (forall x, In x l -> f x = []) -> flat_map f l = [].
Proof.
  intros H. induction l as [|x l IH]; [reflexivity|].
  cbn [flat_map]. rewrite (H x (or_introl eq_refl)). cbn [app].
  apply IH. intros y Hy. apply H. now right.
Qed.

(** X16.  The upload of a plain CSV text always ends with the status
    "Loaded n valid events from CSV", where n is the number of the events
    stored, at most one for each row of the text, and with the busy flag
    off.  There is no check of the header: a text without a column
    Section Date, Start Time or End Time (and without a column named
    "undefined") loads no event and the status is "Loaded 0 valid events
    from CSV". *)
Theorem csv_upload_outcome (host : Host) (file : UploadedFile)
  (st : UploadState) :
  plainCsv (fileText file) = true ->
  let after := processCSVUpload host file st in
  isProcessing after = false
  /\ uploadStatus after = loadedStatus (List.length (loadedEvents after)) "CSV"
  /\ (List.length (loadedEvents after)
      <= List.length (papaParse (fileText file)))%nat
  /\ (forall name,
        In name ["Section Date"; "Start Time"; "End Time"]%string ->
        headerLacks (csvHeader (fileText file)) name = true ->
        loadedEvents after = []
        /\ uploadStatus after = str "Loaded 0 valid events from CSV").
Proof.
  intros _ after. unfold after, processCSVUpload.
  cbn [isProcessing uploadStatus loadedEvents].
  split; [reflexivity|]. split; [reflexivity|]. split.
  - unfold processCSVFile. apply processCSVRows_length.
  - intros name Hname Hlacks.
    assert (Hnil : processCSVFile host (fileText file) = []).
    { unfold processCSVFile, processCSVRows. rewrite filter_bothDates.
      apply flat_map_nil. intros row Hrow.
      pose proof (getField_headerLacks (fileText file) row name Hlacks Hrow)
        as Hf.
      destruct Hname as [<-|[<-|[<-|[]]]].
      - now apply processCSVRow_without_date.
      - apply processCSVRow_without_time. now left.
      - apply processCSVRow_without_time. now right. }
    rewrite Hnil. split; reflexivity.
Qed.

(** The text without a column of end times has one row and loads no
    event. *)
Lemma csv_upload_witness :
  plainCsv (fileText csvWithoutEndFile) = true
  /\ List.length (papaParse (fileText csvWithoutEndFile)) = 1%nat
  /\ uploadStatus (processCSVUpload utcHost csvWithoutEndFile uploadBegins)
     = str "Loaded 0 valid events from CSV".
Proof.
  split; [vm_compute; reflexivity|]. split; [vm_compute; reflexivity|].
  destruct (csv_upload_outcome utcHost csvWithoutEndFile uploadBegins)
    as (_ & _ & _ & H).
  - vm_compute. reflexivity.
  - destruct (H "End Time"%string) as [_ Hs].
    + right. right. left. reflexivity.
    + vm_compute. reflexivity.
    + exact Hs.
Defined.

(** *** The reader of a file *)

(** The characters of the pattern of the name, up to case. *)
Lemma name_chars (c : ascii) :
  inSet true [CChar "."] c = ascii_eqb (lowerChar c) "."
  /\ inSet true [CChar "x"] c = ascii_eqb (lowerChar c) "x"
  /\ inSet true [CChar "l"] c = ascii_eqb (lowerChar c) "l"
  /\ inSet true [CChar "s"] c = ascii_eqb (lowerChar c) "s".
Proof.
  destruct c as [[] [] [] [] [] [] [] []]; vm_compute; repeat split.
Qed.

Ltac name_atoms :=
  repeat match goal with
         | |- context [inSet true [CChar ?x] ?c] =>
             first
               [ rewrite (proj1 (name_chars c))
               | rewrite (proj1 (proj2 (name_chars c)))
               | rewrite (proj1 (proj2 (proj2 (name_chars c))))
               | rewrite (proj2 (proj2 (proj2 (name_chars c)))) ]
         end;
  repeat match goal with
         | H : ascii_eqb (lowerChar ?c) ?x = _
           |- context [ascii_eqb (lowerChar ?c) ?x] => rewrite H
         | |- context [ascii_eqb (lowerChar ?c) ?x] =>
             destruct (ascii_eqb (lowerChar c) x) eqn:?
         end.

(** The pattern of the name at one place of the text. *)
Lemma run_excelNamePattern (n : nat) (s : jsstring) :
  match run true excelNamePattern (MState n s []) with
  | [] => false
  | _ :: _ => true
  end = isExcelSuffix s.
Proof.
  unfold excelNamePattern, isExcelSuffix, lit.
  destruct s as [|c1 [|c2 [|c3 [|c4 [|c5 [|c6 s]]]]]];
    repeat (progress
              (cbn [run rest consumed caps flat_map app map fold_right str
                    list_ascii_of_string toLowerCase streq andb orb];
               name_atoms));
    reflexivity.
Qed.

Lemma execAt_excelNamePattern (pos : nat) (s : jsstring) :
  match execAt true excelNamePattern pos s with
  | Some _ => true
  | None => false
  end = anySuffix isExcelSuffix s.
Proof.
  revert pos. induction s as [|c s IH]; intros pos; cbn [execAt anySuffix];
    rewrite <- (run_excelNamePattern pos);
    destruct (run true excelNamePattern _); cbn [orb];
    try reflexivity.
  apply IH.
Qed.

Lemma test_excelNamePattern (s : jsstring) :
  test true excelNamePattern s = anySuffix isExcelSuffix s.
Proof. unfold test, exec. apply execAt_excelNamePattern. Qed.

Lemma anySuffix_app (p : jsstring -> bool) (stem ext : jsstring) :
  p ext = true -> anySuffix p (stem ++ ext) = true.
Proof.
  intros H. induction stem as [|c stem IH]; cbn [app anySuffix].
  - destruct ext; cbn [anySuffix]; now rewrite H.
  - rewrite IH. apply orb_true_r.
Qed.

Lemma toLowerCase_length (s : jsstring) :
  List.length (toLowerCase s) = List.length s.
Proof. apply length_map. Qed.

(** A name that ends, up to case, with ".csv" has no place where the
    pattern of the name matches. *)
Lemma anySuffix_csv (stem ext : jsstring) :
  toLowerCase ext = str ".csv" ->
  anySuffix isExcelSuffix (stem ++ ext) = false.
Proof.
  intros H.
  assert (Hext : anySuffix isExcelSuffix ext = false).
  { destruct ext as [|c1 [|c2 [|c3 [|c4 [|c5 ext]]]]]; try discriminate.
    cbn [toLowerCase map str list_ascii_of_string] in H.
    injection H as H1 H2 H3 H4.
    unfold isExcelSuffix.
    cbn [anySuffix toLowerCase map]. rewrite H1, H2, H3, H4.
    vm_compute. reflexivity. }
  induction stem as [|c stem IH]; [exact Hext|].
  cbn [app anySuffix]. rewrite IH, orb_false_r.
  unfold isExcelSuffix.
  assert (Hrev : rev (toLowerCase (c :: stem ++ ext))
                 = rev (str ".csv") ++ rev (toLowerCase (c :: stem))).
  { change (c :: stem ++ ext) with ((c :: stem) ++ ext).
    unfold toLowerCase. rewrite map_app, rev_app_distr.
    fold (toLowerCase ext). now rewrite H. }
  apply orb_false_iff. split.
  - destruct (streq _ (str ".xlsx")) eqn:E; [|reflexivity].
    apply streq_eq in E. rewrite E in Hrev. discriminate Hrev.
  - destruct (streq _ (str ".xls")) eqn:E; [|reflexivity].
    apply streq_eq in E. rewrite E in Hrev. discriminate Hrev.
Qed.

Lemma endsWith_app (stem ext : jsstring) :
  endsWith (stem ++ ext) ext = true.
Proof.
  unfold endsWith. rewrite rev_app_distr.
  generalize (rev ext) as e. generalize (rev stem) as r.
  intros r e. induction e as [|c e IH]; cbn [app startsWith].
  - destruct r; reflexivity.
  - unfold ascii_eqb. now rewrite Z.eqb_refl.
Qed.

Lemma startsWith_same_length (a r p : jsstring) :
  List.length a = List.length p -> startsWith (a ++ r) p = true -> a = p.
Proof.
  revert p. induction a as [|x a IH]; intros [|y p]; try discriminate.
  - reflexivity.
  - cbn [List.length app startsWith]. intros [= Hl] H.
    apply andb_true_iff in H as [Hc H].
    apply Z.eqb_eq, code_inj in Hc. subst y. f_equal. now apply IH.
Qed.

Lemma endsWith_other (stem ext suffix : jsstring) :
  List.length ext = List.length suffix -> ext <> suffix ->
  endsWith (stem ++ ext) suffix = false.
Proof.
  intros Hl Hne. unfold endsWith. rewrite rev_app_distr.
  destruct (startsWith (rev ext ++ rev stem) (rev suffix)) eqn:E;
    [|reflexivity].
  exfalso. apply Hne.
  apply startsWith_same_length in E; [|now rewrite !length_rev].
  now rewrite <- (rev_involutive ext), E, rev_involutive.
Qed.

(** X17.  The reader of an upload is chosen by the name and the type of
    the file.  A name that ends with ".xlsx" or ".xls", in any case of
    the letters, is read as a spreadsheet whatever the type is.  A name
    that ends with ".csv" in lower case is read as CSV unless the type
    has "spreadsheet" in it.  A name that ends with ".csv" in another
    case is read as CSV only when the type is "text/csv"; with any other
    type that has no "spreadsheet" in it the file is refused as
    "Unsupported file type" and no event is left. *)
Theorem upload_reader_by_name (host : Host) (file : UploadedFile)
  (stem ext : jsstring) (st : UploadState) :
  fileName file = stem ++ ext ->
  (isExcelSuffix ext = true ->
   handleFileUpload host (Some file) st
   = processExcelFile host file uploadBegins)
  /\ (toLowerCase ext = str ".csv" ->
      includes (fileType file) (str "spreadsheet") = false ->
      (ext = str ".csv" \/ fileType file = str "text/csv" ->
       handleFileUpload host (Some file) st
       = processCSVUpload host file uploadBegins)
      /\ (ext <> str ".csv" -> fileType file <> str "text/csv" ->
          handleFileUpload host (Some file) st
          = {| loadedEvents := [];
               uploadStatus := unsupportedStatus;
               isProcessing := false |})).
Proof.
  intros Hname. unfold handleFileUpload. fold uploadBegins.
  rewrite test_excelNamePattern, Hname. split.
  - intros Hx. rewrite (anySuffix_app isExcelSuffix stem ext Hx).
    now rewrite orb_true_r.
  - intros Hcsv Htype. rewrite (anySuffix_csv stem ext Hcsv), Htype.
    cbn [orb]. split.
    + intros [-> | ->].
      * rewrite endsWith_app. now rewrite orb_true_r.
      * now rewrite streq_refl.
    + intros Hext Hty.
      rewrite (endsWith_other stem ext (str ".csv")); [|
        rewrite <- (toLowerCase_length ext), Hcsv; reflexivity|exact Hext].
      destruct (streq (fileType file) (str "text/csv")) eqn:E;
        [apply streq_eq in E; contradiction|].
      reflexivity.
Qed.

(** "Plan.XLSX" is read as a spreadsheet, and "PLAN.CSV" of the type
    "application/vnd.ms-excel" by no reader. *)
Lemma upload_reader_witness :
  uploadStatus (handleFileUpload utcHost (Some upperCaseSheetFile) uploadBegins)
  = excelError
  /\ uploadStatus (handleFileUpload utcHost (Some upperCaseCsvFile) uploadBegins)
     = unsupportedStatus.
Proof.
  split.
  - rewrite (proj1 (upload_reader_by_name utcHost upperCaseSheetFile
                      (str "Plan") (str ".XLSX") uploadBegins eq_refl)
               eq_refl).
    reflexivity.
  - rewrite (proj2 (proj2 (upload_reader_by_name utcHost upperCaseCsvFile
                             (str "PLAN") (str ".CSV") uploadBegins eq_refl)
                      eq_refl eq_refl));
      [reflexivity|discriminate|discriminate].
Defined.




(* ================================================================= *)
(** ** The list of the groups *)

Lemma streq_true_iff (a b : jsstring) : streq a b = true <-> a = b.
Proof. split; [apply streq_eq|intros ->; apply streq_refl]. Qed.

Lemma sameValue_true_iff (a b : option jsstring) :
  sameValue a b = true <-> a = b.
Proof.
  destruct a as [x|], b as [y|]; cbn [sameValue];
    try (split; [discriminate|intros H; discriminate H]);
    [|split; reflexivity].
  rewrite streq_true_iff. split; [now intros ->|now intros [= ->]].
Qed.

Lemma distinct_In (l : list (option jsstring)) (x : option jsstring) :
  In x (distinct l) <-> In x l.
Proof.
  induction l as [|y l IH]; [reflexivity|].
  cbn [distinct In]. rewrite filter_In, IH.
  destruct (sameValue y x) eqn:E.
  - apply sameValue_true_iff in E. subst y. cbn [negb].
    split; [intros [H|[_ H]]; [now left|discriminate]|intros _; now left].
  - cbn [negb]. split; [intros [H|[H _]]; auto|].
    intros [H|H]; [now left|now right].
Qed.

Lemma distinct_NoDup (l : list (option jsstring)) : NoDup (distinct l).
Proof.
  induction l as [|y l IH]; cbn [distinct]; [constructor|].
  constructor.
  - rewrite filter_In. intros [_ H].
    now rewrite (proj2 (sameValue_true_iff y y) eq_refl) in H.
  - now apply NoDup_filter.
Qed.

Lemma namedGroups_In (l : list (option jsstring)) (g : jsstring) :
  In g (namedGroups l) <-> g <> [] /\ In (Some g) l.
Proof.
  unfold namedGroups. rewrite in_flat_map. split.
  - intros ([s|] & Hin & Hg); [|contradiction].
    destruct s as [|c s]; [contradiction|].
    destruct Hg as [<-|[]]. split; [discriminate|exact Hin].
  - intros [Hne Hin]. exists (Some g). split; [exact Hin|].
    destruct g; [congruence|now left].
Qed.

Lemma namedGroups_NoDup (l : list (option jsstring)) :
  NoDup l -> NoDup (namedGroups l).
Proof.
  induction l as [|x l IH]; [constructor|].
  intros H. inversion H as [|? ? Hx Hl]; subst.
  unfold namedGroups. cbn [flat_map]. fold (namedGroups l).
  destruct x as [s|]; [|now apply IH].
  destruct s as [|c s]; [now apply IH|].
  cbn [isEmptyStr app]. constructor; [|now apply IH].
  intros Hin. apply namedGroups_In in Hin as [_ Hin]. contradiction.
Qed.

Lemma contains_In (x : jsstring) (l : list jsstring) :
  contains x l = true <-> In x l.
Proof.
  unfold contains. rewrite existsb_exists. split.
  - intros (y & Hy & E). apply streq_eq in E. now subst y.
  - intros H. exists x. split; [exact H|apply streq_refl].
Qed.

Lemma removeFirst_In (x : jsstring) (l : list jsstring) (g : jsstring) :
  NoDup l -> (In g (removeFirst x l) <-> In g l /\ g <> x).
Proof.
  induction l as [|y l IH]; intros Hnd; cbn [removeFirst In].
  - split; [contradiction|intros [[] _]].
  - inversion Hnd as [|? ? Hy Hl]; subst.
    destruct (streq y x) eqn:E.
    + apply streq_eq in E. subst y. split.
      * intros H. split; [now right|]. intros ->. contradiction.
      * intros [[H|H] Hne]; [congruence|exact H].
    + assert (Hyx : y <> x)
        by (intros ->; now rewrite streq_refl in E).
      cbn [In]. rewrite (IH Hl). split.
      * intros [H|[H Hne]]; [subst g; auto|auto].
      * intros [[H|H] Hne]; auto.
Qed.

Lemma removeFirst_NoDup (x : jsstring) (l : list jsstring) :
  NoDup l -> NoDup (removeFirst x l).
Proof.
  induction l as [|y l IH]; intros Hnd; cbn [removeFirst]; [constructor|].
  inversion Hnd as [|? ? Hy Hl]; subst.
  destruct (streq y x); [exact Hl|].
  constructor; [|now apply IH].
  intros H. apply (removeFirst_In x l y Hl) in H as [H _]. contradiction.
Qed.

Lemma insertSorted_perm (cmp : jsstring -> jsstring -> JSNum) (x : jsstring)
  (l : list jsstring) :
  Permutation (insertSorted cmp x l) (x :: l).
Proof.
  induction l as [|y l IH]; cbn [insertSorted]; [reflexivity|].
  destruct (num_gt (cmp x y) (Num 0)); [|reflexivity].
  rewrite IH. apply perm_swap.
Qed.

Lemma sortBy_perm (cmp : jsstring -> jsstring -> JSNum) (l : list jsstring) :
  Permutation (sortBy cmp l) l.
Proof.
  induction l as [|x l IH]; cbn [sortBy fold_right]; [reflexivity|].
  fold (sortBy cmp l). rewrite insertSorted_perm. now constructor.
Qed.

(** What the list is made of. *)
Lemma availableGroups_parts (locale : Locale) (events : list EventObject) :
  exists sorted,
    availableGroups locale events
    = str "All Groups" :: sorted
        ++ (if contains ungroupedName
                 (namedGroups (distinct (map groupOf events)))
            then [ungroupedName] else [])
    /\ NoDup sorted
    /\ ~ In ungroupedName sorted
    /\ (forall g, In g sorted <->
          g <> [] /\ g <> ungroupedName
          /\ exists e, In e events /\ groupOf e = Some g)
    /\ (contains ungroupedName (namedGroups (distinct (map groupOf events)))
        = true <->
        exists e, In e events /\ groupOf e = Some ungroupedName)
    /\ exists unsorted,
         sorted = sortBy (compareGroups locale) unsorted
         /\ forall g, In g unsorted <-> In g sorted.
Proof.
  unfold availableGroups.
  set (groups := namedGroups (distinct (map groupOf events))).
  assert (Hnd : NoDup groups)
    by (apply namedGroups_NoDup, distinct_NoDup).
  assert (Hin : forall g, In g groups <->
            g <> [] /\ exists e, In e events /\ groupOf e = Some g).
  { intros g. unfold groups. rewrite namedGroups_In, distinct_In, in_map_iff.
    split; intros [Hne (e & H1 & H2)]; (split; [exact Hne|]); exists e; auto. }
  assert (Hcont : contains ungroupedName groups = true <->
            exists e, In e events /\ groupOf e = Some ungroupedName).
  { rewrite contains_In, Hin. split; [intros [_ H]; exact H|].
    intros H. split; [discriminate|exact H]. }
  destruct (contains ungroupedName groups) eqn:Hc.
  - exists (sortBy (compareGroups locale) (removeFirst ungroupedName groups)).
    pose proof (sortBy_perm (compareGroups locale)
                  (removeFirst ungroupedName groups)) as Hp.
    assert (Hr : forall g, In g (sortBy (compareGroups locale)
                                   (removeFirst ungroupedName groups))
                  <-> In g groups /\ g <> ungroupedName).
    { intros g. rewrite <- (removeFirst_In ungroupedName groups g Hnd).
      split; apply Permutation_in; [exact Hp|now symmetry]. }
    split; [reflexivity|]. split.
    { apply (Permutation_NoDup (Permutation_sym Hp)).
      now apply removeFirst_NoDup. }
    split; [rewrite Hr; intros [_ H]; now apply H|].
    split.
    { intros g. rewrite Hr, Hin. tauto. }
    split; [exact Hcont|].
    exists (removeFirst ungroupedName groups). split; [reflexivity|].
    intros g. split; apply Permutation_in; [now symmetry|exact Hp].
  - exists (sortBy (compareGroups locale) groups).
    pose proof (sortBy_perm (compareGroups locale) groups) as Hp.
    assert (Hr : forall g, In g (sortBy (compareGroups locale) groups)
                  <-> In g groups).
    { intros g. split; apply Permutation_in; [exact Hp|now symmetry]. }
    assert (Hno : ~ In ungroupedName groups).
    { intros H. apply contains_In in H. congruence. }
    split; [now rewrite app_nil_r|]. split.
    { apply (Permutation_NoDup (Permutation_sym Hp)). exact Hnd. }
    split; [now rewrite Hr|].
    split.
    { intros g. rewrite Hr, Hin. split.
      - intros [Hne He]. split; [exact Hne|]. split; [|exact He].
        intros ->. apply Hno. apply Hin. auto.
      - tauto. }
    split; [exact Hcont|].
    exists groups. split; [reflexivity|]. intros g. now rewrite Hr.
Qed.

(** X19.  The list of the groups begins with "All Groups"; after it come
    the groups of the events, each once: every text that is the group of
    some event and is not empty, and nothing else (an event the form
    built has no group and adds nothing); and when some event is
    "Ungrouped", that name is the last of the list. *)
Theorem availableGroups_contents (locale : Locale) (events : list EventObject) :
  exists groups,
    availableGroups locale events = str "All Groups" :: groups
    /\ NoDup groups
    /\ (forall g, In g groups <->
          g <> [] /\ exists e, In e events /\ groupOf e = Some g)
    /\ (In ungroupedName groups ->
        exists others,
          groups = others ++ [ungroupedName] /\ ~ In ungroupedName others).
Proof.
  destruct (availableGroups_parts locale events)
    as (sorted & Heq & Hnd & Hno & Hin & Hcont & _).
  destruct (contains ungroupedName
              (namedGroups (distinct (map groupOf events)))) eqn:Hc.
  - exists (sorted ++ [ungroupedName]). split; [exact Heq|].
    destruct (proj1 Hcont eq_refl) as (e & He & Hg).
    split; [|split].
    + apply NoDup_app; [exact Hnd|repeat constructor; intros []|].
      intros g Hg1 [<-|[]]. contradiction.
    + intros g. rewrite in_app_iff, Hin. cbn [In]. split.
      * intros [(Hne & _ & H)|[<-|[]]]; [auto|].
        split; [discriminate|]. now exists e.
      * intros [Hne H].
        destruct (list_eq_dec ascii_dec g ungroupedName) as [->|Hd];
          [right; now left|left; auto].
    + intros _. now exists sorted.
  - exists sorted. rewrite app_nil_r in Heq. split; [exact Heq|].
    split; [exact Hnd|]. split.
    + intros g. rewrite Hin. split; [tauto|].
      intros [Hne (e & He & Hg)]. split; [exact Hne|]. split; [|now exists e].
      intros ->.
      assert (Hfalse : false = true)
        by (apply Hcont; now exists e).
      discriminate Hfalse.
    + intros H. contradiction.
Qed.

(** *** The order of the codes *)

Lemma insertSorted_sorted (cmp : jsstring -> jsstring -> JSNum)
  (rank : jsstring -> Z) (x : jsstring) (l : list jsstring) :
  StronglySorted (fun a b => rank a <= rank b) l ->
  (forall y, In y l ->
     (num_gt (cmp x y) (Num 0) = true <-> rank y < rank x)) ->
  StronglySorted (fun a b => rank a <= rank b) (insertSorted cmp x l).
Proof.
  intros Hs. induction Hs as [|y l Hs IH Hall]; intros Hcmp;
    cbn [insertSorted].
  - repeat constructor.
  - destruct (num_gt (cmp x y) (Num 0)) eqn:E.
    + apply (Hcmp y (or_introl eq_refl)) in E.
      constructor.
      * apply IH. intros z Hz. apply Hcmp. now right.
      * apply (Permutation_Forall (Permutation_sym (insertSorted_perm cmp x l))).
        constructor; [lia|exact Hall].
    + assert (Hxy : rank x <= rank y).
      { destruct (Z_lt_le_dec (rank y) (rank x)) as [H|H]; [|exact H].
        apply (Hcmp y (or_introl eq_refl)) in H. congruence. }
      constructor; [now constructor|].
      constructor; [exact Hxy|].
      rewrite Forall_forall in Hall |- *. intros z Hz.
      specialize (Hall z Hz). cbn beta in Hall. lia.
Qed.

Lemma sortBy_sorted (cmp : jsstring -> jsstring -> JSNum)
  (rank : jsstring -> Z) (l : list jsstring) :
  (forall a b, In a l -> In b l ->
     (num_gt (cmp a b) (Num 0) = true <-> rank b < rank a)) ->
  StronglySorted (fun a b => rank a <= rank b) (sortBy cmp l).
Proof.
  induction l as [|x l IH]; intros Hcmp; cbn [sortBy fold_right];
    [constructor|].
  fold (sortBy cmp l). apply insertSorted_sorted.
  - apply IH. intros a b Ha Hb. apply Hcmp; now right.
  - intros y Hy. apply Hcmp; [now left|].
    right. exact (Permutation_in y (sortBy_perm cmp l) Hy).
Qed.

Lemma strictly_sorted (rank : jsstring -> Z) (l : list jsstring) :
  (forall a b, In a l -> In b l -> rank a = rank b -> a = b) ->
  NoDup l ->
  StronglySorted (fun a b => rank a <= rank b) l ->
  StronglySorted (fun a b => rank a < rank b) l.
Proof.
  intros Hinj Hnd Hs. induction Hs as [|x l Hs IH Hall]; [constructor|].
  inversion Hnd as [|? ? Hx Hl]; subst.
  constructor.
  - apply IH; [|exact Hl]. intros a b Ha Hb. apply Hinj; now right.
  - rewrite Forall_forall in Hall |- *. intros y Hy.
    specialize (Hall y Hy). cbn beta in Hall.
    destruct (Z.eq_dec (rank x) (rank y)) as [E|E]; [|lia].
    apply Hinj in E; [|now left|now right]. subst y. contradiction.
Qed.

Lemma isGroupCode_shape (g : jsstring) :
  isGroupCode g = true ->
  exists l d, g = [l; d] /\ 65 <= code l <= 72 /\ 49 <= code d <= 50.
Proof.
  destruct g as [|l [|d [|x g]]]; try discriminate.
  cbn [isGroupCode]. unfold is1or2, between. intros H.
  exists l, d. split; [reflexivity|]. lia.
Qed.

Lemma codeRank_inj (a b : jsstring) :
  isGroupCode a = true -> isGroupCode b = true ->
  codeRank a = codeRank b -> a = b.
Proof.
  intros Ha Hb.
  destruct (isGroupCode_shape a Ha) as (l1 & d1 & -> & Hl1 & Hd1).
  destruct (isGroupCode_shape b Hb) as (l2 & d2 & -> & Hl2 & Hd2).
  cbn [codeRank]. intros H.
  assert (El : code l1 = code l2) by lia.
  assert (Ed : code d1 = code d2) by lia.
  apply code_inj in El, Ed. now subst.
Qed.

(** The pattern of the sort on a group code. *)
Lemma exec_sortPattern_code (l d : ascii) :
  65 <= code l <= 72 -> 49 <= code d <= 50 ->
  exec false sortPattern [l; d]
  = Some (RMatch [l; d] [(2%nat, [d]); (1%nat, [l])]).
Proof.
  intros Hl Hd.
  assert (H1 : inSet false [CRange "A" "Z"; CRange "a" "z"] l = true).
  { char_bools. to_props. lia. }
  assert (H2 : inSet false [CSpace] d = false).
  { rewrite inSet_space. unfold isWhiteSpace, between. lia. }
  assert (H3 : inSet false [CRange "1" "2"] d = true).
  { char_bools. to_props. lia. }
  unfold exec, sortPattern, oneOrTwo.
  cbn [execAt run rest consumed caps flat_map app map starSet fst snd].
  rewrite H1.
  cbn [execAt run rest consumed caps flat_map app map starSet fst snd].
  rewrite H2.
  cbn [execAt run rest consumed caps flat_map app map starSet fst snd].
  rewrite H3.
  cbn [execAt run rest consumed caps flat_map app map starSet fst snd
       Nat.sub firstn].
  reflexivity.
Qed.

Lemma compareGroups_codes (locale : Locale) (a b : jsstring) :
  alphabetical locale ->
  isGroupCode a = true -> isGroupCode b = true ->
  (num_gt (compareGroups locale a b) (Num 0) = true
   <-> codeRank b < codeRank a).
Proof.
  intros Hloc Ha Hb.
  destruct (isGroupCode_shape a Ha) as (l1 & d1 & -> & Hl1 & Hd1).
  destruct (isGroupCode_shape b Hb) as (l2 & d2 & -> & Hl2 & Hd2).
  unfold compareGroups.
  rewrite (exec_sortPattern_code l1 d1 Hl1 Hd1).
  rewrite (exec_sortPattern_code l2 d2 Hl2 Hd2).
  cbv zeta. unfold groupText, group. cbn [groups lookupGroup Nat.eqb].
  assert (Hup : forall l, 65 <= code l <= 72 -> toUpperCase [l] = [l]).
  { intros l Hl. cbn [toUpperCase map]. unfold upperChar, between.
    replace ((97 <=? code l) && (code l <=? 122)) with false by lia.
    replace ((224 <=? code l) && (code l <=? 254)) with false by lia.
    reflexivity. }
  assert (Hint : forall d, 49 <= code d <= 50 ->
            parseInt [d] = Num (code d - 48)).
  { intros d Hd. rewrite parseInt_digits; [|discriminate|].
    - cbn [digitsVal]. unfold isDigit, between, digitVal.
      replace ((48 <=? code d) && (code d <=? 57)) with true by lia.
      f_equal; lia.
    - cbn [allDigits forallb]. unfold isDigit, between.
      replace ((48 <=? code d) && (code d <=? 57)) with true by lia.
      reflexivity. }
  rewrite (Hup l1 Hl1), (Hup l2 Hl2), (Hint d1 Hd1), (Hint d2 Hd2).
  cbn [streq codeRank]. unfold ascii_eqb.
  destruct (code l1 =? code l2) eqn:E; cbn [andb num_sub num_gt num_lt].
  - apply Z.eqb_eq in E. rewrite Z.ltb_lt. lia.
  - apply Z.eqb_neq in E. rewrite Z.ltb_lt.
    assert (B1 : between 65 72 (code l1) = true) by (unfold between; lia).
    assert (B2 : between 65 72 (code l2) = true) by (unfold between; lia).
    rewrite (Hloc l1 l2 B1 B2). lia.
Qed.

(** X20.  When the collation of the host puts the capital letters A to H
    in the order of the alphabet and every group of an event is a group
    code or "Ungrouped", as the classifier gives them, the list of the
    groups has the codes in ascending order, by letter and then by
    number, between "All Groups" and, if it is there, "Ungrouped". *)
Theorem availableGroups_codes_in_order (locale : Locale)
  (events : list EventObject) :
  alphabetical locale ->
  (forall e g, In e events -> groupOf e = Some g ->
     g = ungroupedName \/ isGroupCode g = true) ->
  exists codes last,
    availableGroups locale events = str "All Groups" :: codes ++ last
    /\ (last = [] \/ last = [ungroupedName])
    /\ Forall (fun g => isGroupCode g = true) codes
    /\ StronglySorted (fun a b => codeRank a < codeRank b) codes.
Proof.
  intros Hloc Hgroups.
  destruct (availableGroups_parts locale events)
    as (sorted & Heq & Hnd & Hno & Hin & _ & unsorted & Hsort & Hsame).
  exists sorted. eexists. split; [exact Heq|].
  split; [destruct (contains _ _); auto|].
  assert (Hcodes : forall g, In g sorted -> isGroupCode g = true).
  { intros g Hg. apply Hin in Hg as (_ & Hne & e & He & Hge).
    destruct (Hgroups e g He Hge) as [->|H]; [contradiction|exact H]. }
  split; [now apply Forall_forall|].
  apply strictly_sorted.
  - intros a b Ha Hb. apply codeRank_inj; auto.
  - exact Hnd.
  - rewrite Hsort. apply sortBy_sorted. intros a b Ha Hb.
    apply compareGroups_codes; [exact Hloc| |]; apply Hcodes, Hsame;
      assumption.
Qed.

Lemma unitLocale_alphabetical : alphabetical unitLocale.
Proof.
  intros a b _ _. cbn [localeCompare unitLocale compareUnits].
  destruct (code a =? code b) eqn:E.
  - apply Z.eqb_eq in E. lia.
  - apply Z.eqb_neq in E. lia.
Qed.

(** The groups of the example events: A1, A2 and B2 in this order, then
    "Ungrouped". *)
Lemma availableGroups_order_witness :
  availableGroups unitLocale groupedEvents
  = map str ["All Groups"; "A1"; "A2"; "B2"; "Ungrouped"]%string
  /\ exists codes last,
       availableGroups unitLocale groupedEvents
       = str "All Groups" :: codes ++ last
       /\ StronglySorted (fun a b => codeRank a < codeRank b) codes.
Proof.
  split; [vm_compute; reflexivity|].
  destruct (availableGroups_codes_in_order unitLocale groupedEvents
              unitLocale_alphabetical)
    as (codes & last & Heq & _ & _ & Hs).
  - intros e g He Hg. unfold groupedEvents in He. cbn [In] in He.
    destruct He as [<-|[<-|[<-|[<-|[<-|[<-|[]]]]]]];
      cbn in Hg; try discriminate Hg; injection Hg as <-;
      try (left; reflexivity); right; reflexivity.
  - exists codes, last. split; [exact Heq|exact Hs].
Defined.

(* ================================================================= *)
(** ** The group classifier on values of any kind *)

(** The search of one name field on a value of any kind. *)
Lemma search_value (v : JSValue) :
  (if isEmptyStr [] && truthy v then
     m <- callMatch v true groupPattern ;;
     match m with
     | Some m => Normal (groupText 1 m ++ groupText 2 m)
     | None => Normal []
     end
   else Normal [])
  = if nonText v then Throw
    else Normal (match v with
                 | JSString s =>
                     match findCode s with Some g => g | None => [] end
                 | _ => []
                 end).
Proof.
  destruct v as [|b|z|s|d]; unfold nonText.
  - reflexivity.
  - destruct b; reflexivity.
  - cbn [isEmptyStr andb truthy callMatch bind].
    destruct (z =? 0); reflexivity.
  - rewrite search_step. cbn [truthy]. now rewrite andb_false_r.
  - reflexivity.
Qed.

(** X21.  The group classifier with a text as the explicit field.  When
    the text is, white space around it and case aside, a letter A to H
    followed by 1 or 2, the result is that code in upper case whatever
    the two names are, numbers and dates included.  Otherwise the
    classifier fails exactly when the section name is a number, a date
    or [true], or when no group is found in the section name and the
    session name is a number, a date or [true]. *)
Theorem deriveLearnerGroup_failures (host : Host) (explicit : jsstring)
  (session section : JSValue) :
  (isCodeAnyCase (trim explicit) = true ->
   deriveLearnerGroup host (JSString explicit) session section
   = Normal (toUpperCase (trim explicit)))
  /\ (isCodeAnyCase (trim explicit) = false ->
      (deriveLearnerGroup host (JSString explicit) session section = Throw
       <-> nonText section = true
           \/ (findsCode section = false /\ nonText session = true))).
Proof.
  unfold deriveLearnerGroup.
  cbn [toString bind]. rewrite test_expectedPattern.
  assert (Hfirst :
    (if truthy (JSString explicit)
     then Normal (if negb (isCodeAnyCase (trim explicit)) then [] else trim explicit)
     else Normal [])
    = Normal (if isCodeAnyCase (trim explicit) then trim explicit else [])).
  { destruct explicit as [|c t]; [reflexivity|]. cbn [truthy isEmptyStr negb].
    destruct (isCodeAnyCase (trim (c :: t))); reflexivity. }
  rewrite Hfirst. cbn [bind]. split; intros Hcode; rewrite Hcode.
  - destruct (isCodeAnyCase_shape _ Hcode) as (l & d & -> & Hl & Hd).
    cbn [isEmptyStr andb bind negb].
    now rewrite (trim_noSpace _ (code_noSpace l d Hl Hd)).
  - rewrite search_value.
    destruct (nonText section) eqn:Hsec; cbn [bind].
    + split; [auto|reflexivity].
    + assert (Hsession :
        forall g : jsstring,
          g = [] ->
          ((group <-
              (if isEmptyStr g && truthy session then
                 m <- callMatch session true groupPattern ;;
                 match m with
                 | Some m => Normal (groupText 1 m ++ groupText 2 m)
                 | None => Normal g
                 end
               else Normal g) ;;
            Normal (if negb (isEmptyStr group)
                    then toUpperCase (trim group)
                    else str "Ungrouped")) = Throw
           <-> nonText session = true)).
      { intros g ->. rewrite search_value.
        destruct (nonText session); cbn [bind];
          split; try reflexivity; intros H; discriminate H. }
      destruct section as [|b|z|s|d]; cbn [findsCode].
      * rewrite (Hsession [] eq_refl). intuition congruence.
      * rewrite (Hsession [] eq_refl). intuition congruence.
      * rewrite (Hsession [] eq_refl). intuition congruence.
      * destruct (findCode s) as [g|] eqn:Hs.
        -- destruct (findCode_shape _ _ Hs) as (l & d & -> & Hl & Hd).
           cbn [isEmptyStr andb bind negb].
           split; [discriminate|intros [H|[H _]]; discriminate H].
        -- rewrite (Hsession [] eq_refl). intuition congruence.
      * rewrite (Hsession [] eq_refl). intuition congruence.
Qed.

(* ================================================================= *)
(** ** Rows with a date and two times *)

Lemma digits_no_letter (s : jsstring) :
  allDigits s = true -> existsb isLetter s = false.
Proof.
  intros H. destruct (existsb isLetter s) eqn:E; [|reflexivity].
  apply letter_excludes_allDigits in E. congruence.
Qed.

Lemma notation_no_letter (y mo da s : jsstring) :
  allDigits y = true -> allDigits mo = true -> allDigits da = true ->
  In s (dateNotations y mo da) -> existsb isLetter s = false.
Proof.
  intros Hy Hm Hd Hin. unfold dateNotations in Hin. cbn [In] in Hin.
  destruct Hin as [<-|[<-|[<-|[<-|[<-|[]]]]]];
    rewrite ?existsb_app, ?(digits_no_letter y Hy), ?(digits_no_letter mo Hm),
      ?(digits_no_letter da Hd); reflexivity.
Qed.

(** X22.  A CSV row whose Section Date is a date of the calendar, from
    the year 10 on, in one of the five numeric notations, and whose Start
    Time and End Time the time parser reads as numbers, gives exactly one
    record.  It starts on that day at the start time; it ends on the same
    day at the end time when that is later than the start time, and one
    day later at the end time otherwise. *)
Theorem csv_row_with_date_and_times (host : Host) (row : csvRow)
  (y mo da : jsstring) (h1 m1 h2 m2 : Z) :
  List.length y = 4%nat -> List.length mo = 2%nat -> List.length da = 2%nat ->
  allDigits y = true -> allDigits mo = true -> allDigits da = true ->
  fieldsValid (DateFields (digitsVal 0 y) (digitsVal 0 mo) (digitsVal 0 da))
  = true ->
  10 <= digitsVal 0 y ->
  In (getField row "Section Date") (dateNotations y mo da) ->
  parseTime host (JSString (getField row "Start Time"))
  = Some {| hours := Num h1; minutes := Num m1 |} ->
  parseTime host (JSString (getField row "End Time"))
  = Some {| hours := Num h2; minutes := Num m2 |} ->
  let day := daysFromCivil (digitsVal 0 y) (digitsVal 0 mo) (digitsVal 0 da) in
  let s := day * msPerDay + h1 * msPerHour + m1 * msPerMinute in
  let e := day * msPerDay + h2 * msPerHour + m2 * msPerMinute in
  exists r,
    processCSVRow host row = [r]
    /\ start r = DateAt s
    /\ end_ r = DateAt (if s <? e then e else e + msPerDay)
    /\ civilOfDate (start r)
       = Some (digitsVal 0 y, digitsVal 0 mo, digitsVal 0 da).
Proof.
  intros Ly Lm Ld Hy Hm Hd Hv H10 Hin Ht1 Ht2 day s e.
  destruct (momentStrict_notations y mo da _ Ly Lm Ld Hy Hm Hd Hv H10 Hin)
    as (Hne & Hfix & Hser & Hdate).
  pose proof (parseDateTime_calendar host _ _ _ _ Hne Hfix Hser Hdate Ht1)
    as Hs.
  pose proof (parseDateTime_calendar host _ _ _ _ Hne Hfix Hser Hdate Ht2)
    as He.
  cbn [hours minutes] in Hs, He. rewrite momentSet_midnight in Hs, He.
  fold day in Hs, He. fold s in Hs. fold e in He.
  destruct (parseTime_fields host _ _ Ht1) as [R1 R2].
  destruct (parseTime_fields host _ _ Ht2) as [R3 R4].
  cbn [hours minutes nanOrBetween] in R1, R2, R3, R4.
  unfold between in R1, R2, R3, R4.
  assert (Hguard : invalidDateFormat (getField row "Section Date") = false).
  { unfold invalidDateFormat. rewrite test_letterPattern.
    now rewrite (notation_no_letter y mo da _ Hy Hm Hd Hin). }
  assert (Hempty : isEmptyStr (getField row "Section Date") = false).
  { destruct (getField row "Section Date"); [congruence|reflexivity]. }
  assert (Hadj : adjustEnd (DateAt s) (DateAt e)
                 = Some (DateAt (if s <? e then e else e + msPerDay))).
  { unfold adjustEnd. cbn [date_ge date_le addDays date_lt].
    destruct (e <=? s) eqn:E1.
    - replace (s <? e) with false by lia.
      replace (s <? e + 1 * msPerDay) with true
        by (unfold s, e, msPerDay, msPerHour, msPerMinute; lia).
      repeat f_equal; lia.
    - replace (s <? e) with true by lia. reflexivity. }
  eexists. split.
  - exact (processCSVRow_emit host row _ _ _ Hempty Hguard Hs He Hadj).
  - cbn [start end_]. split; [reflexivity|]. split; [reflexivity|].
    cbn [civilOfDate]. unfold s, msPerDay, msPerHour, msPerMinute.
    destruct (reading_of_day day h1 m1 0 ltac:(lia) ltac:(lia) ltac:(lia))
      as (Hday & _).
    rewrite Z.add_0_r in Hday. rewrite Hday.
    unfold day. now rewrite (civilFromDays_daysFromCivil _ _ _ Hv).
Qed.

(** The row from 14:00 to 13:00 on 15 January 2024 ends on the 16th. *)
Lemma csv_row_times_witness :
  exists r,
    processCSVRow utcHost (row3 "2024-01-15" "14:00" "13:00") = [r]
    /\ civilOfDate (start r) = Some (2024, 1, 15)
    /\ civilOfDate (end_ r) = Some (2024, 1, 16).
Proof.
  destruct (csv_row_with_date_and_times utcHost
              (row3 "2024-01-15" "14:00" "13:00")
              (str "2024") (str "01") (str "15") 14 0 13 0)
    as (r & Hr & Hs & He & Hc); try reflexivity.
  - vm_compute. discriminate.
  - right. left. reflexivity.
  - exists r. split; [exact Hr|]. split; [exact Hc|].
    rewrite He. vm_compute. reflexivity.
Defined.

(* ================================================================= *)
(** ** The question of the form *)

Lemma num_ne_sym (a b : JSNum) : num_ne a b = num_ne b a.
Proof.
  destruct a as [|x], b as [|y]; try reflexivity.
  unfold num_ne, num_eq. now rewrite Z.eqb_sym.
Qed.

(** X23.  The form asks whether an event over several days is meant when
    the numbers of the days of the month of the start and of the end are
    different.  For a start and an end on one day the question is never
    asked; for an end on the day after the start it is always asked, and
    when the answer is no, nothing changes and no alert is raised; and
    for a start and an end on days with the same number, as the 15th of
    two months, the question is not asked and the answer does not
    count. *)
Theorem onSubmit_question (st : UIState) (formTitle : jsstring)
  (ls le : Z) (fresh : nat) :
  (ls / msPerDay = le / msPerDay ->
   onSubmit st formTitle (DateAt ls) (DateAt le) false fresh
   = onSubmit st formTitle (DateAt ls) (DateAt le) true fresh)
  /\ (le / msPerDay = ls / msPerDay + 1 ->
      onSubmit st formTitle (DateAt ls) (DateAt le) false fresh = (st, []))
  /\ (snd (civilFromDays (ls / msPerDay)) = snd (civilFromDays (le / msPerDay)) ->
      onSubmit st formTitle (DateAt ls) (DateAt le) false fresh
      = onSubmit st formTitle (DateAt ls) (DateAt le) true fresh).
Proof.
  unfold onSubmit. split; [|split].
  - intros H. now rewrite (dayOfMonth_same_day ls le H).
  - intros H.
    rewrite (dayOfMonth_day ls), (dayOfMonth_day le), H, num_ne_sym.
    now rewrite dayOfMonth_next.
  - intros H. unfold dayOfMonth, civilOfDate.
    destruct (civilFromDays (ls / msPerDay)) as [[y1 m1] d1].
    destruct (civilFromDays (le / msPerDay)) as [[y2 m2] d2].
    cbn [snd] in H. subst d2. unfold num_ne, num_eq.
    now rewrite Z.eqb_refl.
Qed.

(** From 15 January to 15 February, added without the question. *)
Lemma onSubmit_question_witness :
  onSubmit addingSlot (str "Course") january15 february15 false 9
  = onSubmit addingSlot (str "Course") january15 february15 true 9
  /\ events (fst (onSubmit addingSlot (str "Course") january15 february15
                    false 9))
     = [eventA;
        {| ref := 9; body := Entered (str "Course") january15 february15 |}].
Proof.
  split.
  - apply (proj2 (proj2 (onSubmit_question addingSlot (str "Course")
                           (daysFromCivil 2024 1 15 * msPerDay + 10 * msPerHour)
                           (daysFromCivil 2024 2 15 * msPerDay + 11 * msPerHour)
                           9))).
    vm_compute. reflexivity.
  - vm_compute. reflexivity.
Defined.
